(** * OxaPay deposit module ([newdepositmethods.py]): a shallow embedding

    The development follows the layout of the Python module:
    - [PyStr], [PyFloat], [Json]: the fragment of the Python runtime the
      module relies on ([str] methods, [float()], [round()], JSON values,
      truthiness, [==] on set members);
    - [Sha256]: [hashlib.sha256] and [hmac.new(...).hexdigest()];
    - [Oxapay]: the module itself, function by function, under the names the
      source gives them;
    - [Reference]: a stand-in for the wallet functions of [bot.py], which
      the module imports at run time, and the payments of the examples;
    - [Spec]: the vocabulary of the statements;
    - [PyStrFacts], [Effects], [Delivery], [Deliveries], [Handler],
      [Outcomes], [Formats], [Sha256Facts], [StatsFacts], [Menus], [Talk],
      [Messages]: the lemmas, from strings up to whole runs of the server
      and of the conversation;
    - [Webhook], [Flow]: the theorems on the webhook handler, the invoice
      client and the deposit conversation;
    - [Endpoint], [Signature], [Bookkeeping], [Screens], [Dialogue],
      [Server]: further theorems on the handler, on [_credit], on the
      screens and their buttons, on the conversation as the library
      dispatches it, and on the server as a whole.

    Modelling conventions.  A Python [str] is a Rocq [string] read as ASCII
    text; a character above U+007F is outside the model (the case mappings
    and classifications below leave it alone).  A Python [float] is a
    primitive binary64 [float].  A Python [int] is a [Z]; [str(n)] and
    [int(s)] are the conversions without the bound of 4300 digits that
    CPython puts on them by default, and a statement on an arbitrary
    string says so where it depends on it. *)

From Stdlib Require Import ZArith Lia Bool List Ascii String.
From Stdlib Require Import Floats.PrimFloat Floats.FloatOps Floats.SpecFloat.
From Stdlib Require Import Numbers.Cyclic.Int63.Uint63.
From stdpp Require Import base option list gmap strings.

Local Open Scope string_scope.
Local Open Scope list_scope.
Local Open Scope Z_scope.
Local Set Warnings "-register-all".

(* ===================================================================== *)
(** * Python [str] methods *)
(* ===================================================================== *)

Module PyStr.

Definition code (c : ascii) : Z := Z.of_N (N_of_ascii c).
Definition chr (z : Z) : ascii := ascii_of_N (Z.to_N z).

Definition is_upper (c : ascii) : bool := (65 <=? code c) && (code c <=? 90).
Definition is_lower (c : ascii) : bool := (97 <=? code c) && (code c <=? 122).
Definition is_digit (c : ascii) : bool := (48 <=? code c) && (code c <=? 57).

(** [str.isspace] on one character: TAB, LF, VT, FF, CR, the four
    separators U+001C..U+001F, and SPACE. *)
Definition is_space (c : ascii) : bool :=
  ((9 <=? code c) && (code c <=? 13)) || ((28 <=? code c) && (code c <=? 32)).

Definition lower_char (c : ascii) : ascii :=
  if is_upper c then chr (code c + 32) else c.
Definition upper_char (c : ascii) : ascii :=
  if is_lower c then chr (code c - 32) else c.

Fixpoint map_chars (f : ascii -> ascii) (s : string) : string :=
  match s with
  | EmptyString => EmptyString
  | String c s' => String (f c) (map_chars f s')
  end.

(** [s.lower()] and [s.upper()]. *)
Definition lower (s : string) : string := map_chars lower_char s.
Definition upper (s : string) : string := map_chars upper_char s.

Fixpoint all_chars (p : ascii -> bool) (s : string) : bool :=
  match s with
  | EmptyString => true
  | String c s' => p c && all_chars p s'
  end.

(** [s.isdigit()]: at least one character, all of them digits. *)
Definition isdigit (s : string) : bool :=
  match s with
  | EmptyString => false
  | _ => all_chars is_digit s
  end.

(** [c in s] for a one-character [c]. *)
Fixpoint contains_char (c : ascii) (s : string) : bool :=
  match s with
  | EmptyString => false
  | String d s' => if Ascii.eqb c d then true else contains_char c s'
  end.

(** [s.split(c)[0]]: the part of [s] before the first [c], all of [s]
    when [c] does not occur. *)
Fixpoint split_head (c : ascii) (s : string) : string :=
  match s with
  | EmptyString => EmptyString
  | String d s' => if Ascii.eqb c d then EmptyString else String d (split_head c s')
  end.

Fixpoint lstrip (s : string) : string :=
  match s with
  | EmptyString => EmptyString
  | String c s' => if is_space c then lstrip s' else s
  end.

(** [rstrip] drops the trailing white space: a character is kept when it
    is not a space or when something is kept after it. *)
Fixpoint rstrip (s : string) : string :=
  match s with
  | EmptyString => EmptyString
  | String c s' =>
      match rstrip s' with
      | EmptyString => if is_space c then EmptyString else String c EmptyString
      | r => String c r
      end
  end.

(** [s.strip()]. *)
Definition strip (s : string) : string := rstrip (lstrip s).

(** [Some rest] when [s = p +:+ rest]. *)
Fixpoint strip_prefix (p s : string) : option string :=
  match p, s with
  | EmptyString, _ => Some s
  | String a p', String b s' => if Ascii.eqb a b then strip_prefix p' s' else None
  | String _ _, EmptyString => None
  end.

(** [s.replace(old, new)] for a non-empty [old]: the occurrences are
    found left to right and do not overlap.  Every step consumes a
    character of [s], so [S (length s)] steps are enough. *)
Fixpoint replace_fuel (fuel : nat) (old new s : string) : string :=
  match fuel with
  | O => s
  | S fuel' =>
      match strip_prefix old s with
      | Some rest => new +:+ replace_fuel fuel' old new rest
      | None =>
          match s with
          | EmptyString => EmptyString
          | String c s' => String c (replace_fuel fuel' old new s')
          end
      end
  end.

Definition replace (old new s : string) : string :=
  match old with
  | EmptyString => s
  | _ => replace_fuel (S (String.length s)) old new s
  end.

(** [s.rstrip(c)] for one character [c]. *)
Fixpoint rstrip_char (c : ascii) (s : string) : string :=
  match s with
  | EmptyString => EmptyString
  | String d s' =>
      match rstrip_char c s' with
      | EmptyString => if Ascii.eqb c d then EmptyString else String d EmptyString
      | r => String d r
      end
  end.

(** ** [str(n)] and [int(s)] *)

Definition digit_char (d : Z) : ascii := chr (48 + d).
Definition digit_val (c : ascii) : Z := code c - 48.

(** The decimal digits of [n >= 0], least significant first. *)
Fixpoint rev_digits (fuel : nat) (n : Z) : list Z :=
  match fuel with
  | O => []
  | S fuel' =>
      if n <? 10 then [n] else (n mod 10) :: rev_digits fuel' (n / 10)
  end.

Definition digits (n : Z) : list Z :=
  rev (rev_digits (S (Z.to_nat (Z.log2 n))) n).

Definition str_of_nonneg (n : Z) : string :=
  string_of_list_ascii (map digit_char (digits n)).

(** [str(n)], also the [{n}] of an f-string. *)
Definition str_of_int (n : Z) : string :=
  if n <? 0 then String "-" (str_of_nonneg (- n)) else str_of_nonneg n.

Fixpoint int_of_digits_from (acc : Z) (s : string) : Z :=
  match s with
  | EmptyString => acc
  | String c s' => int_of_digits_from (acc * 10 + digit_val c) s'
  end.

(** [int(s)] on a string for which [s.isdigit()] holds: the number its
    digits spell. *)
Definition int_of_digits (s : string) : Z := int_of_digits_from 0 s.

End PyStr.

(* ===================================================================== *)
(** * Python [float]: binary64 *)
(* ===================================================================== *)

Module PyFloat.

(** [n / d] divided by [2 ^ e], as a fraction. *)
Definition scale2 (n d e : Z) : Z * Z :=
  if 0 <=? e then (n, d * 2 ^ e) else (n * 2 ^ (- e), d).

(** [floor (log2 (n / d))] for positive [n], [d]. *)
Definition floor_log2 (n d : Z) : Z :=
  let e0 := Z.log2 n - Z.log2 d in
  let '(n1, d1) := scale2 n d e0 in
  if d1 <=? n1 then e0 else e0 - 1.

(** [n / d] rounded to an integer, ties to even ([0 <= n], [0 < d]). *)
Definition round_half_even (n d : Z) : Z :=
  let q := n / d in
  let r := n mod d in
  if (d <? 2 * r) || ((2 * r =? d) && Z.odd q) then q + 1 else q.

Definition of_mantissa (m e : Z) : float :=
  Z.ldexp (PrimFloat.of_uint63 (Uint63.of_Z m)) e.

(** The binary64 nearest to [n / d] (ties to even) for [0 <= n], [0 < d]:
    53 significant bits, no unit smaller than [2 ^ -1074], infinity past
    the largest finite value. *)
Definition nearest (n d : Z) : float :=
  if n <=? 0 then PrimFloat.zero
  else
    let e := floor_log2 n d in
    let s := Z.max (e - 52) (-1074) in
    let '(n2, d2) := scale2 n d s in
    of_mantissa (round_half_even n2 d2) s.

Definition is_finite (f : float) : bool :=
  negb (PrimFloat.is_nan f) && negb (PrimFloat.is_infinity f).

(** [float(n)] on an [int]: [None] is [OverflowError]. *)
Definition of_int (n : Z) : option float :=
  let f := nearest (Z.abs n) 1 in
  if PrimFloat.is_infinity f then None
  else Some (if n <? 0 then PrimFloat.opp f else f).

(** ** [float(s)] on a [str]

    The grammar of the language reference:
    [[sign] (floatnumber | "inf" | "infinity" | "nan")] between optional
    white space, with [floatnumber = number [exponent]],
    [number = [digitpart] "." digitpart | digitpart ["."]],
    [digitpart = digit (["_"] digit)*]. *)

(** The rest of a [digitpart] whose first digit has been read: the value
    so far, the number of digits so far, and what follows the part. *)
Fixpoint digitpart_from (s : string) (acc cnt : Z) : Z * Z * string :=
  match s with
  | String c s' =>
      if PyStr.is_digit c
      then digitpart_from s' (acc * 10 + PyStr.digit_val c) (cnt + 1)
      else if Ascii.eqb c "_" then
        match s' with
        | String c2 s'' =>
            if PyStr.is_digit c2
            then digitpart_from s'' (acc * 10 + PyStr.digit_val c2) (cnt + 1)
            else (acc, cnt, s)
        | EmptyString => (acc, cnt, s)
        end
      else (acc, cnt, s)
  | EmptyString => (acc, cnt, s)
  end.

Definition digitpart (s : string) : option (Z * Z * string) :=
  match s with
  | String c s' =>
      if PyStr.is_digit c then Some (digitpart_from s' (PyStr.digit_val c) 1)
      else None
  | EmptyString => None
  end.

(** [number]: the digits read as one integer, how many of them stand
    after the point, and the rest. *)
Definition number (s : string) : option (Z * Z * string) :=
  match digitpart s with
  | Some (ip, _, rest) =>
      match rest with
      | String "." rest' =>
          match digitpart rest' with
          | Some (fp, fcnt, rest'') => Some (ip * 10 ^ fcnt + fp, fcnt, rest'')
          | None => Some (ip, 0, rest')
          end
      | _ => Some (ip, 0, rest)
      end
  | None =>
      match s with
      | String "." rest' =>
          match digitpart rest' with
          | Some (fp, fcnt, rest'') => Some (fp, fcnt, rest'')
          | None => None
          end
      | _ => None
      end
  end.

(** [[sign] digitpart] of an exponent, up to the end of the string. *)
Definition exponent_value (s : string) : option Z :=
  let '(neg, s1) :=
    match s with
    | String "-" s' => (true, s')
    | String "+" s' => (false, s')
    | _ => (false, s)
    end in
  match digitpart s1 with
  | Some (ev, _, EmptyString) => Some (if neg then - ev else ev)
  | _ => None
  end.

Definition floatnumber (s : string) : option float :=
  match number s with
  | Some (m, fcnt, rest) =>
      let finish (ex : Z) : float :=
        let p := ex - fcnt in
        if 0 <=? p then nearest (m * 10 ^ p) 1 else nearest m (10 ^ (- p)) in
      match rest with
      | EmptyString => Some (finish 0)
      | String c rest' =>
          if Ascii.eqb c "e" || Ascii.eqb c "E" then
            match exponent_value rest' with
            | Some ex => Some (finish ex)
            | None => None
            end
          else None
      end
  | None => None
  end.

Definition absfloatvalue (s : string) : option float :=
  let l := PyStr.lower s in
  if String.eqb l "inf" || String.eqb l "infinity" then Some PrimFloat.infinity
  else if String.eqb l "nan" then Some PrimFloat.nan
  else floatnumber s.

(** The white space [float] skips at both ends of an ASCII string is C's
    [isspace]: TAB, LF, VT, FF, CR and SPACE.  The separators
    U+001C..U+001F, which [str.strip] drops, are not among them. *)
Definition is_c_space (c : ascii) : bool :=
  ((9 <=? PyStr.code c) && (PyStr.code c <=? 13)) || (PyStr.code c =? 32).

Fixpoint skip_leading (s : string) : string :=
  match s with
  | EmptyString => EmptyString
  | String c s' => if is_c_space c then skip_leading s' else s
  end.

Fixpoint skip_trailing (s : string) : string :=
  match s with
  | EmptyString => EmptyString
  | String c s' =>
      match skip_trailing s' with
      | EmptyString => if is_c_space c then EmptyString else String c EmptyString
      | r => String c r
      end
  end.

Definition between_spaces (s : string) : string := skip_trailing (skip_leading s).

(** [float(s)]: [None] is [ValueError]. *)
Definition of_string (s : string) : option float :=
  match between_spaces s with
  | String "-" s' => PrimFloat.opp <$> absfloatvalue s'
  | String "+" s' => absfloatvalue s'
  | s' => absfloatvalue s'
  end.

(** ** Exact values *)

(** A finite non-zero float is [(-1)^s * m * 2^e]; [Prim2SF] gives the
    one such triple with a normalised [m]. *)
Definition exact (f : float) : spec_float := Prim2SF f.

(** [round(x, 2)]: the exact value of [x] rounded to a multiple of
    [1/100], ties to even, then back to the nearest float. *)
Definition round2 (x : float) : float :=
  match exact x with
  | S754_finite s m e =>
      let '(n, d) := scale2 (Zpos m * 100) 1 (- e) in
      let r := nearest (round_half_even n d) 100 in
      if s then PrimFloat.opp r else r
  | _ => x
  end.

(** ** [repr(x)]: the shortest decimal string that reads back as [x] *)

Definition pos_part (z : Z) : Z := Z.max z 0.

(** [c * 10^p] against [y * 2^e], both brought to integers. *)
Definition dec_num (c p e : Z) : Z := c * 10 ^ pos_part p * 2 ^ pos_part (- e).
Definition bin_num (y p e : Z) : Z := y * 2 ^ pos_part e * 10 ^ pos_part (- p).
Definition cmp_dec_bin (c p y e : Z) : comparison :=
  dec_num c p e ?= bin_num y p e.

(** [floor (log10 (y * 2^e))] for [0 < y]: an estimate from the binary
    logarithm, one below at most, then stepped up. *)
Fixpoint log10_adjust (fuel : nat) (k y e : Z) : Z :=
  match fuel with
  | O => k
  | S fuel' =>
      match cmp_dec_bin 1 (k + 1) y e with
      | Gt => k
      | _ => log10_adjust fuel' (k + 1) y e
      end
  end.

Definition floor_log10 (y e : Z) : Z :=
  log10_adjust 4 ((Z.log2 y + e) * 1233 / 4096 - 1) y e.

(** The digits of [x = m * 2^e] ([0 < m]), in quarters of a unit in the
    last place: [x] is [4m], the half-way points to its neighbours are
    [4m + 2] above and [4m - 2] below, [4m - 1] below a power of two.
    A decimal [c * 10^p] reads back as [x] when it lies between the
    half-way points, which themselves count when [m] is even. *)
Definition reads_back (m e c p : Z) : bool :=
  let below := if (m =? 2 ^ 52) && (-1074 <? e) then 4 * m - 1 else 4 * m - 2 in
  let above := 4 * m + 2 in
  let strict := Z.odd m in
  match cmp_dec_bin c p below (e - 2), cmp_dec_bin c p above (e - 2) with
  | Gt, Lt => true
  | Eq, _ => negb strict
  | _, Eq => negb strict
  | _, _ => false
  end.

(** The candidate with [nd] digits: the multiple of [10^p] just below
    [x] or the one just above, the closer one when both read back. *)
Definition candidate (m e k : Z) (nd : Z) : option (Z * Z) :=
  let p := k - nd + 1 in
  let c := bin_num (4 * m) p (e - 2) / dec_num 1 p (e - 2) in
  match reads_back m e c p, reads_back m e (c + 1) p with
  | true, true =>
      match cmp_dec_bin (2 * c + 1) p (8 * m) (e - 2) with
      | Lt => Some (c + 1, p)
      | Gt => Some (c, p)
      | Eq => Some (if Z.even c then c else c + 1, p)
      end
  | true, false => Some (c, p)
  | false, true => Some (c + 1, p)
  | false, false => None
  end.

Fixpoint shortest_from (fuel : nat) (m e k nd : Z) : Z * Z :=
  match fuel with
  | O => (bin_num (4 * m) (k - nd + 1) (e - 2) / dec_num 1 (k - nd + 1) (e - 2), k - nd + 1)
  | S fuel' =>
      match candidate m e k nd with
      | Some r => r
      | None => shortest_from fuel' m e k (nd + 1)
      end
  end.

Fixpoint strip_zeros (fuel : nat) (c p : Z) : Z * Z :=
  match fuel with
  | O => (c, p)
  | S fuel' => if (c mod 10 =? 0) && (0 <? c) then strip_zeros fuel' (c / 10) (p + 1) else (c, p)
  end.

(** The digit string and the position of the decimal point: the value is
    [0.d1d2... * 10^decpt]. *)
Definition shortest_digits (m e : Z) : string * Z :=
  let k := floor_log10 m e in
  let '(c, p) := shortest_from 17 m e k 1 in
  let '(c, p) := strip_zeros 20 c p in
  let ds := PyStr.str_of_nonneg c in
  (ds, Z.of_nat (String.length ds) + p).

Definition zeros (n : Z) : string :=
  string_of_list_ascii (List.repeat "0"%char (Z.to_nat n)).

Definition take (n : Z) (s : string) : string := String.substring 0 (Z.to_nat n) s.
Definition drop (n : Z) (s : string) : string :=
  String.substring (Z.to_nat n) (String.length s - Z.to_nat n) s.

(** Format [r]: fixed notation for [1e-4 <= x < 1e16], with [.0] added
    to an integer; otherwise [d.ddde+XX] with two exponent digits at
    least. *)
Definition format_r (ds : string) (decpt : Z) : string :=
  if (decpt <=? -4) || (16 <? decpt) then
    let ex := decpt - 1 in
    let mant :=
      match ds with
      | String d EmptyString => ds
      | String d rest => String d (String "." rest)
      | EmptyString => ds
      end in
    let exs := PyStr.str_of_nonneg (Z.abs ex) in
    mant +:+ "e" +:+ (if ex <? 0 then "-" else "+")
         +:+ (if Z.abs ex <? 10 then "0" else "") +:+ exs
  else if decpt <=? 0 then "0." +:+ zeros (- decpt) +:+ ds
  else
    let len := Z.of_nat (String.length ds) in
    if len <=? decpt then ds +:+ zeros (decpt - len) +:+ ".0"
    else take decpt ds +:+ "." +:+ drop decpt ds.

(** [repr(x)] for a float. *)
Definition repr (x : float) : string :=
  match exact x with
  | S754_nan => "nan"
  | S754_infinity s => if s then "-inf" else "inf"
  | S754_zero s => if s then "-0.0" else "0.0"
  | S754_finite s m e =>
      let '(ds, decpt) := shortest_digits (Zpos m) e in
      (if s then "-" else "") +:+ format_r ds decpt
  end.

End PyFloat.

(* ===================================================================== *)
(** * JSON values as [json.loads] returns them *)
(* ===================================================================== *)

Module Json.

(** [None], [bool], [int], [float], [str], [list] and [dict].  A [dict]
    keeps its items in insertion order; [json.loads] gives every key
    once. *)
Inductive json : Type :=
| JNull
| JBool (b : bool)
| JInt (n : Z)
| JFloat (f : float)
| JStr (s : string)
| JArr (items : list json)
| JObj (fields : list (string * json)).

Abbreviation dict := (list (string * json)).

(** [d.get(k)]: [None] when [k] is not a key. *)
Fixpoint get (d : dict) (k : string) : option json :=
  match d with
  | [] => None
  | (k', v) :: d' => if String.eqb k k' then Some v else get d' k
  end.

(** [d.get(k, default)]. *)
Definition get_default (d : dict) (k : string) (default : json) : json :=
  match get d k with
  | Some v => v
  | None => default
  end.

(** [{k: v for k, v in d.items() if k != key}]. *)
Definition without (key : string) (d : dict) : dict :=
  List.filter (fun kv => negb (String.eqb (fst kv) key)) d.

(** [bool(v)]. *)
Definition truthy (v : json) : bool :=
  match v with
  | JNull => false
  | JBool b => b
  | JInt n => negb (n =? 0)
  | JFloat f => negb (PrimFloat.eqb f PrimFloat.zero)
  | JStr s => negb (String.eqb s "")
  | JArr l => negb (Nat.eqb (List.length l) 0)
  | JObj d => negb (Nat.eqb (List.length d) 0)
  end.

(** [a or b]. *)
Definition py_or (a b : json) : json := if truthy a then a else b.

(** ** Members of a [set]

    A set compares its members with [==] after hashing: [1], [1.0] and
    [True] are one member, and so are [0], [0.0], [-0.0] and [False].
    [pykey] has one value per class.  A float that is no integer is
    kept by its normalised sign, mantissa and exponent.  [json.loads]
    returns one and the same object for every [NaN], which a set finds
    again by identity. *)
Inductive pykey : Type :=
| KNone
| KStr (s : string)
| KInt (n : Z)
| KFrac (neg : bool) (m : positive) (e : Z)
| KInf (neg : bool)
| KNan.

Definition key_of_float (f : float) : pykey :=
  match PyFloat.exact f with
  | S754_zero _ => KInt 0
  | S754_infinity s => KInf s
  | S754_nan => KNan
  | S754_finite s m e =>
      let sign (z : Z) := if s then - z else z in
      if 0 <=? e then KInt (sign (Zpos m * 2 ^ e))
      else if Zpos m mod 2 ^ (- e) =? 0 then KInt (sign (Zpos m / 2 ^ (- e)))
      else KFrac s m e
  end.

(** [hash(v)] followed by the class of [v]: [None] is the [TypeError]
    of an unhashable [list] or [dict]. *)
Definition hash_key (v : json) : option pykey :=
  match v with
  | JNull => Some KNone
  | JBool b => Some (KInt (if b then 1 else 0))
  | JInt n => Some (KInt n)
  | JFloat f => Some (key_of_float f)
  | JStr s => Some (KStr s)
  | JArr _ | JObj _ => None
  end.

(** [v == n] for an [int] [n]. *)
Definition eq_int (v : json) (n : Z) : bool :=
  match hash_key v with
  | Some (KInt m) => m =? n
  | _ => false
  end.

#[global] Instance pykey_eq_dec : EqDecision pykey.
Proof. solve_decision. Defined.

Definition pykey_enc (k : pykey) : unit + string + Z + (bool * positive * Z) + bool + unit :=
  match k with
  | KNone => inl (inl (inl (inl (inl tt))))
  | KStr s => inl (inl (inl (inl (inr s))))
  | KInt n => inl (inl (inl (inr n)))
  | KFrac s m e => inl (inl (inr (s, m, e)))
  | KInf s => inl (inr s)
  | KNan => inr tt
  end.

Definition pykey_dec (x : unit + string + Z + (bool * positive * Z) + bool + unit) : pykey :=
  match x with
  | inl (inl (inl (inl (inl _)))) => KNone
  | inl (inl (inl (inl (inr s)))) => KStr s
  | inl (inl (inl (inr n))) => KInt n
  | inl (inl (inr (s, m, e))) => KFrac s m e
  | inl (inr s) => KInf s
  | inr _ => KNan
  end.

#[global] Instance pykey_countable : Countable pykey.
Proof.
  apply (inj_countable' pykey_enc pykey_dec).
  intros []; reflexivity.
Defined.

(** ** [json.dumps(v, separators=(",", ":"))] *)

Definition hex_digit (d : Z) : ascii :=
  if d <? 10 then PyStr.chr (48 + d) else PyStr.chr (87 + d).

(** One character of a string, [ensure_ascii] being on: the short
    escapes, [\uXXXX] for what is not between SPACE and [~]. *)
Definition two (a b : ascii) : string := String a (String b EmptyString).
Definition backslash : ascii := PyStr.chr 92.

Definition escape_char (c : ascii) : string :=
  let n := PyStr.code c in
  if n =? 34 then two backslash (PyStr.chr 34)
  else if n =? 92 then two backslash backslash
  else if n =? 10 then two backslash "n"
  else if n =? 13 then two backslash "r"
  else if n =? 9 then two backslash "t"
  else if n =? 8 then two backslash "b"
  else if n =? 12 then two backslash "f"
  else if (32 <=? n) && (n <=? 126) then String c EmptyString
  else two backslash "u" +:+ two "0" "0"
         +:+ two (hex_digit (n / 16)) (hex_digit (n mod 16)).

Fixpoint escape (s : string) : string :=
  match s with
  | EmptyString => EmptyString
  | String c s' => escape_char c +:+ escape s'
  end.

Definition quote (s : string) : string :=
  String (PyStr.chr 34) (escape s +:+ String (PyStr.chr 34) EmptyString).

Definition dumps_float (f : float) : string :=
  if PrimFloat.is_nan f then "NaN"
  else if PrimFloat.is_infinity f
       then (if PrimFloat.ltb f PrimFloat.zero then "-Infinity" else "Infinity")
       else PyFloat.repr f.

Fixpoint dumps (v : json) : string :=
  match v with
  | JNull => "null"
  | JBool b => if b then "true" else "false"
  | JInt n => PyStr.str_of_int n
  | JFloat f => dumps_float f
  | JStr s => quote s
  | JArr l => "[" +:+ String.concat "," (List.map dumps l) +:+ "]"
  | JObj d =>
      "{" +:+ String.concat ","
               (List.map (fun kv => quote (fst kv) +:+ ":" +:+ dumps (snd kv)) d)
          +:+ "}"
  end.

End Json.

(* ===================================================================== *)
(** * [hashlib.sha256] and [hmac] *)
(* ===================================================================== *)

Module Sha256.

Definition w32 (x : Z) : Z := x mod 2 ^ 32.
Definition add32 (x y : Z) : Z := w32 (x + y).
Definition rotr (n x : Z) : Z :=
  Z.lor (Z.shiftr x n) (w32 (Z.shiftl x (32 - n))).
Definition not32 (x : Z) : Z := Z.lxor x 0xffffffff.

Definition Ch (x y z : Z) : Z := Z.lxor (Z.land x y) (Z.land (not32 x) z).
Definition Maj (x y z : Z) : Z :=
  Z.lxor (Z.lxor (Z.land x y) (Z.land x z)) (Z.land y z).
Definition Sigma0 (x : Z) : Z := Z.lxor (Z.lxor (rotr 2 x) (rotr 13 x)) (rotr 22 x).
Definition Sigma1 (x : Z) : Z := Z.lxor (Z.lxor (rotr 6 x) (rotr 11 x)) (rotr 25 x).
Definition sigma0 (x : Z) : Z := Z.lxor (Z.lxor (rotr 7 x) (rotr 18 x)) (Z.shiftr x 3).
Definition sigma1 (x : Z) : Z := Z.lxor (Z.lxor (rotr 17 x) (rotr 19 x)) (Z.shiftr x 10).

(** The first [need] primes, by trial division. *)
Fixpoint primes_from (fuel need : nat) (n : Z) (found : list Z) : list Z :=
  match fuel, need with
  | S fuel', S need' =>
      if List.forallb (fun p => negb (n mod p =? 0)) found
      then primes_from fuel' need' (n + 1) (n :: found)
      else primes_from fuel' need (n + 1) found
  | _, _ => List.rev found
  end.

Definition first_primes (need : nat) : list Z := primes_from 400 need 2 [].

(** The integer cube root, one bit after the other. *)
Fixpoint cube_root_bits (bits : nat) (n r : Z) : Z :=
  match bits with
  | O => r
  | S bits' =>
      let c := r + 2 ^ Z.of_nat bits' in
      cube_root_bits bits' n (if c * c * c <=? n then c else r)
  end.

Definition cube_root (n : Z) : Z := cube_root_bits 40 n 0.

(** The round constants: the first 32 bits of the fractional parts of the
    cube roots of the first 64 primes. *)
Definition K : list Z :=
  Eval vm_compute in List.map (fun p => w32 (cube_root (p * 2 ^ 96))) (first_primes 64).

(** The initial hash value: the first 32 bits of the fractional parts of
    the square roots of the first 8 primes. *)
Definition H0 : list Z :=
  Eval vm_compute in List.map (fun p => w32 (Z.sqrt (p * 2 ^ 64))) (first_primes 8).

(** Bytes are integers below 256. *)
Definition bytes_of_string (s : string) : list Z :=
  List.map PyStr.code (list_ascii_of_string s).

(** [n] as [k] bytes, most significant first. *)
Fixpoint be_bytes (k : nat) (n : Z) : list Z :=
  match k with
  | O => []
  | S k' => (n / 2 ^ (8 * Z.of_nat k')) mod 256 :: be_bytes k' n
  end.

(** The message, a [1] bit, zeros up to 56 modulo 64 bytes, and the
    length in bits on 8 bytes. *)
Definition pad (msg : list Z) : list Z :=
  let len := Z.of_nat (List.length msg) in
  let zeros := (55 - len) mod 64 in
  (msg ++ [128] ++ List.repeat 0 (Z.to_nat zeros) ++ be_bytes 8 (8 * len))%list.

Fixpoint words (fuel : nat) (bs : list Z) : list Z :=
  match fuel, bs with
  | S fuel', a :: b :: c :: d :: rest =>
      (((a * 256 + b) * 256 + c) * 256 + d) :: words fuel' rest
  | _, _ => []
  end.

Definition nth_word (i : nat) (l : list Z) : Z := List.nth i l 0.

(** The message schedule, last word first: [W_t] is made of [W_(t-2)],
    [W_(t-7)], [W_(t-15)] and [W_(t-16)]. *)
Fixpoint schedule (n : nat) (rev_w : list Z) : list Z :=
  match n with
  | O => rev_w
  | S n' =>
      let w := add32 (add32 (sigma1 (nth_word 1 rev_w)) (nth_word 6 rev_w))
                     (add32 (sigma0 (nth_word 14 rev_w)) (nth_word 15 rev_w)) in
      schedule n' (w :: rev_w)
  end.

Definition round (st : list Z) (kw : Z * Z) : list Z :=
  match st with
  | [a; b; c; d; e; f; g; h] =>
      let t1 := add32 (add32 (add32 h (Sigma1 e)) (add32 (Ch e f g) (fst kw))) (snd kw) in
      let t2 := add32 (Sigma0 a) (Maj a b c) in
      [add32 t1 t2; a; b; c; add32 d t1; e; f; g]
  | _ => st
  end.

Definition compress (h : list Z) (block : list Z) : list Z :=
  let w := List.rev (schedule 48 (List.rev block)) in
  let st := List.fold_left round (List.combine K w) h in
  List.map (fun p => add32 (fst p) (snd p)) (List.combine h st).

Fixpoint blocks (fuel : nat) (h : list Z) (ws : list Z) : list Z :=
  match fuel with
  | O => h
  | S fuel' =>
      match ws with
      | [] => h
      | _ => blocks fuel' (compress h (List.firstn 16 ws)) (List.skipn 16 ws)
      end
  end.

(** [hashlib.sha256(msg).digest()]. *)
Definition digest (msg : list Z) : list Z :=
  let p := pad msg in
  let ws := words (List.length p) p in
  List.flat_map (be_bytes 4) (blocks (List.length ws) H0 ws).

Definition hex_of_bytes (bs : list Z) : string :=
  string_of_list_ascii
    (List.flat_map (fun b => [Json.hex_digit (b / 16); Json.hex_digit (b mod 16)]) bs).

(** [hmac.new(key, msg, hashlib.sha256)]: a key longer than the 64-byte
    block is hashed first, the key is padded with zeros to the block,
    and the digest is taken twice, with the pads [0x36] and [0x5c]. *)
Definition hmac (key msg : list Z) : list Z :=
  let k0 := if (64 <? Z.of_nat (List.length key)) then digest key else key in
  let k := (k0 ++ List.repeat 0 (64 - List.length k0)%nat)%list in
  let ipad := List.map (Z.lxor 0x36) k in
  let opad := List.map (Z.lxor 0x5c) k in
  digest (opad ++ digest (ipad ++ msg))%list.

(** [hmac.new(key, msg, hashlib.sha256).hexdigest()]. *)
Definition hmac_hexdigest (key msg : list Z) : string :=
  hex_of_bytes (hmac key msg).

End Sha256.

(* ===================================================================== *)
(** * The module [newdepositmethods.py] *)
(* ===================================================================== *)

Module Oxapay.

Import Json.

(** ** Configuration (lines 55-65) *)

Record config : Type := Config {
  OXAPAY_MERCHANT_KEY : string;
  OXAPAY_WEBHOOK_HOST : string;
  OXAPAY_WEBHOOK_PORT : Z;
  OXAPAY_WEBHOOK_PATH : string;
  OXAPAY_MIN_DEPOSIT_USD : float;
  OXAPAY_SUPPORTED_CURRENCIES : list string
}.

(** The values the source file ships with. *)
Definition shipped : config := {|
  OXAPAY_MERCHANT_KEY := "sandbox";
  OXAPAY_WEBHOOK_HOST := "https://yourdomain.com";
  OXAPAY_WEBHOOK_PORT := 8443;
  OXAPAY_WEBHOOK_PATH := "/oxapay/webhook";
  OXAPAY_MIN_DEPOSIT_USD := 0x1.4p+2%float;
  OXAPAY_SUPPORTED_CURRENCIES := ["BTC"; "ETH"; "USDT"; "LTC"; "TRX"; "BNB"; "SOL"]
|}.

(** ** The data of [bot.py] this module reads and writes

    [b.user_stats[uid]] is a [dict]; the keys used here are
    ["unwagered_deposit"] and ["referral"], the latter a [dict] with the
    keys ["referrer_id"] and ["commissions"].  A key that is absent is
    [None]. *)
Record referral_data : Type := Referral {
  referrer_id : option Z;
  commissions : option (gmap string float)
}.

Record stats : Type := Stats {
  unwagered_deposit : option float;
  referral : option referral_data
}.

Record bot : Type := Bot {
  user_wallets : gmap Z (gmap string float);
  user_stats : gmap Z stats;
  LIVE_PRICES : gmap string float;
  CRYPTO_SYMBOLS : gmap string string;
  SUPPORTED_CRYPTOS : list string
}.

(** The functions of [bot.py] the module calls.  Their code is not part
    of this file: each is any function on the data of [bot.py]. *)
Class BotApi : Type := {
  credit_wallet_crypto : Z -> float -> string -> bot -> bot;
  save_user_data : Z -> bot -> bot;
  load_user_data_if_missing : Z -> bot -> bot
}.

(** ** What the handler does to the outside, in the order it does it *)

Inductive level : Type := INFO | WARNING | ERROR.

Inductive exn : Type :=
| JSONDecodeError | AttributeError | TypeError | ValueError | OverflowError.

(** The log lines of the webhook handler and of [_credit]. *)
Inductive log_line : Type :=
| WebhookReceived (data : json)
| HmacMismatch
| IgnoringStatus (status : string)
| DuplicateCallback (dedup_key : json)
| PayAmountSkipped (pay_amount : float) (order_id : json)
| UnrecognisedOrderId (order_id : json)
| Credited (pay_amount : float) (paid_coin : string) (amount_usd : float) (telegram_id : Z)
| UserNotFound (telegram_id : Z)
| NotifyFailed (telegram_id : Z)
| WebhookException (e : exn)
| NoLivePrice (coin : string).

(** The text of the direct message, by its parts. *)
Record notification : Type := Notification {
  chat_id : Z;
  sym : string;
  paid_amount : float;
  currency : string;
  usd : float
}.

Inductive event : Type :=
| Log (l : level) (line : log_line)
| ProcessedAdd (key : pykey)                            (* _processed_orders.add *)
| LoadUserData (telegram_id : Z)                        (* b.load_user_data_if_missing *)
| CreditWallet (user_id : Z) (amount : float) (coin : string)  (* b.credit_wallet_crypto *)
| SaveUserData (user_id : Z)                            (* b.save_user_data *)
| SendMessage (n : notification) (delivered : bool).    (* _bot_ref.send_message *)

(** ** Module state (lines 70-71) and the data of [bot.py] *)

Record state : Type := State {
  _processed_orders : gset pykey;
  _bot_ref : bool;
  _bot : bot
}.

Definition set_processed (f : gset pykey -> gset pykey) (st : state) : state :=
  {| _processed_orders := f (_processed_orders st);
     _bot_ref := _bot_ref st; _bot := _bot st |}.

Definition set_bot (f : bot -> bot) (st : state) : state :=
  {| _processed_orders := _processed_orders st;
     _bot_ref := _bot_ref st; _bot := f (_bot st) |}.

Definition set_user_stats (f : gmap Z stats -> gmap Z stats) (b : bot) : bot :=
  {| user_wallets := user_wallets b; user_stats := f (user_stats b);
     LIVE_PRICES := LIVE_PRICES b; CRYPTO_SYMBOLS := CRYPTO_SYMBOLS b;
     SUPPORTED_CRYPTOS := SUPPORTED_CRYPTOS b |}.

(** ** Control flow of the handler body

    A statement goes on to the next one, leaves the handler by
    [return ok], or raises.  The events are listed oldest first. *)
Inductive result (A : Type) : Type :=
| Next (a : A)
| ReturnOk
| Raise (e : exn).
Arguments Next {A} a.
Arguments ReturnOk {A}.
Arguments Raise {A} e.

Definition M (A : Type) : Type := state -> result A * state * list event.

Definition pure {A} (a : A) : M A := fun st => (Next a, st, []).

Definition bind {A B} (m : M A) (k : A -> M B) : M B :=
  fun st =>
    match m st with
    | (Next a, st1, evs1) =>
        match k a st1 with
        | (r, st2, evs2) => (r, st2, evs1 ++ evs2)
        end
    | (ReturnOk, st1, evs1) => (ReturnOk, st1, evs1)
    | (Raise e, st1, evs1) => (Raise e, st1, evs1)
    end.

Notation "'let*' x ':=' m 'in' k" := (bind m (fun x => k))
  (at level 10, x name, m at level 100, k at level 200).
Notation "m ';;;' k" := (bind m (fun _ => k))
  (at level 100, k at level 200, right associativity).

Definition return_ok {A} : M A := fun st => (ReturnOk, st, []).
Definition raise {A} (e : exn) : M A := fun st => (Raise e, st, []).
Definition emit (e : event) : M unit := fun st => (Next tt, st, [e]).
Definition logging (l : level) (line : log_line) : M unit := emit (Log l line).
Definition read {A} (f : state -> A) : M A := fun st => (Next (f st), st, []).
Definition modify (f : state -> state) : M unit := fun st => (Next tt, f st, []).

(** [x if x is not None else raise e]. *)
Definition lift {A} (e : exn) (o : option A) : M A :=
  match o with
  | Some a => pure a
  | None => raise e
  end.

(** ** Python operations on a parsed value *)

(** [data.get(k, default)]: only a [dict] has [get]. *)
Definition py_get (data : json) (k : string) (default : json) : M json :=
  match data with
  | JObj d => pure (get_default d k default)
  | _ => raise AttributeError
  end.

(** [v.lower()] and [v.upper()]: only a [str] has them. *)
Definition py_lower (v : json) : M string :=
  match v with
  | JStr s => pure (PyStr.lower s)
  | _ => raise AttributeError
  end.

Definition py_upper (v : json) : M string :=
  match v with
  | JStr s => pure (PyStr.upper s)
  | _ => raise AttributeError
  end.

(** [float(v)]. *)
Definition py_float (v : json) : M float :=
  match v with
  | JBool b => pure (if b then PrimFloat.one else PrimFloat.zero)
  | JInt n => lift OverflowError (PyFloat.of_int n)
  | JFloat f => pure f
  | JStr s => lift ValueError (PyFloat.of_string s)
  | JNull | JArr _ | JObj _ => raise TypeError
  end.

Definition is_str (s : string) (v : json) : bool :=
  match v with
  | JStr s' => String.eqb s s'
  | _ => false
  end.

(** ["_" in v]: a substring of a [str], a member of a [list], a key of a
    [dict]; nothing else is a container. *)
Definition py_contains_underscore (v : json) : M bool :=
  match v with
  | JStr s => pure (PyStr.contains_char "_" s)
  | JArr l => pure (List.existsb (is_str "_") l)
  | JObj d => pure (List.existsb (fun kv => String.eqb "_" (fst kv)) d)
  | JNull | JBool _ | JInt _ | JFloat _ => raise TypeError
  end.

(** [v.split("_")[0]]: only a [str] has [split]. *)
Definition py_split_head (v : json) : M string :=
  match v with
  | JStr s => pure (PyStr.split_head "_" s)
  | _ => raise AttributeError
  end.

(** [hmac.compare_digest(a, b)] for a [str] [a]: both must be ASCII
    strings. *)
Definition is_ascii (s : string) : bool :=
  PyStr.all_chars (fun c => PyStr.code c <? 128) s.

Definition compare_digest (a : string) (b : json) : M bool :=
  match b with
  | JStr s => if is_ascii a && is_ascii s then pure (String.eqb a s) else raise TypeError
  | _ => raise TypeError
  end.

Section WithBot.

Context {api : BotApi}.
Variable cfg : config.

(** Runs a function of [bot.py] on its data and records the call. *)
Definition call (f : bot -> bot) (e : event) : M unit :=
  modify (set_bot f) ;;; emit e.

(** ** [_credit] (lines 89-111) *)

Definition one_float : float := 0x1p+0%float.
Definition commission_rate : float := 0x1.47ae147ae147bp-8%float.  (* 0.005 *)

Definition or_zero (o : option float) : float := default PrimFloat.zero o.

(** Lines 103-110: the referral deposit commission. *)
Definition referral_commission (user_id : Z) (amount : float) (coin : string) : M unit :=
  let* us := read (fun st => user_stats (_bot st)) in
  let ref_data := default (Referral None None) (us !! user_id ≫= referral) in
  match referrer_id ref_data with
  | Some rid =>
      if negb (rid =? 0) && bool_decide (is_Some (us !! rid)) then
        let commission := PrimFloat.mul amount commission_rate in
        let credit_referrer (s : stats) : stats :=
          let ref_dict := default (Referral None None) (referral s) in
          let comm_dict := default ∅ (commissions ref_dict) in
          let comm_dict' :=
            <[coin := PrimFloat.add (or_zero (comm_dict !! coin)) commission]> comm_dict in
          Stats (unwagered_deposit s)
                (Some (Referral (referrer_id ref_dict) (Some comm_dict'))) in
        modify (set_bot (set_user_stats (alter credit_referrer rid))) ;;;
        call (save_user_data rid) (SaveUserData rid)
      else pure tt
  | None => pure tt
  end.

Definition _credit (user_id : Z) (amount : float) (coin : string) : M unit :=
  call (credit_wallet_crypto user_id amount coin) (CreditWallet user_id amount coin) ;;;
  let* us := read (fun st => user_stats (_bot st)) in
  (if bool_decide (is_Some (us !! user_id)) then
     let* prices := read (fun st => LIVE_PRICES (_bot st)) in
     let* price :=
       match prices !! coin with
       | Some p =>
           if PrimFloat.leb p PrimFloat.zero
           then logging WARNING (NoLivePrice coin) ;;; pure one_float
           else pure p
       | None => logging WARNING (NoLivePrice coin) ;;; pure one_float
       end in
     let amount_usd := PrimFloat.mul amount price in
     let deposit (s : stats) : stats :=
       Stats (Some (PrimFloat.add (or_zero (unwagered_deposit s)) amount_usd))
             (referral s) in
     modify (set_bot (set_user_stats (alter deposit user_id))) ;;;
     referral_commission user_id amount coin
   else pure tt) ;;;
  call (save_user_data user_id) (SaveUserData user_id).

(** ** [_verify_signature] (lines 212-219) *)

Definition _verify_signature (raw_body : string) (received_hmac : json) : M bool :=
  let expected :=
    Sha256.hmac_hexdigest
      (Sha256.bytes_of_string (OXAPAY_MERCHANT_KEY cfg))
      (Sha256.bytes_of_string raw_body) in
  compare_digest expected received_hmac.

(** ** [_oxapay_webhook] (lines 226-320) *)

(** Lines 241-248: the signature check. *)
Definition signature_check (data : json) : M unit :=
  let* received_hmac := py_get data "hmac" (JStr "") in
  if truthy received_hmac then
    let* verify_data :=
      match data with
      | JObj d => pure (without "hmac" d)
      | _ => raise AttributeError
      end in
    let verify_body := dumps (JObj verify_data) in
    let* valid := _verify_signature verify_body received_hmac in
    if negb valid then logging WARNING HmacMismatch ;;; return_ok
    else pure tt
  else pure tt.

(** Lines 250-254: only confirmed payments are processed. *)
Definition accepted_statuses : list string := ["paid"; "confirmed"; "completed"].

Definition confirmed_status (data : json) : M unit :=
  let* raw_status := py_get data "status" (JStr "") in
  let* status := py_lower raw_status in
  if negb (List.existsb (String.eqb status) accepted_statuses)
  then logging INFO (IgnoringStatus status) ;;; return_ok
  else pure tt.

(** Lines 256-266: the payment fields. *)
Record payment : Type := Payment {
  order_id : json;
  track_id : json;
  amount_usd : float;
  paid_coin : string;
  pay_amount : float
}.

Definition is_none (v : json) : bool :=
  match v with
  | JNull => true
  | _ => false
  end.

Definition payment_fields (data : json) : M payment :=
  let* order_id := py_get data "orderId" (JStr "") in
  let* track_id := py_get data "trackId" (JStr "") in
  let* amount := py_get data "amount" (JInt 0) in
  let* amount_usd := py_float amount in
  let* currency := py_get data "currency" (JStr "USDT") in
  let* paid_coin := py_upper currency in
  let* raw_pay := py_get data "payAmount" JNull in
  let* raw_pay :=
    if is_none raw_pay then py_get data "pay_amount" JNull else pure raw_pay in
  let* pay_amount :=
    if is_none raw_pay then pure amount_usd else py_float raw_pay in
  pure (Payment order_id track_id amount_usd paid_coin pay_amount).

(** Lines 268-273: the duplicate guard.  Looking a [list] or a [dict]
    up in a set raises [TypeError]. *)
Definition dedup_key_of (p : payment) : json := py_or (order_id p) (track_id p).

Definition duplicate_guard (p : payment) : M unit :=
  let dedup_key := dedup_key_of p in
  let* key := lift TypeError (hash_key dedup_key) in
  let* seen := read (fun st => bool_decide (key ∈ _processed_orders st)) in
  if seen then logging INFO (DuplicateCallback dedup_key) ;;; return_ok
  else modify (set_processed (fun s => {[key]} ∪ s)) ;;; emit (ProcessedAdd key).

(** Lines 275-277. *)
Definition positive_amount (p : payment) : M unit :=
  if PrimFloat.leb (pay_amount p) PrimFloat.zero
  then logging WARNING (PayAmountSkipped (pay_amount p) (order_id p)) ;;; return_ok
  else pure tt.

(** Lines 279-284: the Telegram user of [orderId = "{tg_id}_{timestamp}"]. *)
Definition resolve_telegram_id (order_id : json) : M Z :=
  let* has_underscore := py_contains_underscore order_id in
  let* tg_str := if has_underscore then py_split_head order_id else pure "" in
  if negb (PyStr.isdigit tg_str)
  then logging WARNING (UnrecognisedOrderId order_id) ;;; return_ok
  else pure (PyStr.int_of_digits tg_str).

(** Lines 286-298: load the user, credit the wallet. *)
Definition credit_user (telegram_id : Z) (p : payment) : M unit :=
  call (load_user_data_if_missing telegram_id) (LoadUserData telegram_id) ;;;
  let* wallets := read (fun st => user_wallets (_bot st)) in
  if bool_decide (is_Some (wallets !! telegram_id)) then
    _credit telegram_id (pay_amount p) (paid_coin p) ;;;
    logging INFO (Credited (pay_amount p) (paid_coin p) (amount_usd p) telegram_id)
  else logging WARNING (UserNotFound telegram_id).

(** Lines 300-303: the message, when the Telegram bot is known. *)
Definition prepare_notification (telegram_id : Z) (p : payment) : M (option notification) :=
  let* has_bot := read _bot_ref in
  if has_bot then
    let* symbols := read (fun st => CRYPTO_SYMBOLS (_bot st)) in
    let sym := default "" (symbols !! paid_coin p) in
    pure (Some (Notification telegram_id sym (pay_amount p) (paid_coin p) (amount_usd p)))
  else pure None.

(** Lines 304-315: [await _bot_ref.send_message(...)], which either
    delivers or raises; a failure is logged and goes no further. *)
Definition send_notification (n : option notification) (delivered : bool) : M unit :=
  match n with
  | Some n =>
      emit (SendMessage n delivered) ;;;
      if delivered then pure tt else logging ERROR (NotifyFailed (chat_id n))
  | None => pure tt
  end.

(** The body of the [try], from [json.loads] to the last statement
    before [await send_message]: no [await] stands in between, so it
    runs without interruption.  [request] is [json.loads(raw_body)],
    [None] when it raises. *)
Definition before_send (request : option json) : M (option notification) :=
  let* data := lift JSONDecodeError request in
  logging INFO (WebhookReceived data) ;;;
  signature_check data ;;;
  confirmed_status data ;;;
  let* p := payment_fields data in
  duplicate_guard p ;;;
  positive_amount p ;;;
  let* telegram_id := resolve_telegram_id (order_id p) in
  credit_user telegram_id p ;;;
  prepare_notification telegram_id p.

(** [except Exception as exc: logging.error(...)]. *)
Definition guarded {A} (m : M A) : state -> option A * state * list event :=
  fun st =>
    match m st with
    | (Next a, st', evs) => (Some a, st', evs)
    | (ReturnOk, st', evs) => (None, st', evs)
    | (Raise e, st', evs) => (None, st', evs ++ [Log ERROR (WebhookException e)])
    end.

Record response : Type := Response { status : Z; text : string }.
Definition ok : response := Response 200 "ok".

(** One delivery from start to end. *)
Definition _oxapay_webhook (request : option json) (delivered : bool)
  : state -> response * state * list event :=
  fun st =>
    match guarded (let* n := before_send request in send_notification n delivered) st with
    | (_, st', evs) => (ok, st', evs)
    end.

(** ** The webhook server (lines 327-362): deliveries in flight

    The handler is a coroutine: it gives the control back at
    [await request.read()] and at [await send_message(...)], nowhere
    else.  A delivery is therefore at one of three stages, and the
    server resumes the deliveries in any order.  Other coroutines of
    the bot may change the data of [bot.py] in between; only this
    module touches [_processed_orders]. *)
Inductive stage : Type :=
| Reading
| Sending (n : option notification)
| Done.

Record task : Type := Task { request : option json; at_stage : stage }.

(** [history] lists what the deliveries did, oldest first, each event
    with the number and the request of the delivery it belongs to. *)
Record server : Type := Server {
  shared : state;
  tasks : list task;
  history : list (nat * option json * event)
}.

Inductive action : Type :=
| Accept (request : option json)
| Resume (i : nat) (delivered : bool)
| Elsewhere (f : bot -> bot).

Definition tag (i : nat) (req : option json) (evs : list event)
  : list (nat * option json * event) :=
  List.map (fun e => (i, req, e)) evs.

Definition resume (i : nat) (delivered : bool) (srv : server) : server :=
  match tasks srv !! i with
  | Some (Task req Reading) =>
      match guarded (before_send req) (shared srv) with
      | (r, st', evs) =>
          Server st'
                 (<[i := Task req (match r with Some n => Sending n | None => Done end)]>
                    (tasks srv))
                 (history srv ++ tag i req evs)
      end
  | Some (Task req (Sending n)) =>
      match guarded (send_notification n delivered) (shared srv) with
      | (_, st', evs) =>
          Server st' (<[i := Task req Done]> (tasks srv)) (history srv ++ tag i req evs)
      end
  | _ => srv
  end.

Definition exec (srv : server) (a : action) : server :=
  match a with
  | Accept req => Server (shared srv) (tasks srv ++ [Task req Reading]) (history srv)
  | Resume i delivered => resume i delivered srv
  | Elsewhere f => Server (set_bot f (shared srv)) (tasks srv) (history srv)
  end.

(** The server right after [start_oxapay_webhook]: nothing processed,
    [_bot_ref] set (line 351). *)
Definition started (b : bot) : server :=
  Server (State ∅ true b) [] [].

Definition run (b : bot) (schedule : list action) : server :=
  List.fold_left exec schedule (started b).

(** ** [OxaPayClient] (lines 154-205) *)

Record invoice_payload : Type := InvoicePayload {
  merchant : string;
  amount : float;
  currency_code : string;
  orderId : string;
  callbackUrl : string;
  description : string
}.

(** How reading the body of a response fails with an exception that the
    first two [except] clauses catch: the time-out of the request runs
    out, or [aiohttp] raises a [ClientError] ([ContentTypeError], for a
    body that is not announced as JSON, is one). *)
Inductive read_failure : Type :=
| ReadTimedOut
| ReadClientError.

(** What [session.post(...)] comes to: one of the three exceptions the
    code tells apart; or a response with its status and, as [body], what
    [await resp.json()] returns, [None] when it raises an exception that
    neither of the first two [except] clauses catches (a body that is
    announced as JSON and is not: [JSONDecodeError]); or a response with
    its status whose body [await resp.json()] fails to read. *)
Inductive http_outcome : Type :=
| TimedOut
| ClientError
| OtherError
| Responded (status : Z) (body : option json)
| Unread (status : Z) (failure : read_failure).

Inductive client_log : Type :=
| InvoiceHttp (status : Z)
| InvoiceApiError (data : json)
| InvoiceTimedOut
| InvoiceNetworkError
| InvoiceException.

Inductive client_event : Type :=
| Post (url : string) (payload : invoice_payload)
| ClientLog (line : client_log).

Definition INVOICE_URL : string := "https://api.oxapay.com/merchants/request".

Record OxaPayClient : Type := Client { merchant_key : string; callback_url : string }.

(** The network answers a request with an outcome. *)
Definition network : Type := invoice_payload -> http_outcome.

Definition create_invoice (self : OxaPayClient) (net : network)
    (amount_usd : float) (currency : string) (order_id : string)
    (description : string) : option json * list client_event :=
  let payload :=
    InvoicePayload (merchant_key self) (PyFloat.round2 amount_usd) currency
                   order_id (callback_url self) description in
  let posted := [Post INVOICE_URL payload] in
  match net payload with
  | Responded status body =>
      if negb (status =? 200) then (None, posted ++ [ClientLog (InvoiceHttp status)])
      else
        match body with
        | Some (JObj d) =>
            if eq_int (get_default d "result" JNull) 100
            then (Some (JObj d), posted)
            else (None, posted ++ [ClientLog (InvoiceApiError (JObj d))])
        | Some _ => (None, posted ++ [ClientLog InvoiceException])
        | None => (None, posted ++ [ClientLog InvoiceException])
        end
  | Unread status failure =>
      if negb (status =? 200) then (None, posted ++ [ClientLog (InvoiceHttp status)])
      else
        match failure with
        | ReadTimedOut => (None, posted ++ [ClientLog InvoiceTimedOut])
        | ReadClientError => (None, posted ++ [ClientLog InvoiceNetworkError])
        end
  | TimedOut => (None, posted ++ [ClientLog InvoiceTimedOut])
  | ClientError => (None, posted ++ [ClientLog InvoiceNetworkError])
  | OtherError => (None, posted ++ [ClientLog InvoiceException])
  end.

(** ** The conversation (lines 73-76 and 365-647) *)

Inductive conv_state : Type :=
| _STATE_AMOUNT
| _STATE_CURRENCY
| _STATE_CUSTOM
| END.

(** The keys of [context.user_data] the flow uses; [None] is an absent
    key. *)
Record user_data : Type := UserData {
  oxapay_usd_amount : option float;
  oxapay_awaiting_custom : option bool;
  oxapay_last_order : option string;
  oxapay_last_coin : option string
}.

Inductive label : Type :=
| CoinLabel (sym coin : string)
| BackLabel
| PayNowLabel
| NewDepositLabel.

Inductive style : Type := primary | danger.

Record button : Type := Button {
  caption : label;
  callback_data : option string;
  url : option json;
  button_style : style
}.

Abbreviation keyboard := (list (list button)).

(** The screens, by their parts. *)
Inductive screen : Type :=
| InvalidAmount (minimum : float)
| CurrencySelector (amount : float)
| InvoiceFailed
| NoPaymentLink
| InvoiceReady (amount_usd : float) (sym coin : string) (crypto_needed : float).

Inductive notice : Type := NotForYou | CreatingInvoice | UnsupportedCurrency.

Inductive ui_event : Type :=
| ReplyText (s : screen) (k : keyboard)       (* update.message.reply_text *)
| SafeEdit (s : screen) (k : keyboard)        (* safe_edit_message *)
| Answer (n : notice) (show_alert : bool)     (* query.answer *)
| SetOwner (user_id : Z)                      (* set_menu_owner *)
| Http (e : client_event)
| NoPayLinkLogged (result : json).

Definition back_button : button :=
  Button BackLabel (Some "oxapay_back_to_amounts") None danger.

(** Lines 440-460: the user typed a custom amount.  [text] is
    [update.message.text]. *)
Definition parse_custom_amount (text : option string) : option float :=
  let text := PyStr.strip (default "" text) in
  match PyFloat.of_string (PyStr.replace "," "" text) with
  | Some amount =>
      if PrimFloat.ltb amount (OXAPAY_MIN_DEPOSIT_USD cfg) then None else Some amount
  | None => None
  end.

(** Lines 494-507: three buttons a row. *)
Fixpoint rows_of_three (row : list button) (bs : list button) : keyboard :=
  match bs with
  | [] => match row with [] => [] | _ => [row] end
  | b :: bs' =>
      let row' := row ++ [b] in
      if Nat.eqb (List.length row') 3 then row' :: rows_of_three [] bs'
      else rows_of_three row' bs'
  end.

Definition mem (s : string) (l : list string) : bool :=
  List.existsb (String.eqb s) l.

(** Lines 486-533: [_show_currency_selector]. *)
Definition _show_currency_selector (b : bot) (user_id : Z) (ud : user_data)
    (via_message : bool) : conv_state * user_data * list ui_event :=
  let amount := default PrimFloat.zero (oxapay_usd_amount ud) in
  let available :=
    List.filter (fun c => mem c (SUPPORTED_CRYPTOS b)) (OXAPAY_SUPPORTED_CURRENCIES cfg) in
  let coin_button (coin : string) : button :=
    Button (CoinLabel (default "" (CRYPTO_SYMBOLS b !! coin)) coin)
           (Some ("oxapay_cur_" +:+ coin)) None primary in
  let rows := rows_of_three [] (List.map coin_button available) ++ [[back_button]] in
  let text := CurrencySelector amount in
  if via_message
  then (_STATE_CURRENCY, ud, [ReplyText text rows; SetOwner user_id])
  else (_STATE_CURRENCY, ud, [SafeEdit text rows]).

Definition oxapay_receive_custom_amount (b : bot) (user_id : Z)
    (text : option string) (ud : user_data) : conv_state * user_data * list ui_event :=
  match parse_custom_amount text with
  | None =>
      (_STATE_CUSTOM, ud,
       [ReplyText (InvalidAmount (OXAPAY_MIN_DEPOSIT_USD cfg)) [[back_button]]])
  | Some amount =>
      let ud' :=
        UserData (Some amount) None (oxapay_last_order ud) (oxapay_last_coin ud) in
      _show_currency_selector b user_id ud' true
  end.

(** Line 561: [f"{user_id}_{int(datetime.now(timezone.utc).timestamp())}"]. *)
Definition make_order_id (user_id now : Z) : string :=
  PyStr.str_of_int user_id +:+ "_" +:+ PyStr.str_of_int now.

(** Line 583: [result.get("payLink") or result.get("payUrl") or
    result.get("link", "")]. *)
Definition pay_link_of (result : dict) : json :=
  py_or (get_default result "payLink" JNull)
        (py_or (get_default result "payUrl" JNull)
               (get_default result "link" (JStr ""))).

(** Lines 538-625: [oxapay_currency_selected].  [owner] is what
    [check_menu_ownership] answers, [data] is [query.data], [user_id]
    is [query.from_user.id], [now] the time in seconds. *)
Definition oxapay_currency_selected (b : bot) (net : network) (owner : bool)
    (data : string) (user_id now : Z) (ud : user_data)
    : conv_state * user_data * list ui_event :=
  if negb owner then (END, ud, [Answer NotForYou true])
  else
    let answered := [Answer CreatingInvoice false] in
    let coin := PyStr.upper (PyStr.replace "oxapay_cur_" "" data) in
    let amount_usd := default PrimFloat.zero (oxapay_usd_amount ud) in
    if negb (mem coin (OXAPAY_SUPPORTED_CURRENCIES cfg))
    then (_STATE_CURRENCY, ud, answered ++ [Answer UnsupportedCurrency true])
    else
      let price := default one_float (LIVE_PRICES b !! coin) in
      let crypto_needed :=
        if PrimFloat.ltb PrimFloat.zero price
        then PrimFloat.div amount_usd price else PrimFloat.zero in
      let sym := default "" (CRYPTO_SYMBOLS b !! coin) in
      let order_id := make_order_id user_id now in
      let callback_url :=
        PyStr.rstrip_char "/" (OXAPAY_WEBHOOK_HOST cfg) +:+ OXAPAY_WEBHOOK_PATH cfg in
      let client := Client (OXAPAY_MERCHANT_KEY cfg) callback_url in
      let '(result, http) :=
        create_invoice client net amount_usd coin order_id "Casino Deposit" in
      let sent := answered ++ List.map Http http in
      match result with
      | Some (JObj result) =>
          let pay_link := pay_link_of result in
          if negb (truthy pay_link) then
            (END, ud,
             sent ++ [NoPayLinkLogged (JObj result); SafeEdit NoPaymentLink [[back_button]]])
          else
            let ud' :=
              UserData (oxapay_usd_amount ud) (oxapay_awaiting_custom ud)
                       (Some order_id) (Some coin) in
            let keys :=
              [[Button PayNowLabel None (Some pay_link) primary];
               [Button NewDepositLabel (Some "deposit_oxapay") None danger]] in
            (END, ud', sent ++ [SafeEdit (InvoiceReady amount_usd sym coin crypto_needed) keys])
      | _ => (END, ud, sent ++ [SafeEdit InvoiceFailed [[back_button]]])
      end.

End WithBot.

(** ** [_live_price] (lines 114-115) *)

Definition _live_price (b : bot) (coin : string) : float :=
  default 0x1p+0%float (LIVE_PRICES b !! coin).

(** ** [start_oxapay_webhook] (lines 327-362) *)

(** The module as it is loaded (lines 70-71): no Telegram bot, nothing
    processed. *)
Definition initial (b : bot) : state := State ∅ false b.

Inductive startup_log : Type :=
| MerchantKeyNotConfigured
| WebhookHostNotConfigured
| Listening (port : Z) (path : string).

Inductive startup_event : Type :=
| StartupLog (l : level) (line : startup_log)
| AddPost (path : string)                    (* web_app.router.add_post *)
| RunnerSetup                                (* await runner.setup() *)
| SiteStart (host : string) (port : Z).      (* await site.start() *)

(** [application.bot] is an object, which is truthy. *)
Definition start_oxapay_webhook (cfg : config) (st : state) : state * list startup_event :=
  if String.eqb (OXAPAY_MERCHANT_KEY cfg) ""
     || String.eqb (OXAPAY_MERCHANT_KEY cfg) "sandbox"
  then (st, [StartupLog WARNING MerchantKeyNotConfigured])
  else if String.eqb (OXAPAY_WEBHOOK_HOST cfg) ""
          || String.eqb (OXAPAY_WEBHOOK_HOST cfg) "https://yourdomain.com"
  then (st, [StartupLog WARNING WebhookHostNotConfigured])
  else
    (State (_processed_orders st) true (_bot st),
     [AddPost (OXAPAY_WEBHOOK_PATH cfg);
      RunnerSetup;
      SiteStart "0.0.0.0" (OXAPAY_WEBHOOK_PORT cfg);
      StartupLog INFO (Listening (OXAPAY_WEBHOOK_PORT cfg) (OXAPAY_WEBHOOK_PATH cfg))]).

(** ** The amount step of the conversation (lines 371-481 and 630-647) *)

Inductive menu_label : Type :=
| PresetLabel (amt : Z)
| CustomAmountLabel
| BackToDepositLabel.

Record menu_button : Type := MenuButton {
  menu_caption : menu_label;
  menu_callback : string;
  menu_style : style
}.

(** What the handlers of the conversation do to the outside. *)
Inductive flow_event : Type :=
| AnswerPlain                                             (* query.answer() *)
| AnswerInvalidAmount                                     (* query.answer("Invalid amount.", ...) *)
| EditAmountMenu (minimum : float) (k : list (list menu_button))
| EditCustomPrompt (minimum : float) (k : list (list button))
| ReplyCancelled
| Ui (e : ui_event).

Abbreviation flow_outcome := (conv_state * user_data * list flow_event)%type.

Definition with_ui (x : conv_state * user_data * list ui_event) : flow_outcome :=
  (fst (fst x), snd (fst x), List.map Ui (snd x)).

(** Lines 381-393: three buttons a row, the loop of lines 494-507 again. *)
Fixpoint button_rows {A} (row : list A) (bs : list A) : list (list A) :=
  match bs with
  | [] => match row with [] => [] | _ => [row] end
  | b :: bs' =>
      let row' := row ++ [b] in
      if Nat.eqb (List.length row') 3 then row' :: button_rows [] bs'
      else button_rows row' bs'
  end.

Definition preset_amounts : list Z := [10; 15; 20; 50; 100].

Definition preset_button (amt : Z) : menu_button :=
  MenuButton (PresetLabel amt) ("oxapay_amt_" +:+ PyStr.str_of_int amt) primary.

Definition amount_keyboard : list (list menu_button) :=
  button_rows [] (List.map preset_button preset_amounts)
    ++ [[MenuButton CustomAmountLabel "oxapay_amt_custom" primary]]
    ++ [[MenuButton BackToDepositLabel "back_to_deposit_menu" danger]].

Definition not_for_you (ud : user_data) : flow_outcome :=
  (END, ud, [Ui (Answer NotForYou true)]).

(** [context.user_data.pop("oxapay_usd_amount", None)] and the same for
    ["oxapay_awaiting_custom"]. *)
Definition pop_pending (ud : user_data) : user_data :=
  UserData None None (oxapay_last_order ud) (oxapay_last_coin ud).

Section Conversation.

Variable cfg : config.

(** Lines 371-410.  [owner] is what [check_menu_ownership] answers. *)
Definition oxapay_entry (owner : bool) (ud : user_data) : flow_outcome :=
  if negb owner then not_for_you ud
  else
    (_STATE_AMOUNT, ud,
     [AnswerPlain; EditAmountMenu (OXAPAY_MIN_DEPOSIT_USD cfg) amount_keyboard]).

(** Lines 415-437. *)
Definition oxapay_custom_amount_prompt (owner : bool) (ud : user_data) : flow_outcome :=
  if negb owner then not_for_you ud
  else
    (_STATE_CUSTOM,
     UserData (oxapay_usd_amount ud) (Some true) (oxapay_last_order ud) (oxapay_last_coin ud),
     [AnswerPlain; EditCustomPrompt (OXAPAY_MIN_DEPOSIT_USD cfg) [[back_button]]]).

(** Lines 465-481.  [data] is [query.data]. *)
Definition oxapay_preset_amount (b : bot) (owner : bool) (data : string)
    (user_id : Z) (ud : user_data) : flow_outcome :=
  if negb owner then not_for_you ud
  else
    let amt_str := PyStr.replace "oxapay_amt_" "" data in
    match PyFloat.of_string amt_str with
    | None => (_STATE_AMOUNT, ud, [AnswerPlain; AnswerInvalidAmount])
    | Some amount =>
        let ud' :=
          UserData (Some amount) (oxapay_awaiting_custom ud)
                   (oxapay_last_order ud) (oxapay_last_coin ud) in
        match _show_currency_selector cfg b user_id ud' false with
        | (s, ud'', evs) => (s, ud'', AnswerPlain :: List.map Ui evs)
        end
    end.

(** Lines 630-636. *)
Definition oxapay_back_to_amounts (owner : bool) (ud : user_data) : flow_outcome :=
  match oxapay_entry owner (pop_pending ud) with
  | (s, ud', evs) => (s, ud', AnswerPlain :: evs)
  end.

(** Lines 641-647.  [has_message] is the truth of [update.message]. *)
Definition oxapay_cancel (has_message : bool) (ud : user_data) : flow_outcome :=
  (END, pop_pending ud, if has_message then [ReplyCancelled] else []).

End Conversation.

(** ** [_build_conversation_handler] (lines 654-682)

    The patterns of the callback-query handlers, which the library
    applies with [re.match]: [^s$], [^s] and [^s\d+]. *)
Inductive pattern : Type :=
| Whole (s : string)
| StartsWith (s : string)
| StartsWithDigits (s : string).

Definition newline : string := String (PyStr.chr 10) EmptyString.

(** [$] also matches before a newline that ends the string. *)
Definition re_match (p : pattern) (data : string) : bool :=
  match p with
  | Whole s => String.eqb data s || String.eqb data (s +:+ newline)
  | StartsWith s =>
      match PyStr.strip_prefix s data with
      | Some _ => true
      | None => false
      end
  | StartsWithDigits s =>
      match PyStr.strip_prefix s data with
      | Some (String c _) => PyStr.is_digit c
      | _ => false
      end
  end.

(** An update of the conversation: a button pressed, a text message
    that is no command, a command, or the lapse of
    [conversation_timeout]. *)
Inductive update : Type :=
| CallbackQuery (data : string)
| TextMessage (text : string)
| CommandMessage (command : string)
| Lapse.

Inductive trigger : Type :=
| OnCallback (p : pattern)          (* CallbackQueryHandler(_, pattern=p) *)
| OnText                            (* MessageHandler(filters.TEXT & ~filters.COMMAND, _) *)
| OnCommand (command : string).     (* CommandHandler(command, _) *)

Inductive handler : Type :=
| Entry
| PresetAmount
| CustomAmountPrompt
| BackToAmounts
| ReceiveCustomAmount
| CurrencySelected
| Cancel.

Definition entry_points : list (trigger * handler) :=
  [(OnCallback (Whole "deposit_oxapay"), Entry)].

Definition states (s : conv_state) : list (trigger * handler) :=
  match s with
  | _STATE_AMOUNT =>
      [(OnCallback (StartsWithDigits "oxapay_amt_"), PresetAmount);
       (OnCallback (Whole "oxapay_amt_custom"), CustomAmountPrompt);
       (OnCallback (Whole "oxapay_back_to_amounts"), BackToAmounts)]
  | _STATE_CUSTOM =>
      [(OnText, ReceiveCustomAmount);
       (OnCallback (Whole "oxapay_back_to_amounts"), BackToAmounts)]
  | _STATE_CURRENCY =>
      [(OnCallback (StartsWith "oxapay_cur_"), CurrencySelected);
       (OnCallback (Whole "oxapay_back_to_amounts"), BackToAmounts)]
  | END => []
  end.

Definition fallbacks : list (trigger * handler) :=
  [(OnCommand "cancel", Cancel);
   (OnCallback (Whole "cancel"), Cancel)].

Definition check_update (t : trigger) (u : update) : bool :=
  match t, u with
  | OnCallback p, CallbackQuery data => re_match p data
  | OnText, TextMessage _ => true
  | OnCommand c, CommandMessage c' => String.eqb c c'
  | _, _ => false
  end.

(** The first handler of a list that takes the update. *)
Fixpoint first_match (hs : list (trigger * handler)) (u : update) : option handler :=
  match hs with
  | [] => None
  | (t, h) :: hs' => if check_update t u then Some h else first_match hs' u
  end.

(** The handler the library picks.  [END] stands for no conversation.
    With [allow_reentry=True] the entry points come first in every
    state; then the handlers of the state; then the fallbacks. *)
Definition select (s : conv_state) (u : update) : option handler :=
  match first_match entry_points u with
  | Some h => Some h
  | None =>
      match s with
      | END => None
      | _ =>
          match first_match (states s) u with
          | Some h => Some h
          | None => first_match fallbacks u
          end
      end
  end.

(** What is around when an update arrives: the data of [bot.py], what
    [check_menu_ownership] answers, the network, the time. *)
Record circumstances : Type := Circumstances {
  bot_data : bot;
  owner : bool;
  net : network;
  now : Z
}.

Definition data_of (u : update) : string :=
  match u with
  | CallbackQuery data => data
  | _ => ""
  end.

Definition text_of (u : update) : option string :=
  match u with
  | TextMessage text => Some text
  | _ => None
  end.

(** A callback query carries no [update.message]. *)
Definition has_message (u : update) : bool :=
  match u with
  | TextMessage _ | CommandMessage _ => true
  | _ => false
  end.

Section Dispatch.

Variable cfg : config.
Variable user_id : Z.

Definition handle (h : handler) (u : update) (c : circumstances) (ud : user_data) : flow_outcome :=
  match h with
  | Entry => oxapay_entry cfg (owner c) ud
  | PresetAmount => oxapay_preset_amount cfg (bot_data c) (owner c) (data_of u) user_id ud
  | CustomAmountPrompt => oxapay_custom_amount_prompt cfg (owner c) ud
  | BackToAmounts => oxapay_back_to_amounts cfg (owner c) ud
  | ReceiveCustomAmount =>
      with_ui (oxapay_receive_custom_amount cfg (bot_data c) user_id (text_of u) ud)
  | CurrencySelected =>
      with_ui (oxapay_currency_selected cfg (bot_data c) (net c) (owner c)
                 (data_of u) user_id (now c) ud)
  | Cancel => oxapay_cancel (has_message u) ud
  end.

(** One update: the conversation of one user in one chat, as a state
    and the user's [context.user_data]. *)
Definition step (conv : conv_state * user_data) (x : update * circumstances)
  : conv_state * user_data * list flow_event :=
  match fst x with
  | Lapse => (END, snd conv, [])
  | u =>
      match select (fst conv) u with
      | Some h => handle h u (snd x) (snd conv)
      | None => (fst conv, snd conv, [])
      end
  end.

(** A conversation, update after update. *)
Fixpoint converse (conv : conv_state * user_data) (xs : list (update * circumstances))
  : conv_state * user_data * list flow_event :=
  match xs with
  | [] => (fst conv, snd conv, [])
  | x :: xs' =>
      match step conv x with
      | (s, ud, evs) =>
          match converse (s, ud) xs' with
          | (s', ud', evs') => (s', ud', evs ++ evs')
          end
      end
  end.

End Dispatch.

End Oxapay.

(* ===================================================================== *)
(** * A stand-in for [bot.py] and sample deliveries *)
(* ===================================================================== *)

Module Reference.

Import Json Oxapay.

(** Modelled from the spec: [bot.py], with [credit_wallet_crypto],
    [save_user_data] and [load_user_data_if_missing], is not among the
    source files.  The spec names them as collaborators
    (credit-wallet(user_id, amount, currency), persist-user(user_id),
    load-user-if-missing(user_id)).  Here crediting adds the amount to
    the balance the user holds in that coin, and persisting and loading
    leave the data in memory as they are. *)
Definition add_balance (amount : float) (coin : string) (w : gmap string float)
  : gmap string float :=
  <[coin := PrimFloat.add (default PrimFloat.zero (w !! coin)) amount]> w.

Definition credit (user_id : Z) (amount : float) (coin : string) (b : bot) : bot :=
  {| user_wallets := alter (add_balance amount coin) user_id (user_wallets b);
     user_stats := user_stats b;
     LIVE_PRICES := LIVE_PRICES b;
     CRYPTO_SYMBOLS := CRYPTO_SYMBOLS b;
     SUPPORTED_CRYPTOS := SUPPORTED_CRYPTOS b |}.

Definition api : BotApi := {|
  credit_wallet_crypto := credit;
  save_user_data := fun _ b => b;
  load_user_data_if_missing := fun _ b => b
|}.

(** The user [12345] of the spec's scenarios, referred by user [999], with
    bitcoin at 50000 dollars. *)
Definition bot_with_user : bot := {|
  user_wallets := {[ 12345 := ∅ ]};
  user_stats := {[ 12345 := Stats None (Some (Referral (Some 999) None));
                   999 := Stats None None ]};
  LIVE_PRICES := {[ "BTC" := 0x1.86ap+15%float ]};
  CRYPTO_SYMBOLS := ∅;
  SUPPORTED_CRYPTOS := ["BTC"; "ETH"; "USDT"]
|}.

(** The same without any record of user [12345]. *)
Definition bot_without_user : bot := {|
  user_wallets := ∅;
  user_stats := ∅;
  LIVE_PRICES := {[ "BTC" := 0x1.86ap+15%float ]};
  CRYPTO_SYMBOLS := ∅;
  SUPPORTED_CRYPTOS := ["BTC"; "ETH"; "USDT"]
|}.

Definition fresh (b : bot) : state := State ∅ true b.

(** [0.001], the paid amount of the scenarios. *)
Definition milli : float := 0x1.0624dd2f1a9fcp-10%float.

Definition order : string := "12345_1700000000".

Definition payment_with (status : string) (extra : dict) : dict :=
  extra ++ [("status", JStr status); ("orderId", JStr order);
            ("payAmount", JFloat milli); ("currency", JStr "BTC")].

(** [status=paid, orderId="12345_1700000000", payAmount=0.001,
    currency=BTC]. *)
Definition paid : dict := payment_with "paid" [].

(** The same without [payAmount], for an invoice of 50 dollars. *)
Definition paid_in_usd : dict :=
  [("status", JStr "paid"); ("orderId", JStr order);
   ("amount", JInt 50); ("currency", JStr "USDT")].

Definition fifty : float := 0x1.9p+5%float.

(** The fields the handler reads from [payment_with _ _] and from
    [paid_in_usd]. *)
Definition fields_paid : payment :=
  Payment (JStr order) (JStr "") PrimFloat.zero "BTC" milli.

Definition fields_paid_in_usd : payment :=
  Payment (JStr order) (JStr "") fifty "USDT" fifty.

(** The scenario payment with a pay amount of zero, and the fields the
    handler reads from it. *)
Definition unpaid : dict :=
  [("status", JStr "paid"); ("orderId", JStr order);
   ("payAmount", JInt 0); ("currency", JStr "BTC")].

Definition fields_unpaid : payment :=
  Payment (JStr order) (JStr "") PrimFloat.zero "BTC" PrimFloat.zero.

(** The order of the scenarios is already recorded. *)
Definition seen (b : bot) : state := State {[ KStr order ]} true b.

(** The scenario payment, signed with the merchant key. *)
Definition signed : dict :=
  ("hmac",
   JStr (Sha256.hmac_hexdigest
           (Sha256.bytes_of_string (OXAPAY_MERCHANT_KEY shipped))
           (Sha256.bytes_of_string (dumps (JObj paid)))))
  :: paid.

(** The owner of the menu, a network that times out, at the time of
    the scenarios. *)
Definition offline : circumstances :=
  Circumstances bot_with_user true (fun _ => TimedOut) 1700000000.

Definition no_data : user_data := UserData None None None None.

(** A processor that answers every request with an invoice. *)
Definition invoice_link : json := JStr "https://pay.oxapay.com/1".

Definition online : circumstances :=
  Circumstances bot_with_user true
    (fun _ => Responded 200 (Some (JObj [("result", JInt 100); ("payLink", invoice_link)])))
    1700000000.

End Reference.

(* ===================================================================== *)
(** * Vocabulary of the statements *)
(* ===================================================================== *)

Module Spec.

Import PyStr Json Oxapay.

(** ** Decimal strings *)

(** Digits, each between 0 and 9. *)
Definition is_decimal (ds : list Z) : Prop := Forall (fun d => 0 <= d <= 9) ds.

(** The value of a digit list, most significant digit first. *)
Definition value_from (acc : Z) (ds : list Z) : Z :=
  fold_left (fun a d => a * 10 + d) ds acc.

(** Strings of decimal digits. *)
Definition digit_string (ds : list Z) : string :=
  string_of_list_ascii (map digit_char ds).

(** ** Events and runs *)

Definition is_log (e : event) : bool :=
  match e with Log _ _ => true | _ => false end.
Definition is_add (e : event) : bool :=
  match e with ProcessedAdd _ => true | _ => false end.
Definition is_credit (e : event) : bool :=
  match e with CreditWallet _ _ _ => true | _ => false end.
Definition is_send (e : event) : bool :=
  match e with SendMessage _ _ => true | _ => false end.

(** The three parts of a run: how it ended, the state it left, what it
    did. *)
Definition result_of {A} (x : result A * state * list event) : result A := fst (fst x).
Definition state_of {A} (x : result A * state * list event) : state := snd (fst x).
Definition events_of {A} (x : result A * state * list event) : list event := snd x.

(** A statement that goes on ([Next]) as opposed to one that leaves. *)
Definition goes_on {A} (r : result A) : bool :=
  match r with Next _ => true | _ => false end.

(** A statement keeps the relation [R] on the state and emits only
    events of the kind [allowed]. *)
Definition respects (R : state -> state -> Prop) (allowed : event -> bool)
    {A} (m : M A) : Prop :=
  forall st, R st (state_of (m st)) /\ forallb allowed (events_of (m st)) = true.

(** A statement that always leaves: what follows it is skipped. *)
Definition stops {A} (m : M A) : Prop :=
  forall st, goes_on (result_of (m st)) = false.

(** The number of events of a kind. *)
Definition count (p : event -> bool) (evs : list event) : nat :=
  List.length (List.filter p evs).

(** A statement emits [n] events of a kind at most. *)
Definition at_most (p : event -> bool) (n : nat) {A} (m : M A) : Prop :=
  forall st, (count p (events_of (m st)) <= n)%nat.

(** A quiet statement leaves the state alone and only logs. *)
Definition quiet {A} (m : M A) : Prop := respects eq is_log m.

(** A statement that leaves without having changed or done anything but
    logging. *)
Definition drops {A} (m : M A) : Prop := quiet m /\ stops m.

(** ** One delivery *)

(** The dedup key of a request, as the handler computes it at lines
    257-258 and 269: [None] when there is none to compute or when it
    cannot be a member of a set. *)
Definition delivery_key (req : option json) : option pykey :=
  match req with
  | Some (JObj d) =>
      hash_key (py_or (get_default d "orderId" (JStr "")) (get_default d "trackId" (JStr "")))
  | _ => None
  end.

(** Events that move no money, record no key and message nobody. *)
Definition bookkeeping (e : event) : bool :=
  match e with
  | Log _ _ | SaveUserData _ | LoadUserData _ => true
  | _ => false
  end.

(** Book-keeping events and credits. *)
Definition booking_or_credit (e : event) : bool := bookkeeping e || is_credit e.

(** The duplicate guard and the Telegram bot are as they were. *)
Definition same_guard (st st' : state) : Prop :=
  _processed_orders st' = _processed_orders st /\ _bot_ref st' = _bot_ref st.

(** The two shapes of a run up to [await send_message].  Either the
    delivery is dropped before anything is recorded: the state is as it
    was and only log lines were written.  Or its key [k] was new: it is
    recorded once, after log lines only, and what follows is
    book-keeping and one credit at most. *)
Definition dropped (st st' : state) (evs : list event) : Prop :=
  st' = st /\ forallb is_log evs = true.

Definition recorded (k : pykey) (st st' : state) (evs : list event) : Prop :=
  (k ∉ _processed_orders st)
  /\ _processed_orders st' = {[k]} ∪ _processed_orders st
  /\ _bot_ref st' = _bot_ref st
  /\ (exists pre post,
        evs = pre ++ ProcessedAdd k :: post
        /\ forallb is_log pre = true
        /\ forallb booking_or_credit post = true
        /\ (count is_credit post <= 1)%nat).

Definition shape (key : option pykey) (st st' : state) (evs : list event) : Prop :=
  dropped st st' evs \/ exists k, key = Some k /\ recorded k st st' evs.

(** The outcome of a delivery that is ignored: the answer is [200 ok], the
    module state and the data of [bot.py] are as before, and the handler
    only wrote log lines. *)
Definition ignored (st : state) (out : response * state * list event) : Prop :=
  fst (fst out) = ok /\ snd (fst out) = st /\ forallb is_log (snd out) = true.

(** The status is a string that, in lower case, is one of the accepted
    ones (lines 250-254). *)
Definition status_accepted (d : dict) : Prop :=
  exists s, get_default d "status" (JStr "") = JStr s
            /\ In (PyStr.lower s) accepted_statuses.

(** What the handler still does after that run, by how the run ended: it
    sends the message (and logs a failure to deliver it), or logs the
    exception. *)
Definition after_send (r : result (option notification)) (delivered : bool) : list event :=
  match r with
  | Next (Some n) =>
      SendMessage n delivered
        :: (if delivered then [] else [Log ERROR (NotifyFailed (chat_id n))])
  | Next None => []
  | ReturnOk => []
  | Raise e => [Log ERROR (WebhookException e)]
  end.

(** ** Rejections after the duplicate guard *)

(** Any two states are related. *)
Definition any_state (st st' : state) : Prop := True.

(** Log lines and the recording of a key. *)
Definition log_or_add (e : event) : bool := is_log e || is_add e.

(** The payment is rejected for its amount or for its order reference. *)
Definition rejected (p : payment) : Prop :=
  PrimFloat.leb (pay_amount p) PrimFloat.zero = true
  \/ stops (resolve_telegram_id (order_id p)).

(** A run that leaves after log lines and, at most, the recording of the
    key. *)
Definition turned_away {A} (x : result A * state * list event) : Prop :=
  goes_on (result_of x) = false /\ forallb log_or_add (events_of x) = true.

Section WithBot.

Context {api : BotApi}.
Variable cfg : config.

(** From the duplicate guard on (lines 268-303). *)
Definition from_guard (p : payment) : M (option notification) :=
  duplicate_guard p ;;;
  positive_amount p ;;;
  let* telegram_id := resolve_telegram_id (order_id p) in
  credit_user telegram_id p ;;;
  prepare_notification telegram_id p.

(** The gates of a delivery other than the status, in the order of the
    handler: the signature, the payment fields, a new dedup key, a
    positive amount, an order reference that names a user, a wallet. *)
Record passes (d : dict) (st : state) (p : payment) (k : pykey) (u : Z) : Prop := {
  pass_signature : signature_check cfg (JObj d) st = (Next tt, st, []);
  pass_fields : payment_fields (JObj d) st = (Next p, st, []);
  pass_key : hash_key (dedup_key_of p) = Some k;
  pass_new : k ∉ _processed_orders st;
  pass_amount : PrimFloat.leb (pay_amount p) PrimFloat.zero = false;
  pass_user : forall s, resolve_telegram_id (order_id p) s = (Next u, s, []);
  pass_wallet : is_Some (user_wallets (load_user_data_if_missing u (_bot st)) !! u)
}.

End WithBot.

(** ** Deliveries in any number and order *)

(** An entry of the server's history. *)
Abbreviation entry := (nat * option json * event)%type.

(** The entry records the key [k]; the entry is a credit of a delivery
    whose dedup key is [k]. *)
Definition adds_key (k : pykey) (x : entry) : bool :=
  match snd x with
  | ProcessedAdd k' => bool_decide (k' = k)
  | _ => false
  end.

Definition credits_key (k : pykey) (x : entry) : bool :=
  is_credit (snd x) && bool_decide (delivery_key (snd (fst x)) = Some k).

(** How often the key [k] was recorded, and how many credits were made
    for deliveries whose dedup key is [k]. *)
Definition adds (k : pykey) (h : list entry) : nat :=
  List.length (List.filter (adds_key k) h).

Definition credits (k : pykey) (h : list entry) : nat :=
  List.length (List.filter (credits_key k) h).

(** Every credit comes after the recording of the key of its delivery. *)
Definition keyed_before (h : list entry) : Prop :=
  forall h1 h2 i req u a c,
    h = h1 ++ (i, req, CreditWallet u a c) :: h2 ->
    exists key, delivery_key req = Some key /\ In (i, req, ProcessedAdd key) h1.

(** Neither a recording nor a credit. *)
Definition harmless (e : event) : bool := negb (is_add e) && negb (is_credit e).

(** What holds of the server after any schedule. *)
Definition inv (st : state) (h : list entry) : Prop :=
  (forall k, (credits k h <= adds k h)%nat /\ (adds k h <= 1)%nat
             /\ (k ∉ _processed_orders st -> adds k h = 0%nat))
  /\ keyed_before h.

(** ** The claims that fail as they are stated *)

(** C2, as the claim states it: whenever the payload has an [hmac] field
    whose value does not verify, nothing is credited and no key is
    recorded. *)
Definition present_invalid_signature_is_dropped : Prop :=
  forall (api : BotApi) (cfg : config) (d : dict) (sig : json)
         (delivered : bool) (st : state),
    get d "hmac" = Some sig ->
    (forall s, result_of (_verify_signature cfg (dumps (JObj (without "hmac" d))) sig s)
               <> Next true) ->
    let out := _oxapay_webhook cfg (Some (JObj d)) delivered st in
    count is_credit (snd out) = 0%nat
    /\ _processed_orders (snd (fst out)) = _processed_orders st.

(** C4, as the claim states it: a status outside the three values never
    leads to a credit. *)
Definition status_outside_the_set_is_ignored : Prop :=
  forall (api : BotApi) (cfg : config) (d : dict) (s : string)
         (delivered : bool) (st : state),
    get_default d "status" (JStr "") = JStr s ->
    ~ In s accepted_statuses ->
    count is_credit (snd (_oxapay_webhook cfg (Some (JObj d)) delivered st)) = 0%nat.

(** ** The invoice step *)

(** A request sent to the processor. *)
Definition is_post (e : client_event) : bool :=
  match e with Post _ _ => true | ClientLog _ => false end.

(** How many requests went out. *)
Definition posts (evs : list client_event) : nat :=
  List.length (List.filter is_post evs).

(** The same among the events of the conversation. *)
Definition http_posts (evs : list ui_event) : nat :=
  List.length (List.filter (fun e => match e with Http (Post _ _) => true | _ => false end) evs).

(** The last screen is the invoice with its payment link. *)
Definition invoice_shown (link : json) (evs : list ui_event) : Prop :=
  exists amount_usd sym coin crypto_needed,
    List.last evs (Answer NotForYou true)
    = SafeEdit (InvoiceReady amount_usd sym coin crypto_needed)
               [[Button PayNowLabel None (Some link) primary];
                [Button NewDepositLabel (Some "deposit_oxapay") None danger]].

(** The last screen is one of the two failure messages. *)
Definition failure_shown (evs : list ui_event) : Prop :=
  List.last evs (Answer NotForYou true) = SafeEdit InvoiceFailed [[back_button]]
  \/ List.last evs (Answer NotForYou true) = SafeEdit NoPaymentLink [[back_button]].

(** The three conditions of a successful invoice: HTTP 200, the result
    code 100, a payment link under [payLink], [payUrl] or [link]. *)
Definition invoice_ok (outcome : http_outcome) (link : json) : Prop :=
  exists d, outcome = Responded 200 (Some (JObj d))
            /\ eq_int (get_default d "result" JNull) 100 = true
            /\ link = pay_link_of d
            /\ truthy link = true.

(** ** One delivery, by how it ends *)

(** A run that leaves with the state as it was, after log lines only. *)
Definition left_alone {A} (st : state) (x : result A * state * list event) : Prop :=
  goes_on (result_of x) = false /\ state_of x = st /\ forallb is_log (events_of x) = true.

(** A statement that always goes on to the next one. *)
Definition continues {A} (m : M A) : Prop :=
  forall st, goes_on (result_of (m st)) = true.

(** The Telegram bot is as it was. *)
Definition same_bot_ref (st st' : state) : Prop := _bot_ref st' = _bot_ref st.

Definition any_event (e : event) : bool := true.

(** A statement that prepares no message while [_bot_ref] is unset. *)
Definition mute (m : M (option notification)) : Prop :=
  forall st n, _bot_ref st = false -> result_of (m st) <> Next (Some n).

(** The delivery gets as far as the duplicate guard: the signature
    check and the status check let it through, and the payment fields
    are read, with a dedup key that can be a member of a set. *)
Record gets_to_guard {api : BotApi} (cfg : config) (d : dict) (st : state)
    (p : payment) (k : pykey) : Prop := {
  guard_signature : signature_check cfg (JObj d) st = (Next tt, st, []);
  guard_status : status_accepted d;
  guard_fields : payment_fields (JObj d) st = (Next p, st, []);
  guard_key : hash_key (dedup_key_of p) = Some k
}.

(** The request is no JSON document, or one that is no object. *)
Definition not_an_object (req : option json) : Prop :=
  match req with
  | Some (JObj _) => False
  | _ => True
  end.

(** What the handler logs for such a request. *)
Definition malformed_log (req : option json) : list event :=
  match req with
  | None => [Log ERROR (WebhookException JSONDecodeError)]
  | Some v => [Log INFO (WebhookReceived v); Log ERROR (WebhookException AttributeError)]
  end.

(** The amounts of a payment, where they are strings, are ASCII
    text. *)
Definition ascii_text (v : json) : bool :=
  match v with
  | JStr s => is_ascii s
  | _ => true
  end.

Definition ascii_amounts (d : dict) : bool :=
  ascii_text (get_default d "amount" JNull)
  && ascii_text (get_default d "payAmount" JNull)
  && ascii_text (get_default d "pay_amount" JNull).

(** [float(v)] raises: [v] is [null], a list or an object, an integer
    beyond the floats, or a string that is no float literal. *)
Definition no_number (v : json) : bool :=
  match v with
  | JNull | JArr _ | JObj _ => true
  | JInt n => negb (bool_decide (is_Some (PyFloat.of_int n)))
  | JStr s => negb (bool_decide (is_Some (PyFloat.of_string s)))
  | JBool _ | JFloat _ => false
  end.

(** What lines 262-265 take for the paid amount: [payAmount], and
    [pay_amount] when that is absent or [null]. *)
Definition raw_pay_of (d : dict) : json :=
  if is_none (get_default d "payAmount" JNull)
  then get_default d "pay_amount" JNull
  else get_default d "payAmount" JNull.

Definition is_text (v : json) : bool :=
  match v with
  | JStr _ => true
  | _ => false
  end.

(** A payment field cannot be read: [float()] raises on the amount ([0]
    when there is none) or on the paid amount, when there is one, or the
    currency ([USDT] when there is none) is no string. *)
Definition unreadable (d : dict) : bool :=
  no_number (get_default d "amount" (JInt 0))
  || negb (is_text (get_default d "currency" (JStr "USDT")))
  || (negb (is_none (raw_pay_of d)) && no_number (raw_pay_of d)).

(** ** Digests *)

Definition is_byte (b : Z) : Prop := 0 <= b < 256.

(** ** The statistics [_credit] keeps *)

(** What the module needs of [bot.py] for its own book-keeping to be
    read back: crediting a wallet and persisting a user leave the
    statistics alone, and crediting leaves the prices alone. *)
Record keeps_stats (api : BotApi) : Prop := {
  credit_keeps_stats :
    forall u a c b, user_stats (credit_wallet_crypto u a c b) = user_stats b;
  credit_keeps_prices :
    forall u a c b, LIVE_PRICES (credit_wallet_crypto u a c b) = LIVE_PRICES b;
  save_keeps_stats :
    forall u b, user_stats (save_user_data u b) = user_stats b
}.

(** The live price of a coin is known and positive. *)
Definition priced (b : bot) (coin : string) (price : float) : Prop :=
  LIVE_PRICES b !! coin = Some price /\ PrimFloat.leb price PrimFloat.zero = false.

(** No usable price: none at all, or one that is zero or negative. *)
Definition unpriced (b : bot) (coin : string) : Prop :=
  match LIVE_PRICES b !! coin with
  | Some price => PrimFloat.leb price PrimFloat.zero = true
  | None => True
  end.

Definition is_save (e : event) : bool :=
  match e with SaveUserData _ => true | _ => false end.

(** The referrer of a user, when the user has one that is known to the
    statistics (line 105). *)
Definition referrer_of (b : bot) (u : Z) : option Z :=
  match (user_stats b !! u ≫= referral) ≫= referrer_id with
  | Some rid =>
      if negb (rid =? 0) && bool_decide (is_Some (user_stats b !! rid))
      then Some rid else None
  | None => None
  end.

(** The commission a user has earned in a coin. *)
Definition commission_of (b : bot) (u : Z) (coin : string) : option float :=
  ((user_stats b !! u ≫= referral) ≫= commissions) ≫= (fun m => m !! coin).

(** The deposits a user has yet to wager. *)
Definition unwagered_of (b : bot) (u : Z) : option float :=
  user_stats b !! u ≫= unwagered_deposit.

(** The price lines 94-98 work with: the live price, and [1.0] when
    there is none or when it is zero or negative. *)
Definition price_used (b : bot) (coin : string) : float :=
  match LIVE_PRICES b !! coin with
  | Some price => if PrimFloat.leb price PrimFloat.zero then one_float else price
  | None => one_float
  end.

(** The statistics of a user after a deposit worth [amount_usd], and
    after a commission in a coin. *)
Definition with_deposit (amount_usd : float) (s : stats) : stats :=
  Stats (Some (PrimFloat.add (or_zero (unwagered_deposit s)) amount_usd)) (referral s).

Definition with_commission (coin : string) (commission : float) (s : stats) : stats :=
  let ref_dict := default (Referral None None) (referral s) in
  let comm_dict := default ∅ (commissions ref_dict) in
  Stats (unwagered_deposit s)
        (Some (Referral (referrer_id ref_dict)
                        (Some (<[coin := PrimFloat.add (or_zero (comm_dict !! coin)) commission]>
                                 comm_dict)))).

(** The statistics [_credit] leaves behind. *)
Definition stats_after (b : bot) (u : Z) (amount : float) (coin : string) : gmap Z stats :=
  match user_stats b !! u with
  | None => user_stats b
  | Some _ =>
      let deposited :=
        alter (with_deposit (PrimFloat.mul amount (price_used b coin))) u (user_stats b) in
      match referrer_of b u with
      | Some rid =>
          alter (with_commission coin (PrimFloat.mul amount commission_rate)) rid deposited
      | None => deposited
      end
  end.

(** What [_credit] does to the outside, in the order it does it. *)
Definition credit_events (b : bot) (u : Z) (amount : float) (coin : string) : list event :=
  CreditWallet u amount coin
  :: match user_stats b !! u with
     | None => []
     | Some _ =>
         match LIVE_PRICES b !! coin with
         | Some price =>
             if PrimFloat.leb price PrimFloat.zero
             then [Log WARNING (NoLivePrice coin)] else []
         | None => [Log WARNING (NoLivePrice coin)]
         end
         ++ match referrer_of b u with
            | Some rid => [SaveUserData rid]
            | None => []
            end
     end
  ++ [SaveUserData u].

(** ** Order references *)

(** [s] is a non-empty run of decimal digits, an underscore, and
    anything: the digits read as the number [u]. *)
Definition names_user (s : string) (u : Z) : Prop :=
  exists ds rest,
    ds <> [] /\ is_decimal ds
    /\ s = digit_string ds +:+ String "_" rest
    /\ u = value_from 0 ds.

(** ** Keyboards *)

(** Rows of three buttons, the last one of one to three. *)
Fixpoint well_filled {A} (rows : list (list A)) : Prop :=
  match rows with
  | [] => True
  | r :: rest =>
      match rest with
      | [] => (1 <= List.length r <= 3)%nat
      | _ => List.length r = 3%nat
      end
      /\ well_filled rest
  end.

(** The coins the currency selector offers (line 492) and the button
    of a coin (lines 497-501). *)
Definition offered (cfg : config) (b : bot) : list string :=
  List.filter (fun c => mem c (SUPPORTED_CRYPTOS b)) (OXAPAY_SUPPORTED_CURRENCIES cfg).

Definition coin_button (b : bot) (coin : string) : button :=
  Button (CoinLabel (default "" (CRYPTO_SYMBOLS b !! coin)) coin)
         (Some ("oxapay_cur_" +:+ coin)) None primary.

(** The screen with its keyboard, sent as a new message or as an edit
    of the menu. *)
Definition shown (via_message : bool) (user_id : Z) (s : screen) (k : list (list button))
  : list ui_event :=
  if via_message then [ReplyText s k; SetOwner user_id] else [SafeEdit s k].

(** The request sent to the processor for an invoice. *)
Definition request_payload (cfg : config) (amount_usd : float) (coin : string)
    (user_id now : Z) : invoice_payload :=
  InvoicePayload (OXAPAY_MERCHANT_KEY cfg) (PyFloat.round2 amount_usd) coin
                 (make_order_id user_id now)
                 (PyStr.rstrip_char "/" (OXAPAY_WEBHOOK_HOST cfg)
                    +:+ OXAPAY_WEBHOOK_PATH cfg)
                 "Casino Deposit".

Definition invoice_request (cfg : config) (amount_usd : float) (coin : string)
    (user_id now : Z) : client_event :=
  Post INVOICE_URL (request_payload cfg amount_usd coin user_id now).

(** ** The conversation *)

Definition button_callbacks (k : list (list button)) : list string :=
  omap callback_data (concat k).

(** The callback data of the buttons an event puts on the screen. *)
Definition callbacks_of (e : flow_event) : list string :=
  match e with
  | EditAmountMenu _ k => List.map menu_callback (concat k)
  | EditCustomPrompt _ k => button_callbacks k
  | Ui (ReplyText _ k) => button_callbacks k
  | Ui (SafeEdit _ k) => button_callbacks k
  | _ => []
  end.

Definition callbacks (evs : list flow_event) : list string :=
  List.flat_map callbacks_of evs.

(** The library gives the button to a handler of the state. *)
Definition answers (s : conv_state) (data : string) : Prop :=
  exists h, first_match (states s) (CallbackQuery data) = Some h
            /\ select s (CallbackQuery data) = Some h.

(** The requests for an invoice among the events of the conversation. *)
Definition is_request (e : flow_event) : bool :=
  match e with
  | Ui (Http (Post _ _)) => true
  | _ => false
  end.

Definition requests (evs : list flow_event) : nat :=
  List.length (List.filter is_request evs).

(** What holds of a conversation at every moment: at the currency step
    an amount is stored, at the custom-amount step the flag is set. *)
Definition in_step (conv : conv_state * user_data) : Prop :=
  match fst conv with
  | _STATE_CURRENCY => is_Some (oxapay_usd_amount (snd conv))
  | _STATE_CUSTOM => oxapay_awaiting_custom (snd conv) = Some true
  | _ => True
  end.

(** The update is a press on a button that carries [deposit_oxapay],
    the callback data of the entry point. *)
Definition is_entry (u : update) : bool :=
  check_update (OnCallback (Whole "deposit_oxapay")) u.

(** The conversation is at the currency step and the update is a press,
    by the owner of the menu, on a button whose callback data begin
    with [oxapay_cur_] and name a configured currency. *)
Definition pays (cfg : config) (conv : conv_state * user_data)
    (x : update * circumstances) : bool :=
  match fst conv, fst x with
  | _STATE_CURRENCY, CallbackQuery data =>
      re_match (StartsWith "oxapay_cur_") data
      && owner (snd x)
      && mem (PyStr.upper (PyStr.replace "oxapay_cur_" "" data))
             (OXAPAY_SUPPORTED_CURRENCIES cfg)
  | _, _ => false
  end.

(** ** Messages over the life of the server *)

(** A statement that cannot go on without having recorded a key. *)
Definition marks {A} (m : M A) : Prop :=
  forall st, goes_on (result_of (m st)) = true ->
             exists k, In (ProcessedAdd k) (events_of (m st)).

(** The entry is a message of a delivery whose dedup key is [k]. *)
Definition sends_key (k : pykey) (x : entry) : bool :=
  is_send (snd x) && bool_decide (delivery_key (snd (fst x)) = Some k).

(** How many messages were sent for deliveries whose dedup key is [k]. *)
Definition sends (k : pykey) (h : list entry) : nat :=
  List.length (List.filter (sends_key k) h).

(** The delivery has a message to send and its dedup key is [k]. *)
Definition waits (k : pykey) (t : task) : bool :=
  match at_stage t with
  | Sending (Some _) => bool_decide (delivery_key (request t) = Some k)
  | _ => false
  end.

Definition waiting (k : pykey) (ts : list task) : nat :=
  List.length (List.filter (waits k) ts).

(** The messages sent and still to send for a key are covered by the
    recordings of that key. *)
Definition covered (srv : server) : Prop :=
  forall k, (sends k (history srv) + waiting k (tasks srv) <= adds k (history srv))%nat.

(** ** Start-up *)

(** The merchant key or the public host is empty or still the
    placeholder of the source file. *)
Definition unconfigured (cfg : config) : Prop :=
  OXAPAY_MERCHANT_KEY cfg = "" \/ OXAPAY_MERCHANT_KEY cfg = "sandbox"
  \/ OXAPAY_WEBHOOK_HOST cfg = "" \/ OXAPAY_WEBHOOK_HOST cfg = "https://yourdomain.com".

(** The start-up registers the route or opens the port. *)
Definition serves (e : startup_event) : bool :=
  match e with
  | AddPost _ | RunnerSetup | SiteStart _ _ => true
  | StartupLog _ _ => false
  end.

(** ** The invoice screen *)

(** The amount of coin the invoice screen tells the user to send (lines
    555-556). *)
Definition crypto_needed_for (b : bot) (amount_usd : float) (coin : string) : float :=
  if PrimFloat.ltb PrimFloat.zero (_live_price b coin)
  then PrimFloat.div amount_usd (_live_price b coin)
  else PrimFloat.zero.

(** ** Custom amounts *)

(** The characters of a float literal: the digits, the two signs, the
    point, the underscore, the mark of the exponent, the letters of
    [inf], [infinity] and [nan] in either case, and the white space
    [float()] skips. *)
Definition float_char (c : ascii) : bool :=
  PyStr.is_digit c || PyFloat.is_c_space c
  || PyStr.contains_char c "+-._eEiInNfFtTyYaA".

(** The digits of a text, whatever stands between them. *)
Fixpoint typed_digits (s : string) : list Z :=
  match s with
  | EmptyString => []
  | String c s' =>
      if PyStr.is_digit c then PyStr.digit_val c :: typed_digits s' else typed_digits s'
  end.

(** The text is made of digits and commas. *)
Definition digits_and_commas (s : string) : Prop :=
  PyStr.all_chars (fun c => PyStr.is_digit c || Ascii.eqb c ",") s = true.

End Spec.

(* ===================================================================== *)
(** * Facts about the string operations *)
(* ===================================================================== *)

Module PyStrFacts.

Import PyStr Spec.

Lemma digit_char_cases (d : Z) :
  0 <= d <= 9 ->
  is_digit (digit_char d) = true /\ digit_val (digit_char d) = d
  /\ Ascii.eqb "_" (digit_char d) = false.
Proof.
  intros Hd.
  assert (d = 0 \/ d = 1 \/ d = 2 \/ d = 3 \/ d = 4 \/ d = 5 \/ d = 6
          \/ d = 7 \/ d = 8 \/ d = 9) as Hc by lia.
  repeat destruct Hc as [-> | Hc]; try subst d; repeat split; reflexivity.
Qed.

Lemma rev_digits_decimal (fuel : nat) (n : Z) :
  0 <= n -> 0 <= n < 10 ^ Z.of_nat fuel -> is_decimal (rev_digits fuel n).
Proof.
  revert n. induction fuel as [|fuel IH]; intros n Hn Hlt; simpl.
  - constructor.
  - destruct (n <? 10) eqn:E.
    + apply Z.ltb_lt in E. repeat constructor; lia.
    + apply Z.ltb_ge in E. constructor.
      * pose proof (Z.mod_pos_bound n 10). lia.
      * apply IH.
        -- apply Z.div_pos; lia.
        -- split; [apply Z.div_pos; lia|].
           apply Z.div_lt_upper_bound; [lia|].
           rewrite Nat2Z.inj_succ, Z.pow_succ_r in Hlt by lia. lia.
Qed.

Lemma rev_digits_value (fuel : nat) (n : Z) :
  0 <= n < 10 ^ Z.of_nat fuel -> value_from 0 (rev (rev_digits fuel n)) = n.
Proof.
  revert n. induction fuel as [|fuel IH]; intros n Hlt.
  - cbn in *. lia.
  - simpl. destruct (n <? 10) eqn:E.
    + cbn. lia.
    + apply Z.ltb_ge in E. simpl.
      unfold value_from. rewrite fold_left_app. simpl.
      fold (value_from 0 (rev (rev_digits fuel (n / 10)))).
      rewrite IH.
      * pose proof (Z.div_mod n 10). lia.
      * split; [apply Z.div_pos; lia|].
        apply Z.div_lt_upper_bound; [lia|].
        rewrite Nat2Z.inj_succ, Z.pow_succ_r in Hlt by lia. lia.
Qed.

Lemma rev_digits_nonempty (fuel : nat) (n : Z) : rev_digits (S fuel) n <> [].
Proof. simpl. destruct (n <? 10); discriminate. Qed.

Lemma enough_fuel (n : Z) : 0 <= n -> 0 <= n < 10 ^ Z.of_nat (S (Z.to_nat (Z.log2 n))).
Proof.
  intros Hn. split; [lia|].
  rewrite Nat2Z.inj_succ, Z2Nat.id by apply Z.log2_nonneg.
  destruct (Z.eq_dec n 0) as [-> | Hne].
  - reflexivity.
  - assert (n < 2 ^ Z.succ (Z.log2 n)) by (apply Z.log2_spec; lia).
    assert (2 ^ Z.succ (Z.log2 n) <= 10 ^ Z.succ (Z.log2 n)).
    { apply Z.pow_le_mono_l. pose proof (Z.log2_nonneg n). lia. }
    lia.
Qed.

Lemma digits_decimal (n : Z) : 0 <= n -> is_decimal (digits n).
Proof.
  intros Hn. unfold digits, is_decimal. apply Forall_rev.
  apply rev_digits_decimal; [lia | apply enough_fuel; lia].
Qed.

Lemma digits_value (n : Z) : 0 <= n -> value_from 0 (digits n) = n.
Proof. intros Hn. apply rev_digits_value, enough_fuel, Hn. Qed.

Lemma digits_nonempty (n : Z) : digits n <> [].
Proof.
  unfold digits. intros H. apply (f_equal (@rev Z)) in H.
  rewrite rev_involutive in H. simpl in H.
  destruct (n <? 10); discriminate.
Qed.

Lemma int_of_digit_string (ds : list Z) (acc : Z) :
  is_decimal ds -> int_of_digits_from acc (digit_string ds) = value_from acc ds.
Proof.
  revert acc. induction ds as [|d ds IH]; intros acc Hds; [reflexivity|].
  inversion Hds as [|? ? Hd Hrest]; subst.
  cbn [digit_string map string_of_list_ascii int_of_digits_from value_from fold_left].
  destruct (digit_char_cases d Hd) as (_ & -> & _).
  apply IH, Hrest.
Qed.

Lemma all_digits_digit_string (ds : list Z) :
  is_decimal ds -> all_chars is_digit (digit_string ds) = true.
Proof.
  induction 1 as [|d ds Hd _ IH]; [reflexivity|].
  cbn [digit_string map string_of_list_ascii all_chars].
  destruct (digit_char_cases d Hd) as (-> & _ & _). exact IH.
Qed.

Lemma isdigit_digit_string (ds : list Z) :
  is_decimal ds -> ds <> [] -> isdigit (digit_string ds) = true.
Proof.
  intros Hds Hne. destruct ds as [|d ds]; [congruence|].
  pose proof (all_digits_digit_string _ Hds) as H.
  cbn [digit_string map string_of_list_ascii] in *. exact H.
Qed.

Lemma append_cons (c : ascii) (s t : string) :
  String c s +:+ t = String c (s +:+ t).
Proof. reflexivity. Qed.

Lemma digit_not_underscore (c : ascii) :
  is_digit c = true -> Ascii.eqb "_" c = false.
Proof.
  intros Hc. destruct (Ascii.eqb "_" c) eqn:E; [|reflexivity].
  apply Ascii.eqb_eq in E. subst c. discriminate Hc.
Qed.

Lemma split_head_digits (s rest : string) :
  all_chars is_digit s = true ->
  split_head "_" (s +:+ String "_" rest) = s.
Proof.
  induction s as [|c s IH]; intros Hs.
  - reflexivity.
  - rewrite append_cons. cbn [split_head all_chars] in *.
    apply andb_prop in Hs as [Hc Hs].
    rewrite (digit_not_underscore c Hc). f_equal. apply IH, Hs.
Qed.

Lemma contains_underscore_app (s rest : string) :
  contains_char "_" (s +:+ String "_" rest) = true.
Proof.
  induction s as [|c s IH].
  - reflexivity.
  - rewrite append_cons. cbn [contains_char].
    destruct (Ascii.eqb "_" c); [reflexivity | exact IH].
Qed.

(** [str(n)] of a non-negative [n] is a non-empty string of digits that
    [int] reads back as [n]. *)
Lemma str_of_int_nonneg (n : Z) :
  0 <= n -> str_of_int n = digit_string (digits n).
Proof.
  intros Hn. unfold str_of_int.
  destruct (n <? 0) eqn:E; [apply Z.ltb_lt in E; lia | reflexivity].
Qed.

Lemma int_of_str_of_int (n : Z) : 0 <= n -> int_of_digits (str_of_int n) = n.
Proof.
  intros Hn. rewrite str_of_int_nonneg by lia. unfold int_of_digits.
  rewrite int_of_digit_string by (apply digits_decimal; lia).
  apply digits_value, Hn.
Qed.

End PyStrFacts.

(* ===================================================================== *)
(** * Facts about the handler's building blocks *)
(* ===================================================================== *)

Module Effects.

Import Json Oxapay Spec.

Lemma bind_unfold {A B} (m : M A) (k : A -> M B) (st : state) :
  bind m k st =
  match result_of (m st) with
  | Next a =>
      (result_of (k a (state_of (m st))), state_of (k a (state_of (m st))),
       events_of (m st) ++ events_of (k a (state_of (m st))))
  | ReturnOk => (ReturnOk, state_of (m st), events_of (m st))
  | Raise e => (Raise e, state_of (m st), events_of (m st))
  end.
Proof.
  unfold bind, result_of, state_of, events_of.
  destruct (m st) as [[[a| |e] st1] evs1]; cbn; [|reflexivity..].
  destruct (k a st1) as [[r st2] evs2]; reflexivity.
Qed.

(** ** Statements that keep a relation on the state and emit only
       events of a given kind *)
Section Respects.

Variable R : state -> state -> Prop.
Context `{!Reflexive R, !Transitive R}.
Variable allowed : event -> bool.

Lemma respects_pure {A} (a : A) : respects R allowed (pure a).
Proof. intros st. split; [reflexivity | reflexivity]. Qed.

Lemma respects_return_ok {A} : respects R allowed (@return_ok A).
Proof. intros st. split; reflexivity. Qed.

Lemma respects_raise {A} (e : exn) : respects R allowed (@raise A e).
Proof. intros st. split; reflexivity. Qed.

Lemma respects_read {A} (f : state -> A) : respects R allowed (read f).
Proof. intros st. split; reflexivity. Qed.

Lemma respects_lift {A} (e : exn) (o : option A) : respects R allowed (lift e o).
Proof. destruct o; [apply respects_pure | apply respects_raise]. Qed.

Lemma respects_emit (e : event) : allowed e = true -> respects R allowed (emit e).
Proof. intros He st. split; [reflexivity|]. cbn. rewrite He. reflexivity. Qed.

Lemma respects_modify (f : state -> state) :
  (forall st, R st (f st)) -> respects R allowed (modify f).
Proof. intros Hf st. split; [apply Hf | reflexivity]. Qed.

Lemma respects_bind {A B} (m : M A) (k : A -> M B) :
  respects R allowed m -> (forall a, respects R allowed (k a)) -> respects R allowed (bind m k).
Proof.
  intros Hm Hk st. unfold bind.
  specialize (Hm st).
  destruct (m st) as [[[a| |e] st1] evs1]; cbn in *; [|exact Hm..].
  specialize (Hk a st1).
  destruct (k a st1) as [[r st2] evs2]; cbn in *.
  destruct Hm as [HR Hev], Hk as [HR' Hev'].
  split; [etransitivity; eassumption|].
  rewrite forallb_app, Hev, Hev'. reflexivity.
Qed.

Lemma respects_if {A} (c : bool) (m1 m2 : M A) :
  respects R allowed m1 -> respects R allowed m2 -> respects R allowed (if c then m1 else m2).
Proof. destruct c; auto. Qed.

End Respects.

Lemma respects_weaken {A} (R1 R2 : state -> state -> Prop) (a1 a2 : event -> bool)
    (m : M A) :
  (forall s s', R1 s s' -> R2 s s') ->
  (forall e, a1 e = true -> a2 e = true) ->
  respects R1 a1 m -> respects R2 a2 m.
Proof.
  intros HR Ha Hm st. destruct (Hm st) as [H1 H2]. split; [auto|].
  rewrite forallb_forall in *. auto.
Qed.

(** ** Statements that leave: everything after them is skipped *)

Lemma stops_return_ok {A} : stops (@return_ok A).
Proof. intros st. reflexivity. Qed.

Lemma stops_raise {A} (e : exn) : stops (@raise A e).
Proof. intros st. reflexivity. Qed.

Lemma stops_bind_l {A B} (m : M A) (k : A -> M B) : stops m -> stops (bind m k).
Proof.
  intros Hm st. unfold bind. specialize (Hm st).
  destruct (m st) as [[[a| |e] st1] evs1]; cbn in *; [discriminate|reflexivity..].
Qed.

Lemma stops_bind_r {A B} (m : M A) (k : A -> M B) :
  (forall a, stops (k a)) -> stops (bind m k).
Proof.
  intros Hk st. unfold bind.
  destruct (m st) as [[[a| |e] st1] evs1]; cbn; [|reflexivity..].
  specialize (Hk a st1). destruct (k a st1) as [[r st2] evs2]. exact Hk.
Qed.

(** What comes after a statement that leaves adds nothing. *)
Lemma respects_bind_stops {A B} R allowed (m : M A) (k : A -> M B) :
  respects R allowed m -> stops m -> respects R allowed (bind m k).
Proof.
  intros Hm Hs st. unfold bind. specialize (Hm st). specialize (Hs st).
  destruct (m st) as [[[a| |e] st1] evs1]; cbn in *; [discriminate|exact Hm..].
Qed.

(** ** Counting events *)

Lemma count_app p (l1 l2 : list event) : count p (l1 ++ l2) = (count p l1 + count p l2)%nat.
Proof. unfold count. rewrite List.filter_app, List.length_app. reflexivity. Qed.

Lemma count_none p (l : list event) :
  forallb (fun e => negb (p e)) l = true -> count p l = 0%nat.
Proof.
  induction l as [|e l IH]; cbn; [reflexivity|].
  intros H. apply andb_prop in H as [He Hl].
  unfold count in *. cbn. destruct (p e); [discriminate|]. apply IH, Hl.
Qed.

Lemma at_most_bind p n1 n2 {A B} (m : M A) (k : A -> M B) :
  at_most p n1 m -> (forall a, at_most p n2 (k a)) -> at_most p (n1 + n2) (bind m k).
Proof.
  intros Hm Hk st. unfold bind. specialize (Hm st).
  destruct (m st) as [[[a| |e] st1] evs1];
    unfold events_of in *; cbn [fst snd] in *; [|lia..].
  specialize (Hk a st1). unfold events_of in Hk.
  destruct (k a st1) as [[r st2] evs2]; cbn [fst snd] in *.
  rewrite count_app. lia.
Qed.

Lemma at_most_respects p {A} R (m : M A) :
  respects R (fun e => negb (p e)) m -> at_most p 0 m.
Proof. intros Hm st. destruct (Hm st) as [_ H]. rewrite (count_none _ _ H). lia. Qed.

Lemma at_most_emit p (e : event) : at_most p 1 (emit e).
Proof. intros st. unfold count. cbn. destruct (p e); cbn; lia. Qed.

(** ** The quiet statements: they leave the state alone and only log *)

Lemma quiet_pure {A} (a : A) : quiet (pure a).
Proof. apply respects_pure; typeclasses eauto. Qed.
Lemma quiet_return_ok {A} : quiet (@return_ok A).
Proof. apply respects_return_ok; typeclasses eauto. Qed.
Lemma quiet_raise {A} (e : exn) : quiet (@raise A e).
Proof. apply respects_raise; typeclasses eauto. Qed.
Lemma quiet_read {A} (f : state -> A) : quiet (read f).
Proof. apply respects_read; typeclasses eauto. Qed.
Lemma quiet_lift {A} (e : exn) (o : option A) : quiet (lift e o).
Proof. apply respects_lift; typeclasses eauto. Qed.
Lemma quiet_logging (l : level) (line : log_line) : quiet (logging l line).
Proof. apply respects_emit; [typeclasses eauto | reflexivity]. Qed.
Lemma quiet_bind {A B} (m : M A) (k : A -> M B) :
  quiet m -> (forall a, quiet (k a)) -> quiet (bind m k).
Proof. apply respects_bind; typeclasses eauto. Qed.
Lemma quiet_bind_stops {A B} (m : M A) (k : A -> M B) :
  quiet m -> stops m -> quiet (bind m k).
Proof. apply respects_bind_stops. Qed.

Create HintDb quiet.
#[export] Hint Resolve quiet_pure quiet_return_ok quiet_raise quiet_read quiet_lift
  quiet_logging : quiet.
#[export] Hint Extern 2 (quiet (bind _ _)) => apply quiet_bind; [|intros ?] : quiet.
#[export] Hint Extern 3 (quiet (if ?c then _ else _)) => destruct c : quiet.
#[export] Hint Extern 3 (quiet (match ?x with _ => _ end)) => destruct x : quiet.

Lemma quiet_py_get data k dflt : quiet (py_get data k dflt).
Proof. destruct data; cbn; auto with quiet. Qed.
Lemma quiet_py_lower v : quiet (py_lower v).
Proof. destruct v; cbn; auto with quiet. Qed.
Lemma quiet_py_upper v : quiet (py_upper v).
Proof. destruct v; cbn; auto with quiet. Qed.
Lemma quiet_py_float v : quiet (py_float v).
Proof. destruct v; cbn; auto with quiet. Qed.
Lemma quiet_py_contains_underscore v : quiet (py_contains_underscore v).
Proof. destruct v; cbn; auto with quiet. Qed.
Lemma quiet_py_split_head v : quiet (py_split_head v).
Proof. destruct v; cbn; auto with quiet. Qed.
Lemma quiet_compare_digest a b : quiet (compare_digest a b).
Proof. destruct b; cbn; auto with quiet. Qed.

#[export] Hint Resolve quiet_py_get quiet_py_lower quiet_py_upper quiet_py_float
  quiet_py_contains_underscore quiet_py_split_head quiet_compare_digest : quiet.

Section Phases.

Context {api : BotApi}.
Variable cfg : config.

Lemma quiet_verify_signature body h : quiet (_verify_signature cfg body h).
Proof. unfold _verify_signature. auto with quiet. Qed.

Lemma quiet_signature_check data : quiet (signature_check cfg data).
Proof.
  unfold signature_check.
  apply quiet_bind; [auto with quiet|]. intros h.
  destruct (truthy h); [|auto with quiet].
  apply quiet_bind; [destruct data; auto with quiet|]. intros vd.
  apply quiet_bind; [apply quiet_verify_signature|]. intros valid.
  destruct valid; cbn; auto with quiet.
Qed.

Lemma quiet_confirmed_status data : quiet (confirmed_status data).
Proof. unfold confirmed_status. auto 10 with quiet. Qed.

Lemma quiet_payment_fields data : quiet (payment_fields data).
Proof. unfold payment_fields. auto 20 with quiet. Qed.

Lemma quiet_positive_amount p : quiet (positive_amount p).
Proof. unfold positive_amount. auto with quiet. Qed.

Lemma quiet_resolve_telegram_id o : quiet (resolve_telegram_id o).
Proof. unfold resolve_telegram_id. auto 10 with quiet. Qed.

Lemma quiet_prepare_notification t p : quiet (prepare_notification t p).
Proof. unfold prepare_notification. auto 10 with quiet. Qed.

End Phases.

End Effects.

(* ===================================================================== *)
(** * One delivery: what the handler can do *)
(* ===================================================================== *)

Module Delivery.

Import Json Oxapay Spec Effects.

#[export] Instance same_guard_refl : Reflexive same_guard.
Proof. intros st. split; reflexivity. Qed.

#[export] Instance same_guard_trans : Transitive same_guard.
Proof. intros a b c [H1 H2] [H3 H4]. split; congruence. Qed.

Ltac effects :=
  repeat match goal with
  | |- respects _ _ (bind _ _) => apply respects_bind; [typeclasses eauto | | intros ?]
  | |- respects _ _ (pure _) => apply respects_pure; typeclasses eauto
  | |- respects _ _ (raise _) => apply respects_raise; typeclasses eauto
  | |- respects _ _ return_ok => apply respects_return_ok; typeclasses eauto
  | |- respects _ _ (read _) => apply respects_read; typeclasses eauto
  | |- respects _ _ (lift _ _) => apply respects_lift; typeclasses eauto
  | |- respects _ _ (emit _) => apply respects_emit; [typeclasses eauto | reflexivity]
  | |- respects _ _ (logging _ _) => apply respects_emit; [typeclasses eauto | reflexivity]
  | |- respects _ _ (modify _) => apply respects_modify; intros ?; split; reflexivity
  | |- respects _ _ (call _ _) => unfold call
  | |- respects _ _ (py_get _ _ _) => unfold py_get
  | |- respects _ _ (py_float _) => unfold py_float
  | |- respects _ _ (py_upper _) => unfold py_upper
  | |- respects _ _ (py_lower _) => unfold py_lower
  | |- respects _ _ (referral_commission _ _ _) => unfold referral_commission
  | |- respects _ _ (let _ := _ in _) => cbv zeta
  | |- respects _ _ (if ?c then _ else _) => destruct c
  | |- respects _ _ (match ?x with _ => _ end) => destruct x
  end.

Lemma bind_pure {A B} (a : A) (k : A -> M B) (st : state) : bind (pure a) k st = k a st.
Proof. unfold bind, pure. destruct (k a st) as [[r st2] evs2]. reflexivity. Qed.

Lemma bind_read {A B} (f : state -> A) (k : A -> M B) (st : state) :
  bind (read f) k st = k (f st) st.
Proof. unfold bind, read. destruct (k (f st) st) as [[r st2] evs2]. reflexivity. Qed.

Lemma bind_modify {B} (f : state -> state) (k : unit -> M B) (st : state) :
  bind (modify f) k st = k tt (f st).
Proof. unfold bind, modify. destruct (k tt (f st)) as [[r st2] evs2]. reflexivity. Qed.

Lemma bind_emit {B} (e : event) (k : unit -> M B) (st : state) :
  bind (emit e) k st
  = (result_of (k tt st), state_of (k tt st), e :: events_of (k tt st)).
Proof. unfold bind, emit. destruct (k tt st) as [[r st2] evs2]. reflexivity. Qed.

Lemma bind_raise {A B} (e : exn) (k : A -> M B) (st : state) :
  bind (raise e) k st = (Raise e, st, []).
Proof. reflexivity. Qed.

Lemma bind_return_ok {A B} (k : A -> M B) (st : state) :
  bind return_ok k st = (ReturnOk, st, []).
Proof. reflexivity. Qed.

Lemma bind_bind {A B C} (m : M A) (k1 : A -> M B) (k2 : B -> M C) (st : state) :
  bind (bind m k1) k2 st = bind m (fun a => bind (k1 a) k2) st.
Proof.
  unfold bind. destruct (m st) as [[[a| |e] st1] evs1]; [|reflexivity..].
  destruct (k1 a st1) as [[[b| |e] st2] evs2]; [|reflexivity..].
  destruct (k2 b st2) as [[r st3] evs3]. rewrite app_assoc. reflexivity.
Qed.

Lemma bind_Next_inv {A B} (m : M A) (k : A -> M B) st b st' evs :
  bind m k st = (Next b, st', evs) ->
  exists a st1 e1 e2,
    m st = (Next a, st1, e1) /\ k a st1 = (Next b, st', e2) /\ evs = e1 ++ e2.
Proof.
  unfold bind. destruct (m st) as [[[a| |e] st1] evs1]; [|discriminate..].
  destruct (k a st1) as [[r st2] evs2] eqn:Hk. intros [= -> -> <-].
  exists a, st1, evs1, evs2. auto.
Qed.

(** After a quiet statement: either it went on, and what follows runs
    from the same state, or it left, and nothing but its log lines
    remains. *)
Lemma bind_quiet_cases {A B} (m : M A) (k : A -> M B) (st : state) :
  quiet m ->
  (exists a logs, forallb is_log logs = true /\ m st = (Next a, st, logs)
     /\ bind m k st
        = (result_of (k a st), state_of (k a st), logs ++ events_of (k a st)))
  \/ (exists r logs, forallb is_log logs = true /\ goes_on r = false
        /\ bind m k st = (r, st, logs)).
Proof.
  intros Hm. destruct (Hm st) as [Hst Hlogs]. unfold bind.
  unfold state_of, events_of in *.
  destruct (m st) as [[[a| |e] st1] evs1]; cbn [fst snd] in *; subst st1.
  - left. exists a, evs1. repeat split; [assumption|].
    destruct (k a st) as [[r st2] evs2]. reflexivity.
  - right. exists ReturnOk, evs1. auto.
  - right. exists (Raise e), evs1. auto.
Qed.

Section OneDelivery.

Context {api : BotApi}.
Variable cfg : config.

(** ** [_credit] and the statements around it *)

Lemma credit_effects u a c : respects same_guard booking_or_credit (_credit u a c).
Proof. unfold _credit. effects. Qed.

Lemma credit_once u a c : at_most is_credit 1 (_credit u a c).
Proof.
  unfold _credit. change 1%nat with (1 + 0)%nat.
  apply at_most_bind.
  - unfold call. change 1%nat with (0 + 1)%nat. apply at_most_bind.
    + eapply at_most_respects with (R := same_guard). effects.
    + intros _. apply at_most_emit.
  - intros _. eapply at_most_respects with (R := same_guard). effects.
Qed.

Lemma credit_user_effects t p :
  respects same_guard booking_or_credit (credit_user t p).
Proof.
  unfold credit_user.
  apply respects_bind; [typeclasses eauto | effects |]. intros _.
  apply respects_bind; [typeclasses eauto | effects |]. intros w.
  destruct (bool_decide _); [|effects].
  apply respects_bind; [typeclasses eauto | apply credit_effects |]. intros _.
  effects.
Qed.

Lemma credit_user_once t p : at_most is_credit 1 (credit_user t p).
Proof.
  unfold credit_user. change 1%nat with (0 + (0 + 1))%nat.
  apply at_most_bind.
  { eapply at_most_respects with (R := same_guard). effects. }
  intros _. apply at_most_bind.
  { eapply at_most_respects with (R := same_guard). effects. }
  intros w. destruct (bool_decide _).
  - change 1%nat with (1 + 0)%nat. apply at_most_bind; [apply credit_once|].
    intros _. eapply at_most_respects with (R := same_guard). effects.
  - intros st. pose proof (at_most_respects is_credit same_guard
                             (logging WARNING (UserNotFound t))) as H.
    specialize (H ltac:(effects) st). lia.
Qed.

(** ** The two shapes of a run up to [await send_message]

    Either the delivery is dropped before anything is recorded: the
    state is as it was and only log lines were written.  Or its key
    [k] was new: it is recorded once, after log lines only, and what
    follows is book-keeping and one credit at most. *)

Lemma shape_after_logs key st st' logs evs :
  forallb is_log logs = true -> shape key st st' evs -> shape key st st' (logs ++ evs).
Proof.
  intros Hl [[-> Hd] | (k & Hk & Hn & Hp & Hb & pre & post & -> & Hpre & Hpost & Hc)].
  - left. split; [reflexivity|]. rewrite forallb_app, Hl, Hd. reflexivity.
  - right. exists k. split; [assumption|]. repeat split; try assumption.
    exists (logs ++ pre), post. rewrite <- app_assoc. repeat split; try assumption.
    rewrite forallb_app, Hl, Hpre. reflexivity.
Qed.

Lemma shape_before_logs key st st' logs evs :
  forallb is_log logs = true -> shape key st st' evs -> shape key st st' (evs ++ logs).
Proof.
  intros Hl [[-> Hd] | (k & Hk & Hn & Hp & Hb & pre & post & -> & Hpre & Hpost & Hc)].
  - left. split; [reflexivity|]. rewrite forallb_app, Hl, Hd. reflexivity.
  - right. exists k. split; [assumption|]. repeat split; try assumption.
    exists pre, (post ++ logs). rewrite <- app_assoc. repeat split; try assumption.
    + rewrite forallb_app, Hpost. cbn.
      rewrite forallb_forall in *. intros e He. specialize (Hl e He).
      unfold booking_or_credit. destruct e; try discriminate; reflexivity.
    + rewrite count_app. rewrite (count_none is_credit logs); [lia|].
      rewrite forallb_forall in *. intros e He. specialize (Hl e He).
      destruct e; try discriminate; reflexivity.
Qed.

Lemma shape_quiet_bind {A B} key (m : M A) (k : A -> M B) st :
  quiet m ->
  (forall a logs, m st = (Next a, st, logs) ->
                  shape key st (state_of (k a st)) (events_of (k a st))) ->
  shape key st (state_of (bind m k st)) (events_of (bind m k st)).
Proof.
  intros Hm Hk.
  destruct (bind_quiet_cases m k st Hm)
    as [(a & logs & Hl & Hma & ->) | (r & logs & Hl & Hr & ->)].
  - apply shape_after_logs; [assumption|]. eapply Hk, Hma.
  - left. split; [reflexivity | assumption].
Qed.

Lemma after_guard_effects p :
  respects same_guard booking_or_credit
    (positive_amount p ;;;
     let* telegram_id := resolve_telegram_id (order_id p) in
     credit_user telegram_id p ;;;
     prepare_notification telegram_id p).
Proof.
  assert (forall A (m : M A), quiet m -> respects same_guard booking_or_credit m) as Hq.
  { intros A m. apply respects_weaken.
    - intros s s' ->. reflexivity.
    - intros e He. destruct e; try discriminate; reflexivity. }
  apply respects_bind; [typeclasses eauto | apply Hq, quiet_positive_amount |].
  intros _.
  apply respects_bind; [typeclasses eauto | apply Hq, quiet_resolve_telegram_id |].
  intros t.
  apply respects_bind; [typeclasses eauto | apply credit_user_effects |].
  intros _. apply Hq, quiet_prepare_notification.
Qed.

Lemma after_guard_once p :
  at_most is_credit 1
    (positive_amount p ;;;
     let* telegram_id := resolve_telegram_id (order_id p) in
     credit_user telegram_id p ;;;
     prepare_notification telegram_id p).
Proof.
  assert (forall A (m : M A), quiet m -> at_most is_credit 0 m) as Hq.
  { intros A m Hm. apply at_most_respects with (R := eq).
    eapply respects_weaken; [| |exact Hm]; [auto|].
    intros e He. destruct e; try discriminate; reflexivity. }
  change 1%nat with (0 + (0 + (1 + 0)))%nat.
  apply at_most_bind; [apply Hq, quiet_positive_amount|]. intros _.
  apply at_most_bind; [apply Hq, quiet_resolve_telegram_id|]. intros t.
  apply at_most_bind; [apply credit_user_once|]. intros _.
  apply Hq, quiet_prepare_notification.
Qed.

Lemma from_guard_shape p st :
  shape (hash_key (dedup_key_of p)) st
        (state_of (from_guard p st)) (events_of (from_guard p st)).
Proof.
  unfold from_guard, duplicate_guard.
  set (rest := (positive_amount p ;;; _)).
  rewrite bind_bind.
  destruct (hash_key (dedup_key_of p)) as [k|] eqn:Hkey; cbn [lift].
  - rewrite bind_pure, bind_bind, bind_read.
    destruct (decide (k ∈ _processed_orders st)) as [Hin | Hnotin].
    + left. rewrite (bool_decide_eq_true_2 _ Hin).
      rewrite bind_bind. unfold logging. rewrite bind_emit. cbv beta.
      rewrite !bind_return_ok. split; reflexivity.
    + right. exists k. split; [reflexivity|].
      rewrite (bool_decide_eq_false_2 _ Hnotin).
      rewrite !bind_bind, bind_modify. cbv beta. rewrite bind_emit. cbv beta.
      pose proof (after_guard_effects p
                    (set_processed (fun s => {[k]} ∪ s) st)) as [[Hp Hb] Hev].
      pose proof (after_guard_once p (set_processed (fun s => {[k]} ∪ s) st)) as Hc.
      fold rest in Hp, Hb, Hev, Hc.
      unfold state_of at 1, events_of at 1. cbn [fst snd].
      repeat split; try assumption.
      exists [], (events_of (rest (set_processed (fun s => {[k]} ∪ s) st))).
      repeat split; assumption.
  - left. rewrite bind_raise. split; reflexivity.
Qed.

(** ** The payment fields (lines 256-266) *)

(** Reading the fields changes nothing and writes nothing. *)
Lemma payment_fields_silent data :
  respects eq (fun _ => false) (payment_fields data).
Proof. unfold payment_fields. effects. Qed.

Lemma py_float_silent v : respects eq (fun _ => false) (py_float v).
Proof. unfold py_float. effects. Qed.

Lemma py_upper_silent v : respects eq (fun _ => false) (py_upper v).
Proof. unfold py_upper. effects. Qed.

Lemma silent_run {A} (m : M A) st r st' evs :
  respects eq (fun _ => false) m -> m st = (r, st', evs) -> st' = st /\ evs = [].
Proof.
  intros Hm Hrun. destruct (Hm st) as [Hst Hev].
  rewrite Hrun in Hst, Hev. unfold state_of, events_of in *. cbn in *.
  split; [congruence|]. destruct evs; [reflexivity | discriminate].
Qed.

Lemma payment_fields_not_dict data st p st' evs :
  payment_fields data st = (Next p, st', evs) -> exists d, data = JObj d.
Proof.
  destruct data; try (intros H; discriminate H). eauto.
Qed.

Lemma if_pure {A} (c : bool) (a b : A) :
  (if c then pure a else pure b) = pure (if c then a else b).
Proof. destruct c; reflexivity. Qed.

(** What the fields of a payment are, when they can be read. *)
Lemma payment_fields_inv d st p st' evs :
  payment_fields (JObj d) st = (Next p, st', evs) ->
  st' = st /\ evs = []
  /\ order_id p = get_default d "orderId" (JStr "")
  /\ track_id p = get_default d "trackId" (JStr "")
  /\ py_float (get_default d "amount" (JInt 0)) st = (Next (amount_usd p), st, [])
  /\ py_upper (get_default d "currency" (JStr "USDT")) st = (Next (paid_coin p), st, [])
  /\ (is_none (get_default d "payAmount" JNull) = true ->
      is_none (get_default d "pay_amount" JNull) = true ->
      pay_amount p = amount_usd p).
Proof.
  intros Hrun.
  destruct (silent_run _ _ _ _ _ (payment_fields_silent (JObj d)) Hrun) as [-> ->].
  split; [reflexivity|]. split; [reflexivity|].
  unfold payment_fields in Hrun. cbn [py_get] in Hrun.
  rewrite !bind_pure in Hrun.
  apply bind_Next_inv in Hrun as (amt & st1 & e1 & e2 & Hamt & Hrun & _).
  destruct (silent_run _ _ _ _ _ (py_float_silent _) Hamt) as [-> ->].
  rewrite !bind_pure in Hrun.
  apply bind_Next_inv in Hrun as (coin & st1 & e1 & e3 & Hcoin & Hrun & _).
  destruct (silent_run _ _ _ _ _ (py_upper_silent _) Hcoin) as [-> ->].
  rewrite bind_pure, if_pure, bind_pure in Hrun.
  apply bind_Next_inv in Hrun as (pay & st1 & e1 & e4 & Hpay & Hrun & _).
  injection Hrun as <- _ _. cbn.
  repeat split; try assumption.
  intros H1 H2. rewrite H1, H2 in Hpay. cbn in Hpay.
  unfold pure in Hpay. congruence.
Qed.

(** ** The run up to [await send_message] *)

Lemma before_send_unfold req :
  before_send cfg req =
  (let* data := lift JSONDecodeError req in
   logging INFO (WebhookReceived data) ;;;
   signature_check cfg data ;;;
   confirmed_status data ;;;
   let* p := payment_fields data in
   from_guard p).
Proof. reflexivity. Qed.

Lemma before_send_shape req st :
  shape (delivery_key req) st
        (state_of (before_send cfg req st)) (events_of (before_send cfg req st)).
Proof.
  rewrite before_send_unfold.
  apply shape_quiet_bind; [apply quiet_lift|]. intros data logs Hdata.
  apply shape_quiet_bind; [apply quiet_logging|]. intros _ _ _.
  apply shape_quiet_bind; [apply quiet_signature_check|]. intros _ _ _.
  apply shape_quiet_bind; [apply quiet_confirmed_status|]. intros _ _ _.
  apply shape_quiet_bind; [apply quiet_payment_fields|]. intros p logs' Hp.
  destruct (payment_fields_not_dict _ _ _ _ _ Hp) as [d ->].
  destruct req as [req|]; [|discriminate Hdata].
  injection Hdata as -> _.
  apply payment_fields_inv in Hp as (_ & _ & Ho & Ht & _).
  pose proof (from_guard_shape p st) as H.
  unfold dedup_key_of in H. rewrite Ho, Ht in H. exact H.
Qed.

(** The same with the [except] clause around it. *)
Lemma guarded_before_send_shape req st r st' evs :
  guarded (before_send cfg req) st = (r, st', evs) ->
  shape (delivery_key req) st st' evs.
Proof.
  pose proof (before_send_shape req st) as H.
  unfold guarded, state_of, events_of in *.
  destruct (before_send cfg req st) as [[[n| |e] st1] evs1]; cbn [fst snd] in H;
    intros [= <- <- <-]; try exact H.
  apply shape_before_logs; [reflexivity | exact H].
Qed.

(** Sending the message records no key and credits nothing. *)
Lemma guarded_send_notification n delivered st r st' evs :
  guarded (send_notification n delivered) st = (r, st', evs) ->
  st' = st /\ forallb (fun e => is_log e || is_send e) evs = true.
Proof.
  unfold guarded, send_notification.
  destruct n as [n|]; [destruct delivered|]; cbn; intros [= <- <- <-]; auto.
Qed.

End OneDelivery.

End Delivery.

(* ===================================================================== *)
(** * The server: deliveries in any number and order *)
(* ===================================================================== *)

Module Deliveries.

Import Json Oxapay Spec Effects Delivery.

Lemma filter_none {A} (p q : A -> bool) (l : list A) :
  (forall x, q x = true -> p x = false) ->
  forallb q l = true -> List.filter p l = [].
Proof.
  intros Hpq. induction l as [|x l IH]; cbn; [reflexivity|].
  intros H. apply andb_prop in H as [Hx Hl].
  rewrite (Hpq x Hx). apply IH, Hl.
Qed.

Lemma filter_tag (f : entry -> bool) i req (evs : list event) :
  List.length (List.filter f (tag i req evs))
  = List.length (List.filter (fun e => f (i, req, e)) evs).
Proof.
  unfold tag. induction evs as [|e evs IH]; cbn; [reflexivity|].
  destruct (f (i, req, e)); cbn; rewrite IH; reflexivity.
Qed.

Lemma adds_app k h1 h2 : adds k (h1 ++ h2) = (adds k h1 + adds k h2)%nat.
Proof. unfold adds. rewrite List.filter_app, List.length_app. reflexivity. Qed.

Lemma credits_app k h1 h2 : credits k (h1 ++ h2) = (credits k h1 + credits k h2)%nat.
Proof. unfold credits. rewrite List.filter_app, List.length_app. reflexivity. Qed.

Lemma adds_harmless k i req evs :
  forallb harmless evs = true -> adds k (tag i req evs) = 0%nat.
Proof.
  intros H. unfold adds. rewrite filter_tag.
  rewrite (filter_none _ harmless); [reflexivity| |exact H].
  intros e He. destruct e; try reflexivity; discriminate.
Qed.

Lemma credits_harmless k i req evs :
  forallb harmless evs = true -> credits k (tag i req evs) = 0%nat.
Proof.
  intros H. unfold credits. rewrite filter_tag.
  rewrite (filter_none _ harmless); [reflexivity| |exact H].
  intros e He. destruct e; try reflexivity; discriminate.
Qed.

Lemma logs_harmless evs : forallb is_log evs = true -> forallb harmless evs = true.
Proof.
  rewrite !forallb_forall. intros H e He. specialize (H e He).
  destruct e; try discriminate; reflexivity.
Qed.

Lemma tag_app i req l1 l2 : tag i req (l1 ++ l2) = tag i req l1 ++ tag i req l2.
Proof. apply List.map_app. Qed.

Lemma in_tag i req evs x : In x (tag i req evs) -> exists e, x = (i, req, e) /\ In e evs.
Proof.
  unfold tag. intros H. apply List.in_map_iff in H as (e & <- & He). eauto.
Qed.

Lemma forallb_in {A} (p : A -> bool) l x : forallb p l = true -> In x l -> p x = true.
Proof. rewrite forallb_forall. auto. Qed.

(** ** The invariant *)

Lemma inv_harmless st h st' i req evs :
  inv st h ->
  _processed_orders st' = _processed_orders st ->
  forallb harmless evs = true ->
  inv st' (h ++ tag i req evs).
Proof.
  intros [Hcount Hord] Hp Hev. split.
  - intros k. destruct (Hcount k) as (H1 & H2 & H3).
    rewrite adds_app, credits_app, adds_harmless, credits_harmless by assumption.
    rewrite Hp. repeat split; try lia. intros Hk. specialize (H3 Hk). lia.
  - intros h1 h2 j req' u a c Heq.
    apply List.app_eq_app in Heq as (l & [[-> Hl] | [-> Hl]]).
    + destruct l as [|x l].
      * cbn in Hl. assert (In (j, req', CreditWallet u a c) (tag i req evs)) as Hin
          by (rewrite <- Hl; left; reflexivity).
        apply in_tag in Hin as (e & [= -> -> <-] & He).
        pose proof (forallb_in _ _ _ Hev He). discriminate.
      * injection Hl as <- _. eapply Hord. reflexivity.
    + assert (In (j, req', CreditWallet u a c) (tag i req evs)) as Hin
        by (rewrite Hl; apply in_elt).
      apply in_tag in Hin as (e & [= -> -> <-] & He).
      pose proof (forallb_in _ _ _ Hev He). discriminate.
Qed.

Lemma adds_recorded k k0 i req pre post :
  forallb is_log pre = true ->
  forallb booking_or_credit post = true ->
  adds k (tag i req (pre ++ ProcessedAdd k0 :: post))
  = if bool_decide (k0 = k) then 1%nat else 0%nat.
Proof.
  intros Hpre Hpost.
  change (pre ++ ProcessedAdd k0 :: post) with (pre ++ [ProcessedAdd k0] ++ post).
  rewrite !tag_app, !adds_app.
  rewrite (adds_harmless k i req pre) by (apply logs_harmless, Hpre).
  assert (adds k (tag i req post) = 0%nat) as ->.
  { unfold adds. rewrite filter_tag.
    rewrite (filter_none _ booking_or_credit); [reflexivity| |exact Hpost].
    intros e He. destruct e; try reflexivity; discriminate. }
  unfold adds. cbn. destruct (bool_decide (k0 = k)); reflexivity.
Qed.

Lemma credits_recorded k k0 i req pre post :
  delivery_key req = Some k0 ->
  forallb is_log pre = true ->
  (count is_credit post <= 1)%nat ->
  (credits k (tag i req (pre ++ ProcessedAdd k0 :: post))
   <= if bool_decide (k0 = k) then 1 else 0)%nat.
Proof.
  intros Hkey Hpre Hpost.
  change (pre ++ ProcessedAdd k0 :: post) with (pre ++ [ProcessedAdd k0] ++ post).
  rewrite !tag_app, !credits_app.
  rewrite (credits_harmless k i req pre) by (apply logs_harmless, Hpre).
  assert (credits k (tag i req [ProcessedAdd k0]) = 0%nat) as -> by reflexivity.
  unfold credits. rewrite filter_tag. unfold credits_key. cbn [fst snd].
  rewrite Hkey.
  destruct (decide (k0 = k)) as [-> | Hne].
  - rewrite !bool_decide_eq_true_2 by reflexivity.
    erewrite List.filter_ext; [exact Hpost|].
    intros e. cbn. apply andb_true_r.
  - rewrite (bool_decide_eq_false_2 (Some k0 = Some k)) by congruence.
    rewrite (bool_decide_eq_false_2 (k0 = k)) by assumption.
    erewrite List.filter_ext with (g := fun _ => false);
      [|intros e; apply andb_false_r].
    assert (forall l : list event, List.filter (fun _ => false) l = []) as ->
        by (induction l; auto).
    cbn. lia.
Qed.

Lemma inv_recorded st h st' i req k0 evs :
  inv st h ->
  delivery_key req = Some k0 ->
  recorded k0 st st' evs ->
  inv st' (h ++ tag i req evs).
Proof.
  intros [Hcount Hord] Hkey (Hnew & Hp & _ & pre & post & -> & Hpre & Hpost & Hone).
  split.
  - intros k. destruct (Hcount k) as (H1 & H2 & H3).
    rewrite adds_app, credits_app.
    rewrite (adds_recorded k k0 i req pre post Hpre Hpost).
    pose proof (credits_recorded k k0 i req pre post Hkey Hpre Hone) as Hc.
    destruct (decide (k0 = k)) as [-> | Hne].
    + rewrite bool_decide_eq_true_2 in * by reflexivity.
      specialize (H3 Hnew). repeat split; try lia.
      intros Hk. exfalso. apply Hk. rewrite Hp.
      apply elem_of_union. left. apply elem_of_singleton. reflexivity.
    + rewrite bool_decide_eq_false_2 in * by assumption.
      repeat split; try lia.
      intros Hk. rewrite Nat.add_0_r. apply H3.
      intros Hin. apply Hk. rewrite Hp. apply elem_of_union. right. exact Hin.
  - intros h1 h2 j req' u a c Heq.
    assert (forall l l2,
               tag i req (pre ++ ProcessedAdd k0 :: post)
               = l ++ (j, req', CreditWallet u a c) :: l2 ->
               j = i /\ req' = req /\ In (i, req, ProcessedAdd k0) l) as Hin_run.
    { intros l l2 Hl. rewrite tag_app in Hl. cbn [tag List.map] in Hl.
      fold (tag i req post) in Hl. fold (tag i req pre) in Hl.
      apply List.app_eq_app in Hl as (m & [[Hm1 Hm2] | [Hm1 Hm2]]).
      - destruct m as [|x m].
        + cbn in Hm2. discriminate Hm2.
        + injection Hm2 as <- Hm2.
          assert (In (j, req', CreditWallet u a c) (tag i req pre)) as Hin
            by (rewrite Hm1; apply in_elt).
          apply in_tag in Hin as (e & [= -> -> <-] & He).
          pose proof (forallb_in _ _ _ Hpre He). discriminate.
      - destruct m as [|x m].
        + cbn in Hm2. discriminate Hm2.
        + injection Hm2 as <- Hm2.
          assert (In (j, req', CreditWallet u a c) (tag i req post)) as Hin
            by (rewrite Hm2; apply in_elt).
          apply in_tag in Hin as (e & [= -> -> <-] & He).
          repeat split. rewrite Hm1. apply in_or_app. right. left. reflexivity. }
    apply List.app_eq_app in Heq as (l & [[-> Hl] | [-> Hl]]).
    + destruct l as [|x l].
      * cbn in Hl. symmetry in Hl.
        destruct (Hin_run [] h2 Hl) as (_ & _ & []).
      * injection Hl as <- _. eapply Hord. reflexivity.
    + destruct (Hin_run l h2 Hl) as (-> & -> & Hin).
      exists k0. split; [assumption|]. apply in_or_app. right. exact Hin.
Qed.

Section Run.

Context {api : BotApi}.
Variable cfg : config.

Lemma exec_inv srv a :
  inv (shared srv) (history srv) ->
  inv (shared (exec cfg srv a)) (history (exec cfg srv a)).
Proof.
  intros Hinv. destruct a as [req | i delivered | f]; cbn [exec].
  - exact Hinv.
  - unfold resume. destruct (tasks srv !! i) as [[req [|n|]]|]; try exact Hinv.
    + destruct (guarded (before_send cfg req) (shared srv)) as [[r st'] evs] eqn:Hrun.
      cbn [shared history].
      apply guarded_before_send_shape in Hrun
        as [[-> Hlogs] | (k & Hkey & Hrec)].
      * eapply inv_harmless; [exact Hinv | reflexivity | apply logs_harmless, Hlogs].
      * eapply inv_recorded; eassumption.
    + destruct (guarded (send_notification n delivered) (shared srv))
        as [[r st'] evs] eqn:Hrun.
      cbn [shared history].
      apply guarded_send_notification in Hrun as [-> Hev].
      eapply inv_harmless; [exact Hinv | reflexivity |].
      rewrite forallb_forall in *. intros e He. specialize (Hev e He).
      destruct e; try discriminate; reflexivity.
  - cbn [shared history]. destruct Hinv as [Hcount Hord]. split; assumption.
Qed.

Lemma fold_exec_inv schedule srv :
  inv (shared srv) (history srv) ->
  inv (shared (fold_left (exec cfg) schedule srv))
      (history (fold_left (exec cfg) schedule srv)).
Proof.
  revert srv. induction schedule as [|a schedule IH]; intros srv Hinv; cbn.
  - exact Hinv.
  - apply IH, exec_inv, Hinv.
Qed.

Lemma started_inv b : inv (shared (started b)) (history (started b)).
Proof.
  split.
  - intros k. cbn. repeat split; lia.
  - intros h1 h2 i req u a c Heq. destruct h1; discriminate Heq.
Qed.

End Run.

End Deliveries.

(* ===================================================================== *)
(** * One delivery from start to end *)
(* ===================================================================== *)

Module Handler.

Import Json Oxapay Spec Effects Delivery Deliveries.

Lemma drops_bind {A B} (m : M A) (k : A -> M B) : drops m -> drops (bind m k).
Proof.
intros [Hq Hs]. split; [apply quiet_bind_stops; assumption | apply stops_bind_l, Hs].
Qed.

Lemma drops_after_quiet {A B} (m : M A) (k : A -> M B) :
  quiet m -> (forall a, drops (k a)) -> drops (bind m k).
Proof.
intros Hq Hk. split.
- apply quiet_bind; [assumption|]. intros a. apply Hk.
- apply stops_bind_r. intros a. apply Hk.
Qed.

Lemma drops_ext {A} (m m' : M A) : (forall st, m st = m' st) -> drops m' -> drops m.
Proof.
intros Heq [Hq Hs]. split; intros st; rewrite Heq; [apply Hq | apply Hs].
Qed.

Lemma drops_run {A} (m : M A) (st : state) :
  drops m ->
  exists r logs, m st = (r, st, logs) /\ goes_on r = false /\ forallb is_log logs = true.
Proof.
intros [Hq Hs]. destruct (Hq st) as [Hst Hlogs]. specialize (Hs st).
unfold state_of, events_of, result_of in *.
destruct (m st) as [[r st'] logs]. cbn [fst snd] in *. subst st'.
exists r, logs. auto.
Qed.

Lemma existsb_eqb_In (s : string) (l : list string) :
  List.existsb (String.eqb s) l = true <-> In s l.
Proof.
rewrite List.existsb_exists. split.
- intros (x & Hx & Heq). apply String.eqb_eq in Heq. subst. assumption.
- intros Hin. exists s. split; [assumption | apply String.eqb_refl].
Qed.

Lemma ignored_no_effect st out :
  ignored st out ->
  count is_credit (snd out) = 0%nat /\ count is_add (snd out) = 0%nat
  /\ count is_send (snd out) = 0%nat.
Proof.
intros (_ & _ & Hlogs).
repeat split; apply count_none; rewrite forallb_forall in *; intros e He;
  specialize (Hlogs e He); destruct e; try discriminate; reflexivity.
Qed.

Section Runs.

Context {api : BotApi}.
Variable cfg : config.

Lemma webhook_ignored_when_dropped req delivered st :
  drops (before_send cfg req) -> ignored st (_oxapay_webhook cfg req delivered st).
Proof.
intros Hd.
assert (drops (let* n := before_send cfg req in send_notification n delivered)) as Hd'
    by (apply drops_bind, Hd).
destruct (drops_run _ st Hd') as (r & logs & Hrun & Hr & Hlogs).
unfold _oxapay_webhook, guarded. rewrite Hrun.
destruct r as [a| |e]; [discriminate Hr| |]; unfold ignored; cbn [fst snd];
  repeat split; try assumption.
rewrite forallb_app, Hlogs. reflexivity.
Qed.

(** ** The status gate (lines 250-254) *)

Lemma confirmed_status_passes d st :
  status_accepted d -> confirmed_status (JObj d) st = (Next tt, st, []).
Proof.
intros (s & Hs & Hin). unfold confirmed_status. cbn [py_get].
rewrite bind_pure, Hs. cbn [py_lower]. rewrite bind_pure.
apply existsb_eqb_In in Hin. rewrite Hin. reflexivity.
Qed.

Lemma confirmed_status_drops d :
  ~ status_accepted d -> drops (confirmed_status (JObj d)).
Proof.
intros Hno. split; [apply quiet_confirmed_status|].
intros st. unfold confirmed_status. cbn [py_get]. rewrite bind_pure.
destruct (get_default d "status" (JStr "")) as [| | | |s| |] eqn:Hs;
  try reflexivity.
cbn [py_lower]. rewrite bind_pure.
destruct (List.existsb _ _) eqn:Hex; [|reflexivity].
exfalso. apply Hno. exists s. split; [exact Hs|]. apply existsb_eqb_In, Hex.
Qed.

(** ** The signature gate (lines 241-248) *)

Lemma signature_check_skipped d st :
  truthy (get_default d "hmac" (JStr "")) = false ->
  signature_check cfg (JObj d) st = (Next tt, st, []).
Proof.
intros Hf. unfold signature_check. cbn [py_get]. rewrite bind_pure, Hf. reflexivity.
Qed.

Lemma signature_check_drops d :
  truthy (get_default d "hmac" (JStr "")) = true ->
  (forall st,
      result_of (_verify_signature cfg (dumps (JObj (without "hmac" d)))
                                   (get_default d "hmac" (JStr "")) st)
      <> Next true) ->
  drops (signature_check cfg (JObj d)).
Proof.
intros Ht Hbad. split; [apply quiet_signature_check|].
intros st. unfold signature_check. cbn [py_get].
rewrite bind_pure, Ht, bind_pure.
specialize (Hbad st). unfold bind, result_of in *.
destruct (_verify_signature _ _ _ st) as [[[[|]| |e] st1] evs1]; cbn in *;
  try reflexivity.
congruence.
Qed.

(** [_verify_signature] answers [True] for one value only: the string
    of the hexadecimal HMAC-SHA256 of the body under the merchant key. *)
Lemma verify_signature_true (body : string) (received : json) (st : state) :
  result_of (_verify_signature cfg body received st) = Next true ->
  received
  = JStr (Sha256.hmac_hexdigest (Sha256.bytes_of_string (OXAPAY_MERCHANT_KEY cfg))
                                (Sha256.bytes_of_string body)).
Proof.
unfold _verify_signature, compare_digest.
destruct received as [| | | |s| |]; try discriminate.
destruct (is_ascii _ && is_ascii s); [|discriminate].
unfold result_of, pure. cbn [fst]. intros [= E].
apply String.eqb_eq in E. rewrite E. reflexivity.
Qed.

(** A signature that is present and is not that string stops the
    handler. *)
Lemma signature_check_drops_other d :
  truthy (get_default d "hmac" (JStr "")) = true ->
  get_default d "hmac" (JStr "")
  <> JStr (Sha256.hmac_hexdigest (Sha256.bytes_of_string (OXAPAY_MERCHANT_KEY cfg))
                                 (Sha256.bytes_of_string (dumps (JObj (without "hmac" d))))) ->
  drops (signature_check cfg (JObj d)).
Proof.
intros Ht Hother. apply signature_check_drops; [exact Ht|].
intros st Htrue. apply Hother, (verify_signature_true _ _ st Htrue).
Qed.

(** The handler on a [dict], as far as the end of the signature check. *)
Lemma before_send_dict d st :
  before_send cfg (Some (JObj d)) st =
  (logging INFO (WebhookReceived (JObj d)) ;;;
   signature_check cfg (JObj d) ;;;
   confirmed_status (JObj d) ;;;
   let* p := payment_fields (JObj d) in
   from_guard p) st.
Proof. rewrite before_send_unfold. cbn [lift]. rewrite bind_pure. reflexivity. Qed.

Lemma before_send_drops_at_signature d :
  drops (signature_check cfg (JObj d)) -> drops (before_send cfg (Some (JObj d))).
Proof.
intros Hd. eapply drops_ext; [apply before_send_dict|].
apply drops_after_quiet; [apply quiet_logging|]. intros _.
apply drops_bind, Hd.
Qed.

Lemma before_send_drops_at_status d :
  drops (confirmed_status (JObj d)) -> drops (before_send cfg (Some (JObj d))).
Proof.
intros Hd. eapply drops_ext; [apply before_send_dict|].
apply drops_after_quiet; [apply quiet_logging|]. intros _.
apply drops_after_quiet; [apply quiet_signature_check|]. intros _.
apply drops_bind, Hd.
Qed.

(** ** The whole delivery from the run up to [await send_message] *)

Lemma webhook_decompose req delivered st :
  _oxapay_webhook cfg req delivered st =
  (ok, state_of (before_send cfg req st),
   events_of (before_send cfg req st)
     ++ after_send (result_of (before_send cfg req st)) delivered).
Proof.
unfold _oxapay_webhook, guarded, bind, state_of, events_of, result_of.
destruct (before_send cfg req st) as [[[n| |e] st1] evs1]; cbn [fst snd after_send].
- destruct n as [n|]; [destruct delivered|]; reflexivity.
- rewrite app_nil_r. reflexivity.
- reflexivity.
Qed.

Lemma after_send_harmless r delivered :
  forallb (fun e => is_log e || is_send e) (after_send r delivered) = true.
Proof. destruct r as [[n|]| |e]; [destruct delivered|..]; reflexivity. Qed.

Lemma bind_det {A B} (m : M A) (k : A -> M B) st a st1 e1 :
  m st = (Next a, st1, e1) ->
  bind m k st = (result_of (k a st1), state_of (k a st1), e1 ++ events_of (k a st1)).
Proof.
intros Hm. unfold bind. rewrite Hm.
destruct (k a st1) as [[r st2] evs2]. reflexivity.
Qed.

Lemma in_bind_l {A B} (m : M A) (k : A -> M B) st e :
  In e (events_of (m st)) -> In e (events_of (bind m k st)).
Proof.
unfold bind, events_of. destruct (m st) as [[[a| |x] st1] evs1]; cbn [snd]; auto.
destruct (k a st1) as [[r st2] evs2]. cbn [snd]. intros H. apply in_or_app. auto.
Qed.

Lemma in_bind_r {A B} (m : M A) (k : A -> M B) st a st1 e1 e :
  m st = (Next a, st1, e1) ->
  In e (events_of (k a st1)) -> In e (events_of (bind m k st)).
Proof.
intros Hm Hin. rewrite (bind_det _ _ _ _ _ _ Hm). unfold events_of at 1. cbn [snd].
apply in_or_app. auto.
Qed.

(** ** A delivery that passes every gate is credited *)

Lemma duplicate_guard_new p st k :
  hash_key (dedup_key_of p) = Some k ->
  k ∉ _processed_orders st ->
  duplicate_guard p st
  = (Next tt, set_processed (fun s => {[k]} ∪ s) st, [ProcessedAdd k]).
Proof.
intros Hkey Hnew. unfold duplicate_guard. rewrite Hkey. cbn [lift].
rewrite bind_pure, bind_read, (bool_decide_eq_false_2 _ Hnew).
rewrite bind_modify. reflexivity.
Qed.

Lemma positive_amount_passes p st :
  PrimFloat.leb (pay_amount p) PrimFloat.zero = false ->
  positive_amount p st = (Next tt, st, []).
Proof. intros H. unfold positive_amount. rewrite H. reflexivity. Qed.

Lemma credit_user_credits t p st :
  is_Some (user_wallets (load_user_data_if_missing t (_bot st)) !! t) ->
  In (CreditWallet t (pay_amount p) (paid_coin p)) (events_of (credit_user t p st)).
Proof.
intros Hw. unfold credit_user.
eapply in_bind_r; [unfold call; rewrite bind_modify; reflexivity|].
rewrite bind_read. cbn [_bot set_bot]. rewrite (bool_decide_eq_true_2 _ Hw).
apply in_bind_l. unfold _credit. apply in_bind_l.
unfold call. rewrite bind_modify. left. reflexivity.
Qed.

Lemma from_guard_credits p st k u :
  hash_key (dedup_key_of p) = Some k ->
  k ∉ _processed_orders st ->
  PrimFloat.leb (pay_amount p) PrimFloat.zero = false ->
  (forall s, resolve_telegram_id (order_id p) s = (Next u, s, [])) ->
  is_Some (user_wallets (load_user_data_if_missing u (_bot st)) !! u) ->
  In (CreditWallet u (pay_amount p) (paid_coin p)) (events_of (from_guard p st)).
Proof.
intros Hkey Hnew Hpos Hu Hw. unfold from_guard.
eapply in_bind_r; [apply duplicate_guard_new; eassumption|].
eapply in_bind_r; [apply positive_amount_passes; assumption|].
eapply in_bind_r; [apply Hu|].
apply in_bind_l. apply credit_user_credits. exact Hw.
Qed.

Lemma before_send_credits d st p k u :
  status_accepted d ->
  passes cfg d st p k u ->
  In (CreditWallet u (pay_amount p) (paid_coin p))
     (events_of (before_send cfg (Some (JObj d)) st)).
Proof.
intros Hstatus [Hsig Hp Hkey Hnew Hpos Hu Hw].
rewrite before_send_dict.
eapply in_bind_r; [reflexivity|].
eapply in_bind_r; [exact Hsig|].
eapply in_bind_r; [apply confirmed_status_passes, Hstatus|].
eapply in_bind_r; [exact Hp|].
eapply from_guard_credits; eassumption.
Qed.

Lemma delivery_key_passes d st p k u :
  passes cfg d st p k u -> delivery_key (Some (JObj d)) = Some k.
Proof.
intros [_ Hp Hkey _ _ _ _].
apply payment_fields_inv in Hp as (_ & _ & Ho & Ht & _).
unfold delivery_key. unfold dedup_key_of in Hkey. rewrite Ho, Ht in Hkey. exact Hkey.
Qed.

Lemma count_ge_one p (l : list event) e : In e l -> p e = true -> (1 <= count p l)%nat.
Proof.
intros Hin Hp. unfold count.
assert (In e (List.filter p l)) as H by (apply List.filter_In; auto).
destruct (List.filter p l); [destruct H | cbn; lia].
Qed.

Lemma count_sends_and_logs l :
  forallb (fun e => is_log e || is_send e) l = true -> count is_credit l = 0%nat.
Proof.
intros H. apply count_none. rewrite forallb_forall in *. intros e He.
specialize (H e He). destruct e; try discriminate; reflexivity.
Qed.

(** A delivery that passes every gate credits the paid amount, in the
    paid currency, to the user of the order reference, once, and its key
    is recorded. *)
Lemma webhook_credits d st p k u delivered :
  status_accepted d ->
  passes cfg d st p k u ->
  let out := _oxapay_webhook cfg (Some (JObj d)) delivered st in
  In (CreditWallet u (pay_amount p) (paid_coin p)) (snd out)
  /\ count is_credit (snd out) = 1%nat
  /\ k ∈ _processed_orders (snd (fst out)).
Proof.
intros Hstatus Hpass. cbv zeta. rewrite webhook_decompose. cbn [fst snd].
pose proof (before_send_credits d st p k u Hstatus Hpass) as Hin.
pose proof (delivery_key_passes d st p k u Hpass) as Hdk.
pose proof (before_send_shape cfg (Some (JObj d)) st) as Hshape.
rewrite Hdk in Hshape.
destruct Hshape as [[_ Hlogs] | (k' & [= <-] & Hrec)].
- pose proof (forallb_in _ _ _ Hlogs Hin) as H. discriminate H.
- destruct Hrec as (_ & Hp & _ & pre & post & Hev & Hpre & Hpost & Hone).
  split; [apply in_or_app; left; exact Hin|]. split.
  + rewrite count_app, (count_sends_and_logs _ (after_send_harmless _ _)).
    pose proof (count_ge_one is_credit _ _ Hin eq_refl) as Hge.
    rewrite Hev in *. rewrite !count_app in *.
    rewrite (count_none is_credit pre) in *.
    * change (count is_credit (ProcessedAdd k :: post)) with (count is_credit post) in *.
      lia.
    * rewrite forallb_forall in *. intros e He. specialize (Hpre e He).
      destruct e; try discriminate; reflexivity.
    * rewrite forallb_forall in *. intros e He. specialize (Hpre e He).
      destruct e; try discriminate; reflexivity.
  + rewrite Hp. apply elem_of_union. left. apply elem_of_singleton. reflexivity.
Qed.

(** ** A payload without its [hmac] field *)

Lemma get_without (d : dict) (k : string) :
  String.eqb k "hmac" = false -> get (without "hmac" d) k = get d k.
Proof.
intros Hk. induction d as [|[k' v] d IH]; [reflexivity|].
unfold without in *. cbn [List.filter fst get].
destruct (String.eqb k' "hmac") eqn:Hk'; cbn [negb].
- apply String.eqb_eq in Hk'. subst k'. rewrite Hk. exact IH.
- cbn [get]. rewrite IH. reflexivity.
Qed.

Lemma get_default_without (d : dict) (k : string) (dflt : json) :
  String.eqb k "hmac" = false ->
  get_default (without "hmac" d) k dflt = get_default d k dflt.
Proof. intros Hk. unfold get_default. rewrite get_without by assumption. reflexivity. Qed.

Lemma get_hmac_without (d : dict) : get (without "hmac" d) "hmac" = None.
Proof.
induction d as [|[k' v] d IH]; [reflexivity|].
unfold without in *. cbn [List.filter fst].
destruct (String.eqb k' "hmac") eqn:Hk'; cbn [negb]; [exact IH|].
cbn [get]. rewrite String.eqb_sym, Hk'. exact IH.
Qed.

Lemma confirmed_status_without d :
  confirmed_status (JObj (without "hmac" d)) = confirmed_status (JObj d).
Proof.
unfold confirmed_status. cbn [py_get].
rewrite get_default_without by reflexivity. reflexivity.
Qed.

Lemma payment_fields_without d :
  payment_fields (JObj (without "hmac" d)) = payment_fields (JObj d).
Proof.
unfold payment_fields. cbn [py_get].
rewrite !get_default_without by reflexivity. reflexivity.
Qed.

(** The run up to [await send_message] once the signature check has let
    the delivery through. *)
Lemma before_send_past_signature d st :
  signature_check cfg (JObj d) st = (Next tt, st, []) ->
  let rest := (confirmed_status (JObj d) ;;;
               let* p := payment_fields (JObj d) in from_guard p) st in
  before_send cfg (Some (JObj d)) st
  = (result_of rest, state_of rest, Log INFO (WebhookReceived (JObj d)) :: events_of rest).
Proof.
intros Hsig. cbv zeta. rewrite before_send_dict.
unfold logging. rewrite bind_emit. cbv beta.
rewrite (bind_det _ _ _ _ _ _ Hsig). reflexivity.
Qed.

(** ** Rejections after the duplicate guard *)

#[export] Instance any_state_refl : Reflexive any_state.
Proof. intros st. exact I. Qed.

#[export] Instance any_state_trans : Transitive any_state.
Proof. intros a b c _ _. exact I. Qed.

Lemma quiet_log_or_add {A} (m : M A) : quiet m -> respects any_state log_or_add m.
Proof.
apply respects_weaken.
- intros s s' _. exact I.
- intros e He. unfold log_or_add. rewrite He. reflexivity.
Qed.

Lemma duplicate_guard_log_or_add p : respects any_state log_or_add (duplicate_guard p).
Proof.
unfold duplicate_guard.
apply respects_bind; [typeclasses eauto | apply quiet_log_or_add, quiet_lift |].
intros key.
apply respects_bind; [typeclasses eauto | apply quiet_log_or_add, quiet_read |].
intros [|].
- apply quiet_log_or_add. auto with quiet.
- apply respects_bind; [typeclasses eauto | | intros _].
  + apply respects_modify. intros st. exact I.
  + apply respects_emit; [typeclasses eauto | reflexivity].
Qed.

Lemma from_guard_rejected p :
  rejected p ->
  respects any_state log_or_add (from_guard p) /\ stops (from_guard p).
Proof.
intros Hrej. unfold from_guard. split.
- apply respects_bind; [typeclasses eauto | apply duplicate_guard_log_or_add |].
  intros _. destruct Hrej as [Hamount | Horder].
  + apply respects_bind_stops; [apply quiet_log_or_add, quiet_positive_amount|].
    intros st. unfold positive_amount. rewrite Hamount. reflexivity.
  + apply respects_bind; [typeclasses eauto
                         | apply quiet_log_or_add, quiet_positive_amount |].
    intros _. apply respects_bind_stops; [|exact Horder].
    apply quiet_log_or_add, quiet_resolve_telegram_id.
- apply stops_bind_r. intros _. destruct Hrej as [Hamount | Horder].
  + apply stops_bind_l. intros st. unfold positive_amount. rewrite Hamount. reflexivity.
  + apply stops_bind_r. intros _. apply stops_bind_l, Horder.
Qed.

Lemma turned_away_after_quiet {A B} (m : M A) (k : A -> M B) st :
  quiet m ->
  (forall a logs, m st = (Next a, st, logs) -> turned_away (k a st)) ->
  turned_away (bind m k st).
Proof.
intros Hm Hk.
destruct (bind_quiet_cases m k st Hm)
  as [(a & logs & Hl & Hma & ->) | (r & logs & Hl & Hr & ->)].
- destruct (Hk a logs Hma) as [Hgo Hev]. split; [exact Hgo|].
  unfold events_of at 1. cbn [snd]. rewrite forallb_app, Hev, andb_true_r.
  rewrite forallb_forall in *. intros e He. unfold log_or_add.
  rewrite (Hl e He). reflexivity.
- split; [exact Hr|]. unfold events_of. cbn [snd].
  rewrite forallb_forall in *. intros e He. unfold log_or_add.
  rewrite (Hl e He). reflexivity.
Qed.

Lemma before_send_rejected d st :
  (forall p st' evs, payment_fields (JObj d) st = (Next p, st', evs) -> rejected p) ->
  turned_away (before_send cfg (Some (JObj d)) st).
Proof.
intros Hrej. rewrite before_send_dict.
apply turned_away_after_quiet; [apply quiet_logging|]. intros _ _ _.
apply turned_away_after_quiet; [apply quiet_signature_check|]. intros _ _ _.
apply turned_away_after_quiet; [apply quiet_confirmed_status|]. intros _ _ _.
apply turned_away_after_quiet; [apply quiet_payment_fields|]. intros p logs Hp.
destruct (from_guard_rejected p (Hrej p _ _ Hp)) as [Hev Hstop].
split; [apply Hstop | apply Hev].
Qed.

End Runs.

End Handler.

(* ===================================================================== *)
(** * One delivery: how it ends *)
(* ===================================================================== *)

Module Outcomes.

Import Json Oxapay Spec Effects Delivery Deliveries Handler.

Lemma forallb_weaken {A} (p q : A -> bool) (l : list A) :
  (forall x, p x = true -> q x = true) -> forallb p l = true -> forallb q l = true.
Proof.
intros Hpq. rewrite !forallb_forall. intros Hp x Hx. apply Hpq, Hp, Hx.
Qed.

Lemma count_zero p q (l : list event) :
  (forall e, q e = true -> p e = false) -> forallb q l = true -> count p l = 0%nat.
Proof.
intros Hqp Hq. apply count_none. apply (forallb_weaken q); [|exact Hq].
intros e He. rewrite (Hqp e He). reflexivity.
Qed.

Lemma count_cons p e (l : list event) :
  count p (e :: l) = ((if p e then 1 else 0) + count p l)%nat.
Proof. unfold count. cbn [List.filter]. destruct (p e); reflexivity. Qed.

Lemma result_bind_det {A B} (m : M A) (k : A -> M B) st a st1 e1 :
  m st = (Next a, st1, e1) -> result_of (bind m k st) = result_of (k a st1).
Proof. intros Hm. rewrite (bind_det m k st a st1 e1 Hm). reflexivity. Qed.

Lemma state_bind_det {A B} (m : M A) (k : A -> M B) st a st1 e1 :
  m st = (Next a, st1, e1) -> state_of (bind m k st) = state_of (k a st1).
Proof. intros Hm. rewrite (bind_det m k st a st1 e1 Hm). reflexivity. Qed.

Lemma logging_run l line st : logging l line st = (Next tt, st, [Log l line]).
Proof. reflexivity. Qed.

(** ** Runs that leave the state alone *)

Lemma left_alone_after_quiet {A B} (m : M A) (k : A -> M B) st :
  quiet m ->
  (forall a logs, m st = (Next a, st, logs) -> left_alone st (k a st)) ->
  left_alone st (bind m k st).
Proof.
intros Hm Hk.
destruct (bind_quiet_cases m k st Hm)
  as [(a & logs & Hl & Hma & ->) | (r & logs & Hl & Hr & ->)].
- destruct (Hk a logs Hma) as (Hgo & Hst & Hev). repeat split; [exact Hgo | exact Hst |].
  unfold events_of at 1. cbn [snd]. rewrite forallb_app, Hl, Hev. reflexivity.
- repeat split; [exact Hr | exact Hl].
Qed.

Lemma after_send_logs (r : result (option notification)) delivered :
  goes_on r = false -> forallb is_log (after_send r delivered) = true.
Proof. destruct r as [n| |e]; [discriminate | reflexivity | reflexivity]. Qed.

Section Runs.

Context {api : BotApi}.
Variable cfg : config.

Lemma webhook_ignored_when_left_alone req delivered st :
  left_alone st (before_send cfg req st) ->
  ignored st (_oxapay_webhook cfg req delivered st).
Proof.
intros (Hgo & Hst & Hev). rewrite webhook_decompose. repeat split; cbn [fst snd].
- exact Hst.
- rewrite forallb_app, Hev. apply after_send_logs, Hgo.
Qed.

Lemma delivery_key_fields d st p st' evs :
  payment_fields (JObj d) st = (Next p, st', evs) ->
  delivery_key (Some (JObj d)) = hash_key (dedup_key_of p).
Proof.
intros Hp. apply payment_fields_inv in Hp as (_ & _ & Ho & Ht & _).
unfold delivery_key, dedup_key_of. rewrite Ho, Ht. reflexivity.
Qed.

Lemma duplicate_guard_seen p st k :
  hash_key (dedup_key_of p) = Some k ->
  k ∈ _processed_orders st ->
  duplicate_guard p st = (ReturnOk, st, [Log INFO (DuplicateCallback (dedup_key_of p))]).
Proof.
intros Hk Hin. unfold duplicate_guard. cbv zeta. rewrite Hk. cbn [lift].
rewrite bind_pure, bind_read. rewrite (bool_decide_eq_true_2 _ Hin). reflexivity.
Qed.

(** A delivery whose key is already recorded is left alone. *)
Lemma before_send_seen d st k :
  delivery_key (Some (JObj d)) = Some k ->
  k ∈ _processed_orders st ->
  left_alone st (before_send cfg (Some (JObj d)) st).
Proof.
intros Hk Hin. rewrite before_send_dict.
apply left_alone_after_quiet; [apply quiet_logging|]. intros _ _ _.
apply left_alone_after_quiet; [apply quiet_signature_check|]. intros _ _ _.
apply left_alone_after_quiet; [apply quiet_confirmed_status|]. intros _ _ _.
apply left_alone_after_quiet; [apply quiet_payment_fields|]. intros p logs Hp.
rewrite (delivery_key_fields _ _ _ _ _ Hp) in Hk.
unfold from_guard. rewrite bind_unfold, (duplicate_guard_seen p st k Hk Hin).
repeat split.
Qed.

(** A request that is no object. *)
Lemma before_send_malformed req st :
  not_an_object req ->
  exists e pre,
    before_send cfg req st = (Raise e, st, pre)
    /\ pre ++ [Log ERROR (WebhookException e)] = malformed_log req.
Proof.
intros Hreq. destruct req as [v|].
- exists AttributeError, [Log INFO (WebhookReceived v)].
  split; [|reflexivity]. destruct v; try reflexivity. destruct Hreq.
- exists JSONDecodeError, []. split; reflexivity.
Qed.

(** ** The Telegram bot is never touched *)

#[export] Instance same_bot_ref_refl : Reflexive same_bot_ref.
Proof. intros st. reflexivity. Qed.

#[export] Instance same_bot_ref_trans : Transitive same_bot_ref.
Proof. intros a b c Hab Hbc. unfold same_bot_ref in *. congruence. Qed.

Lemma quiet_same_bot_ref {A} (m : M A) : quiet m -> respects same_bot_ref any_event m.
Proof.
apply respects_weaken.
- intros s s' <-. reflexivity.
- reflexivity.
Qed.

Lemma guard_same_bot_ref {A} (m : M A) :
  respects same_guard booking_or_credit m -> respects same_bot_ref any_event m.
Proof.
apply respects_weaken.
- intros s s' [_ H]. exact H.
- reflexivity.
Qed.

Lemma duplicate_guard_same_bot_ref p : respects same_bot_ref any_event (duplicate_guard p).
Proof.
unfold duplicate_guard.
apply respects_bind; [typeclasses eauto | apply quiet_same_bot_ref, quiet_lift |].
intros key.
apply respects_bind; [typeclasses eauto | apply quiet_same_bot_ref, quiet_read |].
intros [|].
- apply quiet_same_bot_ref. auto with quiet.
- apply respects_bind; [typeclasses eauto | | intros _].
  + apply respects_modify. intros st. reflexivity.
  + apply respects_emit; [typeclasses eauto | reflexivity].
Qed.

Lemma mute_bind {A} (m : M A) (k : A -> M (option notification)) :
  respects same_bot_ref any_event m -> (forall a, mute (k a)) -> mute (bind m k).
Proof.
intros Hm Hk st n Hst. rewrite bind_unfold.
destruct (Hm st) as [Href _]. unfold same_bot_ref in Href.
destruct (result_of (m st)) as [a| |e]; cbn [result_of fst]; try discriminate.
apply Hk. rewrite Href. exact Hst.
Qed.

Lemma mute_prepare_notification t p : mute (prepare_notification t p).
Proof.
intros st n Hst. unfold prepare_notification. rewrite bind_read, Hst. discriminate.
Qed.

Lemma mute_before_send req : mute (before_send cfg req).
Proof.
unfold before_send.
apply mute_bind; [apply quiet_same_bot_ref, quiet_lift|]. intros data.
apply mute_bind; [apply quiet_same_bot_ref, quiet_logging|]. intros _.
apply mute_bind; [apply quiet_same_bot_ref, quiet_signature_check|]. intros _.
apply mute_bind; [apply quiet_same_bot_ref, quiet_confirmed_status|]. intros _.
apply mute_bind; [apply quiet_same_bot_ref, quiet_payment_fields|]. intros p.
apply mute_bind; [apply duplicate_guard_same_bot_ref|]. intros _.
apply mute_bind; [apply quiet_same_bot_ref, quiet_positive_amount|]. intros _.
apply mute_bind; [apply quiet_same_bot_ref, quiet_resolve_telegram_id|]. intros t.
apply mute_bind; [apply guard_same_bot_ref, credit_user_effects|]. intros _.
apply mute_prepare_notification.
Qed.

(** ** What one delivery does, counted *)

Lemma shape_counts key st st' evs :
  shape key st st' evs ->
  (count is_add evs <= 1)%nat /\ (count is_credit evs <= 1)%nat
  /\ count is_send evs = 0%nat.
Proof.
intros [[_ Hlogs] | (k & _ & _ & _ & _ & pre & post & -> & Hpre & Hpost & Hone)].
- rewrite (count_zero is_add is_log), (count_zero is_credit is_log),
    (count_zero is_send is_log); try exact Hlogs; try (intros []; cbn; congruence).
  repeat split; lia.
- rewrite !count_app, !count_cons. cbn [is_add is_credit is_send].
  rewrite (count_zero is_add is_log pre), (count_zero is_credit is_log pre),
    (count_zero is_send is_log pre); try exact Hpre; try (intros []; cbn; congruence).
  rewrite (count_zero is_add booking_or_credit post),
    (count_zero is_send booking_or_credit post);
    try exact Hpost; try (intros []; cbn; congruence).
  repeat split; lia.
Qed.

Lemma after_send_counts r delivered :
  count is_add (after_send r delivered) = 0%nat
  /\ count is_credit (after_send r delivered) = 0%nat
  /\ (count is_send (after_send r delivered) <= 1)%nat.
Proof.
destruct r as [[n|]| |e]; cbn [after_send]; try (repeat split; cbn; lia).
destruct delivered; repeat split; cbn; lia.
Qed.

(** ** The run of a payment that passes every gate *)

Lemma continues_bind {A B} (m : M A) (k : A -> M B) :
  continues m -> (forall a, continues (k a)) -> continues (bind m k).
Proof.
intros Hm Hk st. rewrite bind_unfold. specialize (Hm st).
destruct (result_of (m st)) as [a| |e]; try discriminate. apply Hk.
Qed.

Lemma continues_pure {A} (a : A) : continues (pure a).
Proof. intros st. reflexivity. Qed.

Lemma continues_read {A} (f : state -> A) : continues (read f).
Proof. intros st. reflexivity. Qed.

Lemma continues_modify f : continues (modify f).
Proof. intros st. reflexivity. Qed.

Lemma continues_emit e : continues (emit e).
Proof. intros st. reflexivity. Qed.

Lemma continues_call f e : continues (call f e).
Proof.
unfold call. apply continues_bind; [apply continues_modify | intros _; apply continues_emit].
Qed.

Ltac goes :=
  repeat match goal with
  | |- continues (bind _ _) => apply continues_bind; [|intros ?]
  | |- continues (pure _) => apply continues_pure
  | |- continues (read _) => apply continues_read
  | |- continues (modify _) => apply continues_modify
  | |- continues (emit _) => apply continues_emit
  | |- continues (logging _ _) => apply continues_emit
  | |- continues (call _ _) => apply continues_call
  | |- continues (let _ := _ in _) => cbv zeta
  | |- continues (if ?c then _ else _) => destruct c
  | |- continues (match ?x with _ => _ end) => destruct x
  end.

Lemma continues_referral_commission u a c : continues (referral_commission u a c).
Proof. unfold referral_commission. goes. Qed.

Lemma continues_credit u a c : continues (_credit u a c).
Proof. unfold _credit. goes. apply continues_referral_commission. Qed.

Lemma continues_credit_user t p : continues (credit_user t p).
Proof. unfold credit_user. goes. apply continues_credit. Qed.

Lemma unit_result (r : result unit) : goes_on r = true -> r = Next tt.
Proof. destruct r as [[]| |]; [reflexivity | discriminate | discriminate]. Qed.

Lemma run_parts {A} (x : result A * state * list event) :
  x = (result_of x, state_of x, events_of x).
Proof. destruct x as [[r s] e]. reflexivity. Qed.

Lemma prepare_notification_run t p st :
  _bot_ref st = true ->
  prepare_notification t p st
  = (Next (Some (Notification t (default "" (CRYPTO_SYMBOLS (_bot st) !! paid_coin p))
                              (pay_amount p) (paid_coin p) (amount_usd p))), st, []).
Proof.
intros Hst. unfold prepare_notification. rewrite bind_read, Hst, bind_read. reflexivity.
Qed.

Lemma from_guard_result p st k u :
  hash_key (dedup_key_of p) = Some k ->
  k ∉ _processed_orders st ->
  PrimFloat.leb (pay_amount p) PrimFloat.zero = false ->
  (forall s, resolve_telegram_id (order_id p) s = (Next u, s, [])) ->
  _bot_ref st = true ->
  exists sym,
    result_of (from_guard p st)
    = Next (Some (Notification u sym (pay_amount p) (paid_coin p) (amount_usd p))).
Proof.
intros Hk Hnew Hpos Hu Href. unfold from_guard.
rewrite (result_bind_det _ _ _ _ _ _ (duplicate_guard_new p st k Hk Hnew)).
rewrite (result_bind_det _ _ _ _ _ _ (positive_amount_passes p _ Hpos)).
rewrite (result_bind_det _ _ _ _ _ _ (Hu _)).
set (st1 := set_processed _ st).
pose proof (unit_result _ (continues_credit_user u p st1)) as Hr.
destruct (credit_user_effects u p st1) as [[_ Hb] _].
rewrite (result_bind_det _ _ _ _ _ _
           (eq_trans (run_parts (credit_user u p st1))
                     (f_equal (fun r => (r, _, _)) Hr))).
rewrite prepare_notification_run; [eexists; reflexivity|].
rewrite Hb. exact Href.
Qed.

Lemma before_send_result d st p k u :
  status_accepted d ->
  passes cfg d st p k u ->
  _bot_ref st = true ->
  exists sym,
    result_of (before_send cfg (Some (JObj d)) st)
    = Next (Some (Notification u sym (pay_amount p) (paid_coin p) (amount_usd p))).
Proof.
intros Hs [Hsig Hp Hk Hnew Hpos Hu Hw] Href. rewrite before_send_dict.
rewrite (result_bind_det _ _ _ _ _ _ (logging_run _ _ st)).
rewrite (result_bind_det _ _ _ _ _ _ Hsig).
rewrite (result_bind_det _ _ _ _ _ _ (confirmed_status_passes d st Hs)).
rewrite (result_bind_det _ _ _ _ _ _ Hp).
apply (from_guard_result p st k u); assumption.
Qed.

(** The key of a delivery that gets to the guard is recorded when the
    handler is done, whatever comes after the guard. *)
Lemma before_send_records d st p k :
  gets_to_guard cfg d st p k ->
  k ∈ _processed_orders (state_of (before_send cfg (Some (JObj d)) st)).
Proof.
intros [Hsig Hs Hp Hk].
destruct (decide (k ∈ _processed_orders st)) as [Hin | Hnew].
- assert (delivery_key (Some (JObj d)) = Some k) as Hkey
    by (rewrite (delivery_key_fields _ _ _ _ _ Hp); exact Hk).
  destruct (before_send_seen d st k Hkey Hin) as (_ & -> & _). exact Hin.
- rewrite before_send_dict.
  rewrite (state_bind_det _ _ _ _ _ _ (logging_run _ _ st)).
  rewrite (state_bind_det _ _ _ _ _ _ Hsig).
  rewrite (state_bind_det _ _ _ _ _ _ (confirmed_status_passes d st Hs)).
  rewrite (state_bind_det _ _ _ _ _ _ Hp).
  unfold from_guard.
  rewrite (state_bind_det _ _ _ _ _ _ (duplicate_guard_new p st k Hk Hnew)).
  destruct (after_guard_effects p (set_processed (fun s => {[k]} ∪ s) st)) as [[Hpr _] _].
  rewrite Hpr. cbn [set_processed _processed_orders].
  apply elem_of_union. left. apply elem_of_singleton. reflexivity.
Qed.

End Runs.

End Outcomes.

(* ===================================================================== *)
(** * Strings: digits, prefixes, numbers *)
(* ===================================================================== *)

Module Formats.

Import PyStr PyFloat Json Oxapay Spec PyStrFacts.

Lemma chr_code (c : ascii) : chr (code c) = c.
Proof. unfold chr, code. rewrite N2Z.id. apply ascii_N_embedding. Qed.

Lemma code_chr (z : Z) : 0 <= z < 256 -> code (chr z) = z.
Proof.
intros Hz. unfold code, chr. rewrite N_ascii_embedding by lia. lia.
Qed.

Lemma digit_char_val (c : ascii) : is_digit c = true -> digit_char (digit_val c) = c.
Proof.
intros _. unfold digit_char, digit_val. replace (48 + (code c - 48)) with (code c) by lia.
apply chr_code.
Qed.

Lemma digit_val_range (c : ascii) : is_digit c = true -> 0 <= digit_val c <= 9.
Proof. unfold is_digit, digit_val. lia. Qed.

(** A string of digits is the string of its digit values. *)
Lemma digits_of_string (s : string) :
  all_chars is_digit s = true ->
  exists ds, is_decimal ds /\ s = digit_string ds
             /\ List.length ds = String.length s.
Proof.
induction s as [|c s IH]; intros Hs.
- exists []. repeat split. constructor.
- cbn [all_chars] in Hs. apply andb_prop in Hs as [Hc Hs].
  destruct (IH Hs) as (ds & Hds & -> & Hlen).
  exists (digit_val c :: ds). repeat split.
  + constructor; [apply digit_val_range, Hc | exact Hds].
  + unfold digit_string. cbn [map string_of_list_ascii]. rewrite digit_char_val by exact Hc.
    reflexivity.
  + cbn [List.length String.length]. rewrite Hlen. reflexivity.
Qed.

(** The part before the first [c] and what follows it. *)
Lemma split_at_first (c : ascii) (s : string) :
  contains_char c s = true ->
  exists rest, s = split_head c s +:+ String c rest.
Proof.
induction s as [|d s IH]; [discriminate|]. cbn [contains_char split_head].
destruct (Ascii.eqb c d) eqn:E.
- intros _. apply Ascii.eqb_eq in E as ->. exists s. reflexivity.
- intros Hs. destruct (IH Hs) as [rest Hrest]. exists rest.
  rewrite append_cons. rewrite <- Hrest. reflexivity.
Qed.

(** ** [replace] with nothing to replace, and with a prefix to drop *)

Lemma strip_prefix_app (p s : string) : strip_prefix p (p +:+ s) = Some s.
Proof.
induction p as [|a p IH]; [destruct s; reflexivity|].
cbn [strip_prefix]. rewrite append_cons. rewrite Ascii.eqb_refl. exact IH.
Qed.

Lemma replace_fuel_absent (fuel : nat) (c : ascii) (p new s : string) :
  contains_char c s = false ->
  replace_fuel fuel (String c p) new s = s.
Proof.
revert s. induction fuel as [|fuel IH]; intros s Hs; [reflexivity|].
cbn [replace_fuel]. destruct s as [|d s]; [reflexivity|].
cbn [contains_char] in Hs. cbn [strip_prefix].
destruct (Ascii.eqb c d); [discriminate|]. rewrite IH by exact Hs. reflexivity.
Qed.

(** [(p + s).replace(p, "")] is [s] when the first character of [p]
    does not occur in [s]. *)
Lemma replace_prefix (c : ascii) (p s : string) :
  contains_char c s = false ->
  replace (String c p) "" (String c p +:+ s) = s.
Proof.
intros Hs. unfold replace. cbn [replace_fuel].
rewrite (strip_prefix_app (String c p) s).
change ("" +:+ ?x) with x. apply replace_fuel_absent, Hs.
Qed.

Lemma digit_string_without (c : ascii) (ds : list Z) :
  is_digit c = false -> is_decimal ds -> contains_char c (digit_string ds) = false.
Proof.
intros Hc. induction 1 as [|d ds Hd _ IH]; [reflexivity|].
unfold digit_string. cbn [map string_of_list_ascii contains_char].
destruct (Ascii.eqb c (digit_char d)) eqn:E; [|exact IH].
apply Ascii.eqb_eq in E. subst c.
rewrite (proj1 (digit_char_cases d Hd)) in Hc. discriminate.
Qed.

Lemma upper_char_fixed (c d : ascii) :
  is_lower c = true -> upper_char d = d -> Ascii.eqb c d = false.
Proof.
intros Hc Hd. destruct (Ascii.eqb c d) eqn:E; [|reflexivity].
apply Ascii.eqb_eq in E. subst d. unfold upper_char in Hd. rewrite Hc in Hd.
exfalso. apply (f_equal code) in Hd.
unfold is_lower in Hc.
assert (0 <= code c - 32 < 256) as Hr by lia.
unfold code at 1 in Hd. unfold chr in Hd. rewrite N_ascii_embedding in Hd by lia.
unfold code in *. lia.
Qed.

(** A string in upper case holds no lower-case letter. *)
Lemma upper_without (c : ascii) (s : string) :
  is_lower c = true -> upper s = s -> contains_char c s = false.
Proof.
intros Hc. induction s as [|d s IH]; [reflexivity|].
unfold upper. cbn [map_chars contains_char]. intros [= Hd Hs].
rewrite (upper_char_fixed c d Hc Hd). apply IH, Hs.
Qed.

Lemma digit_not_comma (c : ascii) : is_digit c = true -> Ascii.eqb "," c = false.
Proof.
intros Hc. destruct (Ascii.eqb "," c) eqn:E; [|reflexivity].
apply Ascii.eqb_eq in E. subst c. discriminate Hc.
Qed.

(** ** [float()] on a string of digits *)

Lemma digit_is_no_space (d : Z) : 0 <= d <= 9 -> is_space (digit_char d) = false.
Proof.
intros Hd. unfold is_space, digit_char. rewrite code_chr by lia. lia.
Qed.

Lemma rstrip_nonspace (s : string) :
  all_chars (fun c => negb (is_space c)) s = true -> rstrip s = s.
Proof.
induction s as [|c s IH]; [reflexivity|]. cbn [all_chars rstrip].
intros H. apply andb_prop in H as [Hc Hs]. rewrite (IH Hs).
destruct s; [|reflexivity]. apply negb_true_iff in Hc. rewrite Hc. reflexivity.
Qed.

Lemma digit_string_nonspace (ds : list Z) :
  is_decimal ds -> all_chars (fun c => negb (is_space c)) (digit_string ds) = true.
Proof.
induction 1 as [|d ds Hd _ IH]; [reflexivity|].
unfold digit_string. cbn [map string_of_list_ascii all_chars].
rewrite digit_is_no_space by exact Hd. exact IH.
Qed.

Lemma all_chars_impl (p q : ascii -> bool) (s : string) :
  (forall c, p c = true -> q c = true) ->
  all_chars p s = true -> all_chars q s = true.
Proof.
intros Hpq. induction s as [|c s IH]; [reflexivity|]. cbn [all_chars].
intros H. apply andb_prop in H as [Hc Hs]. rewrite (Hpq c Hc), (IH Hs). reflexivity.
Qed.

(** The white space of [float()] is white space of [str.strip]. *)
Lemma c_space_is_space (c : ascii) : is_c_space c = true -> is_space c = true.
Proof. unfold is_c_space, is_space. lia. Qed.

Lemma skip_trailing_nonspace (s : string) :
  all_chars (fun c => negb (is_c_space c)) s = true -> skip_trailing s = s.
Proof.
induction s as [|c s IH]; [reflexivity|]. cbn [all_chars skip_trailing].
intros H. apply andb_prop in H as [Hc Hs]. rewrite (IH Hs).
destruct s; [|reflexivity]. apply negb_true_iff in Hc. rewrite Hc. reflexivity.
Qed.

(** [float()] has nothing to skip around a text without white space. *)
Lemma between_spaces_nonspace (s : string) :
  all_chars (fun c => negb (is_space c)) s = true -> between_spaces s = s.
Proof.
intros Hs.
assert (all_chars (fun c => negb (is_c_space c)) s = true) as Hc.
{ revert Hs. apply all_chars_impl. intros c Hc. apply negb_true_iff in Hc.
  apply negb_true_iff. destruct (is_c_space c) eqn:E; [|reflexivity].
  rewrite (c_space_is_space c E) in Hc. discriminate Hc. }
unfold between_spaces.
assert (skip_leading s = s) as ->.
{ destruct s as [|c s]; [reflexivity|]. cbn [all_chars skip_leading] in *.
  apply andb_prop in Hc as [Hc _]. apply negb_true_iff in Hc. rewrite Hc. reflexivity. }
apply skip_trailing_nonspace, Hc.
Qed.

Lemma between_spaces_digit_string (ds : list Z) :
  is_decimal ds -> between_spaces (digit_string ds) = digit_string ds.
Proof. intros Hds. apply between_spaces_nonspace, digit_string_nonspace, Hds. Qed.

Lemma digitpart_from_digits (ds : list Z) (acc cnt : Z) :
  is_decimal ds ->
  digitpart_from (digit_string ds) acc cnt
  = (value_from acc ds, cnt + Z.of_nat (List.length ds), "").
Proof.
intros Hds. revert acc cnt. induction Hds as [|d ds Hd _ IH]; intros acc cnt.
- cbn. rewrite Z.add_0_r. reflexivity.
- unfold digit_string. cbn [map string_of_list_ascii digitpart_from].
  destruct (digit_char_cases d Hd) as (Hdig & Hval & _). rewrite Hdig, Hval.
  fold (digit_string ds). rewrite IH. cbn [value_from fold_left List.length].
  f_equal. f_equal. lia.
Qed.

Lemma digit_cases (d : Z) :
  0 <= d <= 9 ->
  d = 0 \/ d = 1 \/ d = 2 \/ d = 3 \/ d = 4 \/ d = 5 \/ d = 6 \/ d = 7 \/ d = 8 \/ d = 9.
Proof. lia. Qed.

(** [float("123")] is the float nearest to [123]. *)
Lemma of_string_digits (ds : list Z) :
  is_decimal ds -> ds <> [] ->
  of_string (digit_string ds) = Some (nearest (value_from 0 ds) 1).
Proof.
intros Hds Hne. unfold of_string. rewrite between_spaces_digit_string by exact Hds.
destruct Hds as [|d ds Hd Hds]; [destruct Hne; reflexivity|].
assert (absfloatvalue (digit_string (d :: ds)) = Some (nearest (value_from 0 (d :: ds)) 1))
  as Habs.
{ unfold absfloatvalue, floatnumber, number, digitpart.
  unfold digit_string. cbn [map string_of_list_ascii].
  destruct (digit_char_cases d Hd) as (Hdig & Hval & _).
  rewrite Hdig, Hval. fold (digit_string ds).
  rewrite (digitpart_from_digits ds d 1 Hds).
  cbn [value_from fold_left]. cbn [Z.add Z.mul].
  replace (0 <=? 0 - 0) with true by reflexivity.
  replace (10 ^ (0 - 0)) with 1 by reflexivity. rewrite Z.mul_1_r.
  unfold lower. cbn [map_chars].
  destruct (digit_cases d Hd) as [-> | [-> | [-> | [-> | [-> | [-> | [-> | [-> | [-> | ->]]]]]]]]];
    reflexivity. }
unfold digit_string in *. cbn [map string_of_list_ascii] in *.
destruct (digit_cases d Hd) as [-> | [-> | [-> | [-> | [-> | [-> | [-> | [-> | [-> | ->]]]]]]]]];
  exact Habs.
Qed.

Lemma of_string_int (n : Z) :
  0 <= n -> of_string (str_of_int n) = Some (nearest n 1).
Proof.
intros Hn. rewrite str_of_int_nonneg by exact Hn.
rewrite of_string_digits; [|apply digits_decimal, Hn | apply digits_nonempty].
rewrite digits_value by exact Hn. reflexivity.
Qed.

(** ** The characters of a float literal *)

(** The three matches on a literal character of the grammar, as tests. *)
Lemma number_eq (s : string) :
  number s
  = match digitpart s with
    | Some (ip, _, rest) =>
        match rest with
        | String c rest' =>
            if Ascii.eqb c "."
            then match digitpart rest' with
                 | Some (fp, fcnt, rest'') => Some (ip * 10 ^ fcnt + fp, fcnt, rest'')
                 | None => Some (ip, 0, rest')
                 end
            else Some (ip, 0, rest)
        | EmptyString => Some (ip, 0, rest)
        end
    | None =>
        match s with
        | String c rest' =>
            if Ascii.eqb c "."
            then match digitpart rest' with
                 | Some (fp, fcnt, rest'') => Some (fp, fcnt, rest'')
                 | None => None
                 end
            else None
        | EmptyString => None
        end
    end.
Proof.
unfold number.
destruct (digitpart s) as [[[ip n] rest]|];
  [destruct rest as [|c rest'] | destruct s as [|c rest']]; try reflexivity;
  destruct c as [[] [] [] [] [] [] [] []]; reflexivity.
Qed.

Lemma exponent_value_eq (s : string) :
  exponent_value s
  = match s with
    | String c s' =>
        if Ascii.eqb c "-"
        then match digitpart s' with
             | Some (ev, _, EmptyString) => Some (- ev)
             | _ => None
             end
        else
          match digitpart (if Ascii.eqb c "+" then s' else s) with
          | Some (ev, _, EmptyString) => Some ev
          | _ => None
          end
    | EmptyString => None
    end.
Proof.
unfold exponent_value. destruct s as [|c s']; [reflexivity|].
destruct c as [[] [] [] [] [] [] [] []]; reflexivity.
Qed.

Lemma of_string_eq (s : string) :
  of_string s
  = match between_spaces s with
    | String c s' =>
        if Ascii.eqb c "-" then PrimFloat.opp <$> absfloatvalue s'
        else if Ascii.eqb c "+" then absfloatvalue s'
        else absfloatvalue (String c s')
    | EmptyString => absfloatvalue ""
    end.
Proof.
unfold of_string. destruct (between_spaces s) as [|c s']; [reflexivity|].
destruct c as [[] [] [] [] [] [] [] []]; reflexivity.
Qed.

Lemma float_char_digit (c : ascii) : is_digit c = true -> float_char c = true.
Proof. intros H. unfold float_char. rewrite H. reflexivity. Qed.

Lemma float_char_space (c : ascii) : is_c_space c = true -> float_char c = true.
Proof. intros H. unfold float_char. rewrite H, orb_true_r. reflexivity. Qed.

(** The letters [float()] reads in either case. *)
Lemma float_char_letter (c : ascii) :
  contains_char (lower_char c) "infinitynan" = true -> float_char c = true.
Proof.
destruct c as [[] [] [] [] [] [] [] []]; intros H; vm_compute in H |- *;
  first [reflexivity | discriminate H].
Qed.

Lemma all_chars_contains (p : ascii -> bool) (c : ascii) (s : string) :
  all_chars p s = true -> contains_char c s = true -> p c = true.
Proof.
induction s as [|d s IH]; [discriminate|]. cbn [all_chars contains_char].
intros H. apply andb_prop in H as [Hd Hs].
destruct (Ascii.eqb c d) eqn:E; [|apply IH, Hs].
intros _. apply Ascii.eqb_eq in E. subst d. exact Hd.
Qed.

(** What a digit part is read from holds digits and underscores up to
    what is left over. *)
Lemma digitpart_from_chars (n : nat) (s : string) (acc cnt : Z) :
  (String.length s <= n)%nat ->
  all_chars float_char (snd (digitpart_from s acc cnt)) = true ->
  all_chars float_char s = true.
Proof.
revert s acc cnt. induction n as [|n IH]; intros s acc cnt Hlen.
- destruct s; [intros _; reflexivity | cbn in Hlen; lia].
- destruct s as [|c s]; [intros _; reflexivity|].
  cbn [String.length] in Hlen. cbn [digitpart_from].
  destruct (is_digit c) eqn:Hc.
  + intros H. cbn [all_chars]. rewrite (float_char_digit c Hc). cbn [andb].
    apply (IH s _ _ ltac:(lia) H).
  + destruct (Ascii.eqb c "_") eqn:Hu; [|cbn [snd]; auto].
    destruct s as [|c2 s2]; [cbn [snd]; auto|].
    destruct (is_digit c2) eqn:Hc2; [|cbn [snd]; auto].
    intros H. apply Ascii.eqb_eq in Hu. subst c. cbn [all_chars].
    rewrite (float_char_digit c2 Hc2). change (float_char "_") with true. cbn [andb].
    cbn [String.length] in Hlen. apply (IH s2 _ _ ltac:(lia) H).
Qed.

Lemma digitpart_chars (s : string) (v n : Z) (rest : string) :
  digitpart s = Some (v, n, rest) ->
  all_chars float_char rest = true -> all_chars float_char s = true.
Proof.
unfold digitpart. destruct s as [|c s]; [discriminate|].
destruct (is_digit c) eqn:Hc; [|discriminate].
intros [= H] Hrest. cbn [all_chars]. rewrite (float_char_digit c Hc). cbn [andb].
apply (digitpart_from_chars (String.length s) s (digit_val c) 1 (le_n _)).
rewrite H. exact Hrest.
Qed.

Lemma number_chars (s : string) (m fcnt : Z) (rest : string) :
  number s = Some (m, fcnt, rest) ->
  all_chars float_char rest = true -> all_chars float_char s = true.
Proof.
rewrite number_eq. destruct (digitpart s) as [[[ip n] r]|] eqn:Hd.
- destruct r as [|c r'].
  { intros [= _ _ <-] H. apply (digitpart_chars _ _ _ _ Hd H). }
  destruct (Ascii.eqb c ".") eqn:Hc.
  + apply Ascii.eqb_eq in Hc. subst c.
    destruct (digitpart r') as [[[fp fc] r'']|] eqn:Hd2.
    * intros [= _ _ <-] H. apply (digitpart_chars _ _ _ _ Hd).
      cbn [all_chars]. change (float_char ".") with true. cbn [andb].
      apply (digitpart_chars _ _ _ _ Hd2 H).
    * intros [= _ _ <-] H. apply (digitpart_chars _ _ _ _ Hd).
      cbn [all_chars]. change (float_char ".") with true. exact H.
  + intros [= _ _ <-] H. apply (digitpart_chars _ _ _ _ Hd H).
- destruct s as [|c r']; [discriminate|].
  destruct (Ascii.eqb c ".") eqn:Hc; [|discriminate].
  apply Ascii.eqb_eq in Hc. subst c.
  destruct (digitpart r') as [[[fp fc] r'']|] eqn:Hd2; [|discriminate].
  intros [= _ _ <-] H. cbn [all_chars]. change (float_char ".") with true. cbn [andb].
  apply (digitpart_chars _ _ _ _ Hd2 H).
Qed.

Lemma digitpart_whole_chars (s : string) (ev n : Z) (r : string) :
  digitpart s = Some (ev, n, r) -> r = "" -> all_chars float_char s = true.
Proof. intros Hd ->. apply (digitpart_chars _ _ _ _ Hd). reflexivity. Qed.

Lemma exponent_value_chars (s : string) (ex : Z) :
  exponent_value s = Some ex -> all_chars float_char s = true.
Proof.
rewrite exponent_value_eq. destruct s as [|c s']; [discriminate|].
destruct (Ascii.eqb c "-") eqn:Hm.
- apply Ascii.eqb_eq in Hm. subst c.
  destruct (digitpart s') as [[[ev n] [|? ?]]|] eqn:Hd; try discriminate.
  intros _. cbn [all_chars]. change (float_char "-") with true. cbn [andb].
  apply (digitpart_whole_chars _ _ _ _ Hd eq_refl).
- destruct (Ascii.eqb c "+") eqn:Hp.
  + apply Ascii.eqb_eq in Hp. subst c.
    destruct (digitpart s') as [[[ev n] [|? ?]]|] eqn:Hd; try discriminate.
    intros _. cbn [all_chars]. change (float_char "+") with true. cbn [andb].
    apply (digitpart_whole_chars _ _ _ _ Hd eq_refl).
  + destruct (digitpart (String c s')) as [[[ev n] [|? ?]]|] eqn:Hd; try discriminate.
    intros _. apply (digitpart_whole_chars _ _ _ _ Hd eq_refl).
Qed.

Lemma floatnumber_chars (s : string) (a : float) :
  floatnumber s = Some a -> all_chars float_char s = true.
Proof.
unfold floatnumber. destruct (number s) as [[[m fcnt] rest]|] eqn:Hn; [|discriminate].
destruct rest as [|c rest'].
- intros _. apply (number_chars _ _ _ _ Hn). reflexivity.
- destruct (Ascii.eqb c "e" || Ascii.eqb c "E") eqn:He; [|discriminate].
  destruct (exponent_value rest') as [ex|] eqn:Hex; [|discriminate].
  intros _. apply (number_chars _ _ _ _ Hn). cbn [all_chars].
  rewrite (exponent_value_chars _ _ Hex), andb_true_r.
  apply orb_prop in He as [He | He]; apply Ascii.eqb_eq in He; subst c; reflexivity.
Qed.

Lemma lower_letters (s t : string) :
  lower s = t -> all_chars (fun c => contains_char (lower_char c) t) s = true.
Proof.
intros <-. unfold lower.
assert (forall u, (forall c, contains_char c (map_chars lower_char s) = true ->
                             contains_char c u = true) ->
                  all_chars (fun c => contains_char (lower_char c) u) s = true) as H.
{ induction s as [|c s IH]; intros u Hu; [reflexivity|].
  cbn [all_chars map_chars] in *. rewrite (Hu (lower_char c)).
  - apply IH. intros d Hd. apply Hu. cbn [contains_char]. rewrite Hd.
    destruct (Ascii.eqb d (lower_char c)); reflexivity.
  - cbn [contains_char]. rewrite Ascii.eqb_refl. reflexivity. }
apply H. auto.
Qed.

Lemma named_float_chars (s t : string) :
  String.eqb (lower s) t = true ->
  (forall c, contains_char c t = true -> contains_char c "infinitynan" = true) ->
  all_chars float_char s = true.
Proof.
intros E Ht. apply String.eqb_eq in E.
apply (all_chars_impl (fun c => contains_char (lower_char c) t)); [|apply lower_letters, E].
intros c Hc. apply float_char_letter, Ht, Hc.
Qed.

Lemma absfloatvalue_chars (s : string) (a : float) :
  absfloatvalue s = Some a -> all_chars float_char s = true.
Proof.
unfold absfloatvalue.
destruct (String.eqb (lower s) "inf") eqn:E1.
{ intros _. apply (named_float_chars s "inf" E1). intros c.
  destruct c as [[] [] [] [] [] [] [] []]; vm_compute; auto. }
destruct (String.eqb (lower s) "infinity") eqn:E2.
{ intros _. apply (named_float_chars s "infinity" E2). intros c.
  destruct c as [[] [] [] [] [] [] [] []]; vm_compute; auto. }
destruct (String.eqb (lower s) "nan") eqn:E3.
{ intros _. apply (named_float_chars s "nan" E3). intros c.
  destruct c as [[] [] [] [] [] [] [] []]; vm_compute; auto. }
cbn [orb]. apply floatnumber_chars.
Qed.

Lemma skip_leading_chars (s : string) :
  all_chars float_char (skip_leading s) = true -> all_chars float_char s = true.
Proof.
induction s as [|c s IH]; [reflexivity|]. cbn [skip_leading].
destruct (is_c_space c) eqn:Hc; [|auto].
intros H. cbn [all_chars]. rewrite (float_char_space c Hc), (IH H). reflexivity.
Qed.

Lemma skip_trailing_chars (s : string) :
  all_chars float_char (skip_trailing s) = true -> all_chars float_char s = true.
Proof.
induction s as [|c s IH]; [reflexivity|]. cbn [skip_trailing].
destruct (skip_trailing s) as [|d r].
- destruct (is_c_space c) eqn:Hc; intros H; cbn [all_chars] in *.
  + rewrite (float_char_space c Hc), (IH eq_refl). reflexivity.
  + apply andb_prop in H as [H _]. rewrite H, (IH eq_refl). reflexivity.
- intros H. cbn [all_chars] in H. apply andb_prop in H as [Hc Hr].
  cbn [all_chars]. rewrite Hc. apply IH. exact Hr.
Qed.

(** [float()] takes a text only if every character of it is one of a
    float literal or white space. *)
Lemma of_string_chars (s : string) (a : float) :
  of_string s = Some a -> all_chars float_char s = true.
Proof.
rewrite of_string_eq. intros H.
apply skip_leading_chars, skip_trailing_chars. fold (between_spaces s).
destruct (between_spaces s) as [|c s']; [reflexivity|].
destruct (Ascii.eqb c "-") eqn:Hm.
{ apply Ascii.eqb_eq in Hm. subst c.
  destruct (absfloatvalue s') as [a'|] eqn:Ha; [|discriminate H].
  cbn [all_chars]. change (float_char "-") with true.
  apply (absfloatvalue_chars _ _ Ha). }
destruct (Ascii.eqb c "+") eqn:Hp.
{ apply Ascii.eqb_eq in Hp. subst c.
  cbn [all_chars]. change (float_char "+") with true.
  apply (absfloatvalue_chars _ _ H). }
apply (absfloatvalue_chars _ _ H).
Qed.

Lemma of_string_foreign (c : ascii) (s : string) :
  contains_char c s = true -> float_char c = false -> of_string s = None.
Proof.
intros Hin Hc. destruct (of_string s) as [a|] eqn:E; [|reflexivity].
rewrite (all_chars_contains _ c s (of_string_chars s a E) Hin) in Hc. discriminate Hc.
Qed.

End Formats.

(* ===================================================================== *)
(** * The digest as a string *)
(* ===================================================================== *)

Module Sha256Facts.

Import PyStr Json Sha256 Oxapay Spec Effects Delivery Formats.

Lemma hex_digit_ascii (d : Z) : 0 <= d < 16 -> (code (hex_digit d) <? 128) = true.
Proof.
intros Hd. unfold hex_digit. destruct (d <? 10) eqn:E; rewrite code_chr by lia; lia.
Qed.

Lemma hex_of_bytes_ascii (bs : list Z) :
  Forall is_byte bs -> is_ascii (hex_of_bytes bs) = true.
Proof.
unfold is_ascii, hex_of_bytes. induction 1 as [|b bs Hb _ IH]; [reflexivity|].
cbn [flat_map app string_of_list_ascii all_chars]. unfold is_byte in Hb.
rewrite !hex_digit_ascii, IH; [reflexivity | |].
- pose proof (Z.mod_pos_bound b 16). lia.
- split; [apply Z.div_pos; lia | apply Z.div_lt_upper_bound; lia].
Qed.

Lemma length_string_of_list (l : list ascii) :
  String.length (string_of_list_ascii l) = List.length l.
Proof. induction l as [|c l IH]; [reflexivity | cbn; rewrite IH; reflexivity]. Qed.

Lemma hex_of_bytes_length (bs : list Z) :
  String.length (hex_of_bytes bs) = (2 * List.length bs)%nat.
Proof.
unfold hex_of_bytes. rewrite length_string_of_list.
induction bs as [|b bs IH]; [reflexivity|].
cbn [flat_map app List.length]. rewrite IH. lia.
Qed.

Lemma be_bytes_bytes (k : nat) (n : Z) : Forall is_byte (be_bytes k n).
Proof.
induction k as [|k IH]; [constructor|]. cbn [be_bytes]. constructor; [|exact IH].
apply Z.mod_pos_bound. lia.
Qed.

Lemma be_bytes_length (k : nat) (n : Z) : List.length (be_bytes k n) = k.
Proof. induction k as [|k IH]; [reflexivity | cbn [be_bytes List.length]; rewrite IH; reflexivity]. Qed.

Lemma flat_be_bytes (ws : list Z) :
  Forall is_byte (flat_map (be_bytes 4) ws)
  /\ List.length (flat_map (be_bytes 4) ws) = (4 * List.length ws)%nat.
Proof.
induction ws as [|w ws [IH1 IH2]]; [split; [constructor | reflexivity]|].
cbn [flat_map]. split.
- apply Forall_app. split; [apply be_bytes_bytes | exact IH1].
- rewrite length_app, be_bytes_length, IH2. cbn [List.length]. lia.
Qed.

Lemma round_length (st : list Z) (kw : Z * Z) :
  List.length (round st kw) = List.length st.
Proof.
destruct st as [|a [|b [|c [|d [|e [|f [|g [|h [|i t]]]]]]]]]; reflexivity.
Qed.

Lemma fold_round_length (kws : list (Z * Z)) (st : list Z) :
  List.length (fold_left round kws st) = List.length st.
Proof.
revert st. induction kws as [|kw kws IH]; intros st; [reflexivity|].
cbn [fold_left]. rewrite IH. apply round_length.
Qed.

Lemma compress_length (h block : list Z) :
  List.length (compress h block) = List.length h.
Proof.
unfold compress. rewrite length_map, length_combine, fold_round_length. lia.
Qed.

Lemma blocks_length (fuel : nat) (h ws : list Z) :
  List.length (blocks fuel h ws) = List.length h.
Proof.
revert h ws. induction fuel as [|fuel IH]; intros h ws; [reflexivity|].
cbn [blocks]. destruct ws as [|w ws']; [reflexivity|].
rewrite IH. apply compress_length.
Qed.

Lemma digest_bytes (msg : list Z) :
  Forall is_byte (digest msg) /\ List.length (digest msg) = 32%nat.
Proof.
unfold digest. destruct (flat_be_bytes
  (blocks (List.length (words (List.length (pad msg)) (pad msg))) H0
          (words (List.length (pad msg)) (pad msg)))) as [Hb Hl].
split; [exact Hb|]. rewrite Hl, blocks_length. reflexivity.
Qed.

(** The hexadecimal digest is 64 ASCII characters. *)
Lemma hmac_hexdigest_shape (key msg : list Z) :
  is_ascii (hmac_hexdigest key msg) = true
  /\ String.length (hmac_hexdigest key msg) = 64%nat.
Proof.
unfold hmac_hexdigest, hmac. split.
- apply hex_of_bytes_ascii, digest_bytes.
- rewrite hex_of_bytes_length. rewrite (proj2 (digest_bytes _)). reflexivity.
Qed.

Lemma eqb_empty_length (s : string) :
  String.length s <> 0%nat -> String.eqb s "" = false.
Proof. destruct s; [intros H; destruct H; reflexivity | reflexivity]. Qed.

Section Check.

Context {api : BotApi}.
Variable cfg : config.

Lemma signature_check_signed d st :
  get d "hmac"
  = Some (JStr (hmac_hexdigest (bytes_of_string (OXAPAY_MERCHANT_KEY cfg))
                               (bytes_of_string (dumps (JObj (without "hmac" d)))))) ->
  signature_check cfg (JObj d) st = (Next tt, st, []).
Proof.
intros Hget. unfold signature_check, py_get, get_default. rewrite Hget, bind_pure.
cbv beta.
destruct (hmac_hexdigest_shape (bytes_of_string (OXAPAY_MERCHANT_KEY cfg))
            (bytes_of_string (dumps (JObj (without "hmac" d))))) as [Hascii Hlen].
cbn [truthy]. rewrite eqb_empty_length by (rewrite Hlen; discriminate).
cbn [negb]. rewrite bind_pure. cbv beta zeta.
unfold _verify_signature, compare_digest. rewrite Hascii. cbn [andb].
rewrite String.eqb_refl, bind_pure. reflexivity.
Qed.

End Check.

End Sha256Facts.

(* ===================================================================== *)
(** * [_credit]: the statistics *)
(* ===================================================================== *)

Module StatsFacts.

Import Json Oxapay Spec Effects Delivery Deliveries Handler Outcomes.

Lemma call_run {api : BotApi} f e st : call f e st = (Next tt, set_bot f st, [e]).
Proof. reflexivity. Qed.

Lemma is_Some_alter {A} (f : A -> A) (m : gmap Z A) (i j : Z) :
  is_Some (alter f i m !! j) <-> is_Some (m !! j).
Proof.
destruct (decide (i = j)) as [->|Hne].
- rewrite lookup_alter_eq, fmap_is_Some. reflexivity.
- rewrite lookup_alter_ne by exact Hne. reflexivity.
Qed.

Lemma bool_decide_is_Some_alter {A} (f : A -> A) (m : gmap Z A) (i j : Z) :
  bool_decide (is_Some (alter f i m !! j)) = bool_decide (is_Some (m !! j)).
Proof. apply bool_decide_ext, is_Some_alter. Qed.

Lemma referral_alter_deposit x (us : gmap Z stats) (u v : Z) :
  (alter (with_deposit x) u us !! v ≫= referral) = (us !! v ≫= referral).
Proof.
destruct (decide (u = v)) as [->|Hne].
- rewrite lookup_alter_eq. destruct (us !! v); reflexivity.
- rewrite lookup_alter_ne by exact Hne. reflexivity.
Qed.

Section Credit.

Context {api : BotApi}.

Lemma referral_commission_run u a c st :
  (forall v b, user_stats (save_user_data v b) = user_stats b) ->
  exists st',
    referral_commission u a c st
    = (Next tt, st',
       match referrer_of (_bot st) u with
       | Some rid => [SaveUserData rid]
       | None => []
       end)
    /\ same_guard st st'
    /\ user_stats (_bot st')
       = match referrer_of (_bot st) u with
         | Some rid => alter (with_commission c (PrimFloat.mul a commission_rate)) rid
                             (user_stats (_bot st))
         | None => user_stats (_bot st)
         end.
Proof.
intros Hsave. unfold referral_commission, referrer_of. rewrite bind_read. cbv zeta.
destruct (user_stats (_bot st) !! u ≫= referral) as [r|]; cbn [mbind option_bind default id].
2:{ eexists. split; [reflexivity|]. repeat split. }
destruct (referrer_id r) as [rid|].
2:{ eexists. split; [reflexivity|]. repeat split. }
destruct (negb (rid =? 0) && bool_decide (is_Some (user_stats (_bot st) !! rid))).
2:{ eexists. split; [reflexivity|]. repeat split. }
rewrite bind_modify, call_run.
eexists. split; [reflexivity|]. split; [split; reflexivity|].
cbn [_bot set_bot]. rewrite Hsave. reflexivity.
Qed.

Lemma referrer_of_deposit (b b' : bot) x u v :
  user_stats b' = alter (with_deposit x) v (user_stats b) ->
  referrer_of b' u = referrer_of b u.
Proof.
intros Hb. unfold referrer_of. rewrite Hb, referral_alter_deposit.
destruct ((user_stats b !! u ≫= referral) ≫= referrer_id) as [rid|]; [|reflexivity].
rewrite bool_decide_is_Some_alter. reflexivity.
Qed.

Lemma price_run (prices : gmap string float) (c : string) (st : state) :
  (match prices !! c with
   | Some p =>
       if PrimFloat.leb p PrimFloat.zero
       then logging WARNING (NoLivePrice c) ;;; pure one_float
       else pure p
   | None => logging WARNING (NoLivePrice c) ;;; pure one_float
   end) st
  = (Next (match prices !! c with
           | Some p => if PrimFloat.leb p PrimFloat.zero then one_float else p
           | None => one_float
           end),
     st,
     match prices !! c with
     | Some p => if PrimFloat.leb p PrimFloat.zero then [Log WARNING (NoLivePrice c)] else []
     | None => [Log WARNING (NoLivePrice c)]
     end).
Proof.
destruct (prices !! c) as [p|]; [destruct (PrimFloat.leb p PrimFloat.zero)|]; reflexivity.
Qed.

Lemma bind_run {A B} (m : M A) (k : A -> M B) st a st1 e1 r st2 e2 :
  m st = (Next a, st1, e1) -> k a st1 = (r, st2, e2) ->
  bind m k st = (r, st2, e1 ++ e2).
Proof. intros Hm Hk. unfold bind. rewrite Hm, Hk. reflexivity. Qed.

(** The whole of [_credit], for a [bot.py] that keeps the statistics. *)
Lemma credit_run u a c st :
  keeps_stats api ->
  exists st',
    _credit u a c st = (Next tt, st', credit_events (_bot st) u a c)
    /\ same_guard st st'
    /\ user_stats (_bot st') = stats_after (_bot st) u a c.
Proof.
intros [Hcs Hcp Hss]. unfold _credit, credit_events, stats_after, price_used.
set (st1 := set_bot (credit_wallet_crypto u a c) st).
assert (user_stats (_bot st1) = user_stats (_bot st)) as Hus by apply Hcs.
assert (LIVE_PRICES (_bot st1) = LIVE_PRICES (_bot st)) as Hpr by apply Hcp.
destruct (user_stats (_bot st) !! u) as [s|] eqn:Hu.
- set (x := PrimFloat.mul a
              (match LIVE_PRICES (_bot st) !! c with
               | Some p => if PrimFloat.leb p PrimFloat.zero then one_float else p
               | None => one_float
               end)).
  set (st2 := set_bot (set_user_stats (alter (with_deposit x) u)) st1).
  assert (referrer_of (_bot st2) u = referrer_of (_bot st) u) as Href.
  { apply (referrer_of_deposit _ _ x u u). cbn [st2 set_bot _bot set_user_stats user_stats].
    rewrite Hus. reflexivity. }
  destruct (referral_commission_run u a c st2 Hss) as (st3 & Hrun & [Hg3 Hb3] & Hst3).
  rewrite Href in Hrun, Hst3.
  exists (set_bot (save_user_data u) st3). split; [|split; [split|]].
  + eapply (bind_run _ _ _ _ _ [_]); [apply call_run|]. cbv beta.
    rewrite bind_read. fold st1. rewrite Hus, Hu.
    rewrite bool_decide_eq_true_2 by (eexists; reflexivity).
    eapply bind_run; [|apply call_run].
    rewrite bind_read, Hpr.
    eapply bind_run; [apply price_run|].
    rewrite bind_modify. exact Hrun.
  + cbn [set_bot _processed_orders]. rewrite Hg3. reflexivity.
  + cbn [set_bot _bot_ref]. rewrite Hb3. reflexivity.
  + cbn [set_bot _bot]. rewrite Hss, Hst3.
    cbn [st2 set_bot _bot set_user_stats user_stats]. rewrite Hus. reflexivity.
- exists (set_bot (save_user_data u) st1). split; [|split; [split; reflexivity|]].
  + eapply (bind_run _ _ _ _ _ [_]); [apply call_run|]. cbv beta.
    rewrite bind_read. fold st1. rewrite Hus, Hu.
    rewrite bool_decide_eq_false_2 by (intros [? ?]; discriminate).
    rewrite bind_pure. apply call_run.
  + cbn [set_bot _bot]. rewrite Hss. exact Hus.
Qed.

End Credit.

Lemma reference_keeps_stats : keeps_stats Reference.api.
Proof. split; reflexivity. Qed.

Lemma referrer_of_known (b : bot) (u rid : Z) :
  referrer_of b u = Some rid ->
  is_Some (user_stats b !! u) /\ is_Some (user_stats b !! rid) /\ rid <> 0.
Proof.
unfold referrer_of. destruct (user_stats b !! u) as [s|]; [|discriminate].
cbn [mbind option_bind].
destruct (referral s ≫= referrer_id) as [r|]; [|discriminate].
destruct (negb (r =? 0)) eqn:Hz; [|discriminate]. cbn [andb].
destruct (bool_decide (is_Some (user_stats b !! r))) eqn:Hk; [|discriminate].
intros [= ->]. apply bool_decide_eq_true_1 in Hk.
repeat split; [eexists; reflexivity | exact Hk |].
intros ->. discriminate.
Qed.

Lemma unwagered_with_commission coin x (s : stats) :
  unwagered_deposit (with_commission coin x s) = unwagered_deposit s.
Proof. reflexivity. Qed.

End StatsFacts.

(* ===================================================================== *)
(** * Keyboards and callback data *)
(* ===================================================================== *)

Module Menus.

Import PyStr PyFloat Json Oxapay Spec PyStrFacts Effects Delivery Formats.

Lemma rows_of_three_button_rows (row bs : list button) :
  rows_of_three row bs = button_rows row bs.
Proof.
revert row. induction bs as [|b bs IH]; intros row; [reflexivity|].
cbn [rows_of_three button_rows]. rewrite !IH. reflexivity.
Qed.

Lemma button_rows_filled {A} (bs row : list A) :
  (List.length row < 3)%nat ->
  concat (button_rows row bs) = row ++ bs /\ well_filled (button_rows row bs).
Proof.
revert row. induction bs as [|b bs IH]; intros row Hrow.
- cbn [button_rows]. destruct row as [|a row].
  + split; [reflexivity | exact I].
  + split; [cbn [concat]; rewrite app_nil_r; reflexivity|].
    cbn [well_filled List.length] in *. split; [lia | exact I].
- cbn [button_rows]. cbv zeta.
  destruct (Nat.eqb (List.length (row ++ [b])) 3) eqn:E.
  + apply Nat.eqb_eq in E. destruct (IH [] ltac:(cbn; lia)) as [Hc Hw].
    split.
    * cbn [concat]. rewrite Hc. rewrite <- app_assoc. reflexivity.
    * cbn [well_filled]. split; [|exact Hw].
      destruct (button_rows [] bs); lia.
  + apply Nat.eqb_neq in E. rewrite length_app in *. cbn [List.length] in *.
    destruct (IH (row ++ [b])) as [Hc Hw]; [rewrite length_app; cbn [List.length]; lia|].
    split; [|exact Hw]. rewrite Hc, <- app_assoc. reflexivity.
Qed.

(** The currency selector, by what it shows. *)
Lemma selector_shown cfg b user_id ud via_message :
  _show_currency_selector cfg b user_id ud via_message
  = (_STATE_CURRENCY, ud,
     shown via_message user_id
           (CurrencySelector (default PrimFloat.zero (oxapay_usd_amount ud)))
           (button_rows [] (List.map (coin_button b) (offered cfg b)) ++ [[back_button]])).
Proof.
unfold _show_currency_selector. rewrite rows_of_three_button_rows.
destruct via_message; reflexivity.
Qed.

Lemma in_filter_mem (c : string) (l1 l2 : list string) :
  In c (List.filter (fun x => mem x l2) l1) <-> In c l1 /\ mem c l2 = true.
Proof. apply filter_In. Qed.

Lemma mem_In (s : string) (l : list string) : mem s l = true <-> In s l.
Proof.
unfold mem. rewrite existsb_exists. split.
- intros (x & Hx & E). apply String.eqb_eq in E. subst x. exact Hx.
- intros Hs. exists s. split; [exact Hs | apply String.eqb_refl].
Qed.

(** The callback data of a coin button name the coin again. *)
Lemma coin_of_callback (coin : string) :
  upper coin = coin ->
  upper (replace "oxapay_cur_" "" ("oxapay_cur_" +:+ coin)) = coin.
Proof.
intros Hup.
rewrite (replace_prefix "o" "xapay_cur_" coin); [exact Hup|].
apply upper_without; [reflexivity | exact Hup].
Qed.

(** The callback data of a preset button name the amount again. *)
Lemma amount_of_callback (n : Z) :
  0 <= n ->
  of_string (replace "oxapay_amt_" "" ("oxapay_amt_" +:+ str_of_int n))
  = Some (nearest n 1).
Proof.
intros Hn.
rewrite (replace_prefix "o" "xapay_amt_" (str_of_int n)); [apply of_string_int, Hn|].
rewrite str_of_int_nonneg by exact Hn.
apply digit_string_without; [reflexivity | apply digits_decimal, Hn].
Qed.

(** The first thing the client does is to post the request. *)
Lemma create_invoice_posts self net amount_usd currency order_id description :
  exists logs,
    snd (create_invoice self net amount_usd currency order_id description)
    = Post INVOICE_URL
           (InvoicePayload (merchant_key self) (round2 amount_usd) currency
                           order_id (callback_url self) description)
      :: List.map ClientLog logs.
Proof.
unfold create_invoice. cbv zeta.
destruct (net _) as [| | |status [[]|]|status []];
  try (eexists [_]; reflexivity);
  try (destruct (negb (status =? 200)); [eexists [_] | eexists [_]]; reflexivity).
- destruct (negb (status =? 200)); [eexists [_]; reflexivity|].
  destruct (eq_int _ 100); [exists [] | eexists [_]]; reflexivity.
Qed.

Lemma http_posts_logs (logs : list client_log) (tail : list ui_event) :
  http_posts (List.map Http (List.map ClientLog logs) ++ tail) = http_posts tail.
Proof. induction logs as [|l logs IH]; [reflexivity | exact IH]. Qed.

(** The currency step for a configured coin: the answer to the query,
    the request, and after it no other request. *)
Lemma currency_selected_request cfg b net data user_id now ud :
  mem (upper (replace "oxapay_cur_" "" data)) (OXAPAY_SUPPORTED_CURRENCIES cfg) = true ->
  let out := oxapay_currency_selected cfg b net true data user_id now ud in
  fst (fst out) = END
  /\ exists rest,
      snd out
      = Answer CreatingInvoice false
        :: Http (invoice_request cfg (default PrimFloat.zero (oxapay_usd_amount ud))
                   (upper (replace "oxapay_cur_" "" data)) user_id now)
        :: rest
      /\ http_posts rest = 0%nat.
Proof.
intros Hcoin. cbv zeta. unfold oxapay_currency_selected. cbn [negb]. rewrite Hcoin.
cbn [negb].
set (coin := upper (replace "oxapay_cur_" "" data)).
set (client := Client _ _).
set (amount := default PrimFloat.zero (oxapay_usd_amount ud)).
destruct (create_invoice_posts client net amount coin (make_order_id user_id now)
            "Casino Deposit") as [logs Hlogs].
destruct (create_invoice client net amount coin (make_order_id user_id now)
            "Casino Deposit") as [result http].
cbn [snd] in Hlogs. subst http. cbn [List.map app].
destruct result as [[| | | | | |d]|]; cbn [fst snd];
  try (split; [reflexivity|]; eexists; split; [reflexivity|];
       rewrite http_posts_logs; reflexivity).
destruct (negb (truthy (pay_link_of d))); cbn [fst snd];
  (split; [reflexivity|]; eexists; split; [reflexivity|];
   rewrite http_posts_logs; reflexivity).
Qed.

(** ** Order references *)

Lemma resolve_string (s : string) (st : state) :
  resolve_telegram_id (JStr s) st
  = if contains_char "_" s && isdigit (split_head "_" s)
    then (Next (int_of_digits (split_head "_" s)), st, [])
    else (ReturnOk, st, [Log WARNING (UnrecognisedOrderId (JStr s))]).
Proof.
unfold resolve_telegram_id, py_contains_underscore. rewrite bind_pure.
destruct (contains_char "_" s); cbn [andb].
- unfold py_split_head. rewrite bind_pure.
  destruct (isdigit (split_head "_" s)); reflexivity.
- rewrite bind_pure. reflexivity.
Qed.

Lemma names_user_iff (s : string) (u : Z) :
  names_user s u
  <-> contains_char "_" s && isdigit (split_head "_" s) = true
      /\ u = int_of_digits (split_head "_" s).
Proof.
split.
- intros (ds & rest & Hne & Hds & -> & ->).
  rewrite contains_underscore_app.
  rewrite split_head_digits by (apply all_digits_digit_string, Hds).
  rewrite isdigit_digit_string by assumption.
  split; [reflexivity|]. unfold int_of_digits. rewrite int_of_digit_string by exact Hds.
  reflexivity.
- intros [H ->]. apply andb_prop in H as [Hc Hd].
  destruct (split_at_first "_" s Hc) as [rest Hrest].
  assert (all_chars is_digit (split_head "_" s) = true) as Hall
    by (unfold isdigit in Hd; destruct (split_head "_" s); [discriminate | exact Hd]).
  destruct (digits_of_string _ Hall) as (ds & Hds & Hhead & Hlen).
  exists ds, rest. repeat split.
  + intros ->. rewrite Hhead in Hd. discriminate.
  + exact Hds.
  + rewrite <- Hhead. exact Hrest.
  + unfold int_of_digits. rewrite Hhead at 1. apply int_of_digit_string, Hds.
Qed.

Lemma order_id_names_user (user_id now : Z) :
  0 <= user_id -> names_user (make_order_id user_id now) user_id.
Proof.
intros Hu. exists (digits user_id), (str_of_int now). repeat split.
- apply digits_nonempty.
- apply digits_decimal, Hu.
- unfold make_order_id. rewrite str_of_int_nonneg by exact Hu. reflexivity.
- symmetry. apply digits_value, Hu.
Qed.

Lemma order_id_nonempty (user_id now : Z) :
  0 <= user_id -> String.eqb (make_order_id user_id now) "" = false.
Proof.
intros Hu. unfold make_order_id. rewrite str_of_int_nonneg by exact Hu.
pose proof (digits_nonempty user_id) as Hne.
destruct (digits user_id) as [|d ds]; [destruct Hne; reflexivity|]. reflexivity.
Qed.

Lemma order_id_resolves (user_id now : Z) (st : state) :
  0 <= user_id ->
  resolve_telegram_id (JStr (make_order_id user_id now)) st = (Next user_id, st, []).
Proof.
intros Hu. rewrite resolve_string.
destruct (proj1 (names_user_iff _ _) (order_id_names_user user_id now Hu)) as [-> <-].
reflexivity.
Qed.

(** ** Commas in a custom amount *)

Lemma replace_fuel_commas (fuel : nat) (s : string) :
  (String.length s < fuel)%nat ->
  all_chars (fun c => is_digit c || Ascii.eqb c ",") s = true ->
  replace_fuel fuel "," "" s = digit_string (typed_digits s).
Proof.
revert s. induction fuel as [|fuel IH]; intros s Hlen Hs; [lia|].
destruct s as [|c s]; [reflexivity|].
cbn [all_chars] in Hs. apply andb_prop in Hs as [Hc Hs].
cbn [String.length] in Hlen. cbn [replace_fuel strip_prefix typed_digits].
destruct (is_digit c) eqn:Hd.
- rewrite digit_not_comma by exact Hd.
  rewrite IH by (assumption || lia).
  unfold digit_string. cbn [List.map string_of_list_ascii].
  rewrite digit_char_val by exact Hd. reflexivity.
- cbn [orb] in Hc. rewrite Ascii.eqb_sym, Hc.
  change ("" +:+ ?x) with x. apply IH; [lia | exact Hs].
Qed.

Lemma typed_digits_decimal (s : string) : is_decimal (typed_digits s).
Proof.
induction s as [|c s IH]; [constructor|]. cbn [typed_digits].
destruct (is_digit c) eqn:Hd; [|exact IH].
constructor; [apply digit_val_range, Hd | exact IH].
Qed.

Lemma strip_typed (s : string) :
  all_chars (fun c => is_digit c || Ascii.eqb c ",") s = true -> strip s = s.
Proof.
intros Hs.
assert (all_chars (fun c => negb (is_space c)) s = true) as Hns.
{ induction s as [|c s IH]; [reflexivity|]. cbn [all_chars] in *.
  apply andb_prop in Hs as [Hc Hs]. rewrite (IH Hs), andb_true_r.
  destruct (is_digit c) eqn:Hd.
  - unfold is_digit, is_space in *. lia.
  - cbn [orb] in Hc. apply Ascii.eqb_eq in Hc. subst c. reflexivity. }
unfold strip.
assert (lstrip s = s) as ->.
{ destruct s as [|c s]; [reflexivity|]. cbn [all_chars lstrip] in *.
  apply andb_prop in Hns as [Hc _]. apply negb_true_iff in Hc. rewrite Hc. reflexivity. }
apply rstrip_nonspace, Hns.
Qed.

End Menus.

(* ===================================================================== *)
(** * The conversation, update after update *)
(* ===================================================================== *)

Module Talk.

Import PyStr PyFloat Json Oxapay Spec PyStrFacts Formats Menus.

(** Which state a handler is picked in. *)
Lemma select_state (s : conv_state) (u : update) (h : handler) :
  select s u = Some h ->
  match h with
  | Entry => True
  | PresetAmount | CustomAmountPrompt => s = _STATE_AMOUNT
  | ReceiveCustomAmount => s = _STATE_CUSTOM
  | CurrencySelected => s = _STATE_CURRENCY
  | BackToAmounts | Cancel => s <> END
  end.
Proof.
unfold select. cbn [entry_points first_match].
destruct (check_update (OnCallback (Whole "deposit_oxapay")) u); [intros [= <-]; exact I|].
destruct s; cbn [states fallbacks first_match];
  repeat match goal with
         | |- context [if ?c then _ else _] => destruct c
         end;
  intros [= <-]; try reflexivity; try discriminate.
Qed.

(** A callback query is taken by callback handlers only. *)
Lemma select_callback (s : conv_state) (data : string) (h : handler) :
  select s (CallbackQuery data) = Some h -> h <> ReceiveCustomAmount.
Proof.
unfold select. cbn [entry_points first_match check_update].
destruct (re_match _ data); [intros [= <-]; discriminate|].
destruct s; cbn [states fallbacks first_match check_update];
  repeat match goal with
         | |- context [if ?c then _ else _] => destruct c
         end;
  intros [= <-]; discriminate.
Qed.

Lemma omap_coin_buttons (b : bot) (coins : list string) :
  omap callback_data (List.map (coin_button b) coins)
  = List.map (fun c => "oxapay_cur_" +:+ c) coins.
Proof. induction coins as [|c coins IH]; [reflexivity|]. cbn. rewrite IH. reflexivity. Qed.

Lemma selector_callbacks cfg b user_id ud via :
  callbacks (List.map Ui (snd (_show_currency_selector cfg b user_id ud via)))
  = List.map (fun c => "oxapay_cur_" +:+ c) (offered cfg b) ++ ["oxapay_back_to_amounts"].
Proof.
rewrite selector_shown. cbn [snd].
destruct (button_rows_filled (List.map (coin_button b) (offered cfg b)) [])
  as [Hc _]; [cbn; lia|].
assert (button_callbacks
          (button_rows [] (List.map (coin_button b) (offered cfg b)) ++ [[back_button]])
        = List.map (fun c => "oxapay_cur_" +:+ c) (offered cfg b)
            ++ ["oxapay_back_to_amounts"]) as Hk.
{ unfold button_callbacks. rewrite concat_app, Hc. cbn [concat app].
  rewrite omap_app, omap_coin_buttons. reflexivity. }
destruct via; cbn [shown List.map callbacks flat_map callbacks_of];
  rewrite Hk, ?app_nil_r; reflexivity.
Qed.

Lemma answers_back (s : conv_state) : s <> END -> answers s "oxapay_back_to_amounts".
Proof.
destruct s; intros Hs; try (eexists; split; reflexivity). destruct Hs; reflexivity.
Qed.

Lemma entry_callbacks :
  List.map menu_callback (concat amount_keyboard)
  = ["oxapay_amt_10"; "oxapay_amt_15"; "oxapay_amt_20"; "oxapay_amt_50"; "oxapay_amt_100";
     "oxapay_amt_custom"; "back_to_deposit_menu"].
Proof. vm_compute. reflexivity. Qed.

Lemma answers_amount_menu (data : string) :
  In data (List.map menu_callback (concat amount_keyboard)) ->
  data = "back_to_deposit_menu" \/ answers _STATE_AMOUNT data.
Proof.
rewrite entry_callbacks. cbn [In].
intros [<- | [<- | [<- | [<- | [<- | [<- | [<- | []]]]]]]];
  try (right; eexists; split; vm_compute; reflexivity).
left. reflexivity.
Qed.

Lemma requests_ui (evs : list ui_event) : requests (List.map Ui evs) = http_posts evs.
Proof.
unfold requests, http_posts. induction evs as [|e evs IH]; [reflexivity|].
cbn [List.map List.filter is_request]. destruct e as [| | | |[]|]; cbn [List.length];
  rewrite ?IH; reflexivity.
Qed.

Lemma requests_selector cfg b user_id ud via :
  requests (List.map Ui (snd (_show_currency_selector cfg b user_id ud via))) = 0%nat.
Proof. rewrite selector_shown. destruct via; reflexivity. Qed.

(** Callback data that begin with [oxapay_cur_] are not those of the
    entry point. *)
Lemma currency_data_is_no_entry (data : string) :
  re_match (StartsWith "oxapay_cur_") data = true ->
  re_match (Whole "deposit_oxapay") data = false.
Proof.
destruct data as [|a data]; [discriminate|]. cbn [re_match strip_prefix].
destruct (Ascii.eqb "o" a) eqn:E; [|discriminate].
apply Ascii.eqb_eq in E. subst a. intros _. reflexivity.
Qed.

Lemma select_currency (data : string) :
  re_match (StartsWith "oxapay_cur_") data = true ->
  select _STATE_CURRENCY (CallbackQuery data) = Some CurrencySelected.
Proof.
intros H. unfold select. cbn [entry_points first_match check_update].
rewrite (currency_data_is_no_entry data H). cbn [states first_match check_update].
rewrite H. reflexivity.
Qed.

Lemma answers_coin (coin : string) : answers _STATE_CURRENCY ("oxapay_cur_" +:+ coin).
Proof.
assert (re_match (StartsWith "oxapay_cur_") ("oxapay_cur_" +:+ coin) = true) as H
  by (cbn [re_match]; rewrite strip_prefix_app; reflexivity).
exists CurrencySelected. split; [|apply select_currency, H].
cbn [states first_match check_update]. rewrite H. reflexivity.
Qed.

Lemma select_currency_inv (s : conv_state) (u : update) :
  select s u = Some CurrencySelected ->
  s = _STATE_CURRENCY
  /\ exists data, u = CallbackQuery data /\ re_match (StartsWith "oxapay_cur_") data = true.
Proof.
intros Hsel. pose proof (select_state s u _ Hsel) as Hs. cbn in Hs. subst s.
split; [reflexivity|]. revert Hsel. unfold select.
cbn [entry_points first_match].
destruct (check_update (OnCallback (Whole "deposit_oxapay")) u); [discriminate|].
cbn [states fallbacks first_match].
destruct u as [data|text|command|]; cbn [check_update].
- destruct (re_match (StartsWith "oxapay_cur_") data) eqn:E.
  + intros _. exists data. split; [reflexivity | exact E].
  + destruct (re_match (Whole "oxapay_back_to_amounts") data); [discriminate|].
    destruct (re_match (Whole "cancel") data); discriminate.
- discriminate.
- destruct (String.eqb "cancel" command); discriminate.
- discriminate.
Qed.

Lemma answers_selector cfg b user_id ud via (data : string) :
  In data (callbacks (List.map Ui (snd (_show_currency_selector cfg b user_id ud via)))) ->
  answers _STATE_CURRENCY data.
Proof.
rewrite selector_callbacks. intros H. apply in_app_or in H as [H | [<- | []]].
- apply in_map_iff in H as (coin & <- & _). apply answers_coin.
- apply answers_back. discriminate.
Qed.

Section Conversation.

Variable cfg : config.
Variable user_id : Z.

Lemma handle_in_step h u c ud s :
  in_step (s, ud) ->
  select s u = Some h ->
  in_step (fst (handle cfg user_id h u c ud)).
Proof.
intros Hinv Hsel. apply select_state in Hsel. destruct h; cbn [handle].
- unfold oxapay_entry. destruct (owner c); exact I.
- unfold oxapay_preset_amount. destruct (owner c); [|exact I]. cbn [negb].
  destruct (of_string _); [|exact I].
  unfold _show_currency_selector. cbn. eexists; reflexivity.
- unfold oxapay_custom_amount_prompt. destruct (owner c); [|exact I]. reflexivity.
- unfold oxapay_back_to_amounts, oxapay_entry. destruct (owner c); exact I.
- subst s. unfold with_ui, oxapay_receive_custom_amount.
  destruct (parse_custom_amount cfg (text_of u)).
  + unfold _show_currency_selector. cbn. eexists; reflexivity.
  + exact Hinv.
- subst s. unfold with_ui, oxapay_currency_selected.
  destruct (owner c); [|exact I]. cbn [negb].
  destruct (negb (mem _ _)); [exact Hinv|].
  destruct (create_invoice _ _ _ _ _ _) as [[[| | | | | |d]|] http]; try exact I.
  destruct (negb (truthy (pay_link_of d))); exact I.
- exact I.
Qed.

Lemma step_in_step conv x :
  in_step conv -> in_step (fst (step cfg user_id conv x)).
Proof.
intros Hinv. unfold step. destruct conv as [s ud]. destruct x as [u c]. cbn [fst snd].
destruct u as [data|text|command|]; try exact I;
  (destruct (select s _) as [h|] eqn:Hsel;
   [apply (handle_in_step h _ c ud s Hinv Hsel) | exact Hinv]).
Qed.

Lemma converse_in_step xs conv :
  in_step conv -> in_step (fst (converse cfg user_id conv xs)).
Proof.
revert conv. induction xs as [|x xs IH]; intros conv Hinv.
- destruct conv. exact Hinv.
- cbn [converse]. pose proof (step_in_step conv x Hinv) as Hstep.
  destruct (step cfg user_id conv x) as [[s ud] evs]. cbn [fst] in Hstep.
  specialize (IH (s, ud) Hstep).
  destruct (converse cfg user_id (s, ud) xs) as [[s' ud'] evs']. exact IH.
Qed.

(** The buttons a handler shows are taken in the state it returns. *)
Lemma handle_live h u c ud (data : string) :
  let out := handle cfg user_id h u c ud in
  fst (fst out) <> END ->
  In data (callbacks (snd out)) ->
  data = "back_to_deposit_menu" \/ answers (fst (fst out)) data.
Proof.
cbv zeta. destruct h; cbn [handle].
- unfold oxapay_entry. destruct (owner c); cbn [negb not_for_you fst snd].
  + intros _. cbn [callbacks flat_map callbacks_of app]. rewrite app_nil_r.
    apply answers_amount_menu.
  + intros H. destruct H. reflexivity.
- unfold oxapay_preset_amount. destruct (owner c); cbn [negb not_for_you fst snd].
  + destruct (of_string _) as [a|]; cbn [fst snd].
    * pose proof (answers_selector cfg (bot_data c) user_id
                    (UserData (Some a) (oxapay_awaiting_custom ud)
                              (oxapay_last_order ud) (oxapay_last_coin ud)) false data) as Hsel.
      rewrite selector_shown in *. cbn [fst snd] in *.
      intros _ Hin. right. apply Hsel. exact Hin.
    * intros _ [].
  + intros H. destruct H. reflexivity.
- unfold oxapay_custom_amount_prompt. destruct (owner c); cbn [negb not_for_you fst snd].
  + intros _ [<- | []]. right. apply answers_back. discriminate.
  + intros H. destruct H. reflexivity.
- unfold oxapay_back_to_amounts, oxapay_entry.
  destruct (owner c); cbn [negb not_for_you fst snd].
  + intros _. cbn [callbacks flat_map callbacks_of app]. rewrite app_nil_r.
    apply answers_amount_menu.
  + intros H. destruct H. reflexivity.
- unfold with_ui, oxapay_receive_custom_amount.
  destruct (parse_custom_amount cfg (text_of u)) as [a|]; cbn [fst snd].
  + pose proof (answers_selector cfg (bot_data c) user_id
                  (UserData (Some a) None (oxapay_last_order ud) (oxapay_last_coin ud))
                  true data) as Hsel.
    rewrite selector_shown in *. cbn [fst snd] in *.
    intros _ Hin. right. apply Hsel. exact Hin.
  + intros _ [<- | []]. right. apply answers_back. discriminate.
- unfold with_ui, oxapay_currency_selected.
  destruct (owner c); cbn [negb fst snd]; [|intros H; destruct H; reflexivity].
  destruct (negb (mem _ _)); cbn [fst snd]; [intros _ []|].
  destruct (create_invoice _ _ _ _ _ _) as [[[| | | | | |d]|] http]; cbn [fst snd];
    try (intros H; destruct H; reflexivity).
  destruct (negb (truthy (pay_link_of d))); cbn [fst snd];
    intros H; destruct H; reflexivity.
- intros H. destruct H. reflexivity.
Qed.

(** How many requests a handler sends. *)
Lemma handle_requests h u c ud :
  requests (snd (handle cfg user_id h u c ud))
  = match h with
    | CurrencySelected =>
        if owner c
           && mem (upper (replace "oxapay_cur_" "" (data_of u)))
                  (OXAPAY_SUPPORTED_CURRENCIES cfg)
        then 1%nat else 0%nat
    | _ => 0%nat
    end.
Proof.
destruct h; cbn [handle].
- unfold oxapay_entry. destruct (owner c); reflexivity.
- unfold oxapay_preset_amount. destruct (owner c); [|reflexivity]. cbn [negb].
  destruct (of_string _) as [a|]; [|reflexivity].
  pose proof (requests_selector cfg (bot_data c) user_id
                (UserData (Some a) (oxapay_awaiting_custom ud)
                          (oxapay_last_order ud) (oxapay_last_coin ud)) false) as H.
  rewrite selector_shown in *. exact H.
- unfold oxapay_custom_amount_prompt. destruct (owner c); reflexivity.
- unfold oxapay_back_to_amounts, oxapay_entry. destruct (owner c); reflexivity.
- unfold with_ui, oxapay_receive_custom_amount.
  destruct (parse_custom_amount cfg (text_of u)) as [a|]; [|reflexivity].
  pose proof (requests_selector cfg (bot_data c) user_id
                (UserData (Some a) None (oxapay_last_order ud) (oxapay_last_coin ud))
                true) as H.
  rewrite selector_shown in *. exact H.
- unfold with_ui. cbn [snd]. rewrite requests_ui.
  destruct (owner c) eqn:Ho; cbn [andb].
  + destruct (mem _ _) eqn:Hm.
    * destruct (currency_selected_request cfg (bot_data c) (net c) (data_of u) user_id
                  (now c) ud Hm) as (_ & rest & Hev & Hrest).
      rewrite Hev. change (S (http_posts rest) = 1%nat). rewrite Hrest. reflexivity.
    * unfold oxapay_currency_selected. cbn [negb]. rewrite Hm. reflexivity.
  + unfold oxapay_currency_selected. reflexivity.
- unfold oxapay_cancel. destruct (has_message u); reflexivity.
Qed.

End Conversation.

End Talk.

(* ===================================================================== *)
(** * The server: messages *)
(* ===================================================================== *)

Module Messages.

Import Json Oxapay Spec Effects Delivery Deliveries Handler Outcomes.

Lemma marks_bind_r {A B} (m : M A) (k : A -> M B) :
  (forall a, marks (k a)) -> marks (bind m k).
Proof.
intros Hk st. rewrite bind_unfold.
destruct (result_of (m st)) as [a| |e]; cbn [result_of events_of fst snd];
  try discriminate.
intros Hgo. destruct (Hk a _ Hgo) as [key Hin]. exists key.
apply in_or_app. right. exact Hin.
Qed.

Lemma marks_bind_l {A B} (m : M A) (k : A -> M B) : marks m -> marks (bind m k).
Proof.
intros Hm st. rewrite bind_unfold. specialize (Hm st).
destruct (result_of (m st)) as [a| |e]; cbn [result_of events_of fst snd];
  try discriminate.
intros _. destruct (Hm eq_refl) as [key Hin]. exists key.
apply in_or_app. left. exact Hin.
Qed.

Lemma marks_duplicate_guard p : marks (duplicate_guard p).
Proof.
intros st. unfold duplicate_guard. cbv zeta.
destruct (hash_key (dedup_key_of p)) as [key|]; cbn [lift]; [|discriminate].
rewrite bind_pure, bind_read.
destruct (bool_decide (key ∈ _processed_orders st)); [discriminate|].
intros _. exists key. left. reflexivity.
Qed.

Lemma sends_app k h1 h2 : sends k (h1 ++ h2) = (sends k h1 + sends k h2)%nat.
Proof. unfold sends. rewrite List.filter_app, List.length_app. reflexivity. Qed.

Lemma sends_none k i req evs :
  count is_send evs = 0%nat -> sends k (tag i req evs) = 0%nat.
Proof.
intros H. unfold sends. rewrite filter_tag. unfold sends_key. cbn [fst snd].
unfold count in H. induction evs as [|e evs IH]; [reflexivity|].
cbn [List.filter] in *. destruct (is_send e); cbn [andb List.length] in *; [discriminate|].
apply IH, H.
Qed.

Lemma adds_none k i req evs :
  count is_add evs = 0%nat -> adds k (tag i req evs) = 0%nat.
Proof.
intros H. unfold adds. rewrite filter_tag. unfold adds_key. cbn [fst snd].
unfold count in H. induction evs as [|e evs IH]; [reflexivity|].
cbn [List.filter] in *. destruct e; cbn [is_add List.length] in *;
  try (apply IH, H). discriminate.
Qed.

Lemma waiting_app k ts1 ts2 : waiting k (ts1 ++ ts2) = (waiting k ts1 + waiting k ts2)%nat.
Proof. unfold waiting. rewrite List.filter_app, List.length_app. reflexivity. Qed.

(** Replacing one task by another. *)
Lemma waiting_insert k (ts : list task) (i : nat) (old new : task) :
  ts !! i = Some old ->
  (waiting k (<[i := new]> ts) + (if waits k old then 1 else 0)
   = waiting k ts + (if waits k new then 1 else 0))%nat.
Proof.
revert i. induction ts as [|t ts IH]; intros i Hi; [discriminate|].
destruct i as [|i].
- injection Hi as ->. unfold waiting.
  change (<[0%nat := new]> (old :: ts)) with (new :: ts). cbn [List.filter].
  destruct (waits k new), (waits k old); cbn [List.length]; lia.
- cbn in Hi. specialize (IH i Hi). unfold waiting in *.
  change (<[S i := new]> (t :: ts)) with (t :: <[i := new]> ts). cbn [List.filter].
  destruct (waits k t); cbn [List.length]; lia.
Qed.

Section Run.

Context {api : BotApi}.
Variable cfg : config.

Lemma marks_before_send req : marks (before_send cfg req).
Proof.
unfold before_send.
apply marks_bind_r. intros data.
apply marks_bind_r. intros _.
apply marks_bind_r. intros _.
apply marks_bind_r. intros _.
apply marks_bind_r. intros p.
apply marks_bind_l, marks_duplicate_guard.
Qed.

(** A delivery that gets to the message has recorded its key. *)
Lemma before_send_next_recorded req st n st' evs :
  guarded (before_send cfg req) st = (Some n, st', evs) ->
  exists k, delivery_key req = Some k /\ recorded k st st' evs.
Proof.
intros Hrun.
pose proof (guarded_before_send_shape cfg req st _ _ _ Hrun) as Hshape.
pose proof (marks_before_send req st) as Hmarks.
unfold guarded in Hrun.
destruct (before_send cfg req st) as [[[a| |e] s1] e1] eqn:Hb;
  cbn [result_of events_of fst snd] in *; try discriminate.
injection Hrun as <- <- <-.
destruct Hshape as [[_ Hlogs] | (k & Hk & Hrec)]; [|exists k; split; assumption].
destruct (Hmarks eq_refl) as [key Hin].
pose proof (forallb_in _ _ _ Hlogs Hin) as Habs. discriminate Habs.
Qed.

Lemma send_notification_run n delivered st :
  guarded (send_notification n delivered) st
  = (Some tt, st,
     match n with
     | Some n' =>
         SendMessage n' delivered
           :: (if delivered then [] else [Log ERROR (NotifyFailed (chat_id n'))])
     | None => []
     end).
Proof. destruct n as [n'|]; [destruct delivered|]; reflexivity. Qed.

Lemma exec_covered srv a : covered srv -> covered (exec cfg srv a).
Proof.
intros Hcov. destruct a as [req | i delivered | f]; cbn [exec].
- intros k. cbn [history tasks]. rewrite waiting_app. specialize (Hcov k).
  unfold waiting at 2. cbn. lia.
- unfold resume. destruct (tasks srv !! i) as [[req [|n|]]|] eqn:Hi; try exact Hcov.
  + destruct (guarded (before_send cfg req) (shared srv)) as [[r st'] evs] eqn:Hrun.
    intros k. cbn [history tasks]. specialize (Hcov k).
    rewrite sends_app, adds_app.
    pose proof (guarded_before_send_shape cfg req _ _ _ _ Hrun) as Hshape.
    destruct (shape_counts _ _ _ _ Hshape) as (_ & _ & Hsend).
    rewrite (sends_none k i req evs Hsend).
    pose proof (waiting_insert k (tasks srv) i (Task req Reading)
                  (Task req match r with Some n => Sending n | None => Done end) Hi) as Hw.
    cbn [waits at_stage request] in Hw.
    destruct r as [[n|]|]; cbn [waits at_stage request] in Hw; try lia.
    destruct (before_send_next_recorded req _ _ _ _ Hrun)
      as (k0 & Hk0 & _ & _ & _ & pre & post & -> & Hpre & Hpost & _).
    rewrite (adds_recorded k k0 i req pre post Hpre Hpost).
    rewrite Hk0 in Hw.
    destruct (decide (k0 = k)) as [->|Hne].
    * rewrite !bool_decide_eq_true_2 in * by reflexivity. lia.
    * rewrite (bool_decide_eq_false_2 (Some k0 = Some k)) in Hw by congruence.
      lia.
  + rewrite send_notification_run. intros k. cbn [history tasks]. specialize (Hcov k).
    rewrite sends_app, adds_app.
    pose proof (waiting_insert k (tasks srv) i (Task req (Sending n)) (Task req Done) Hi)
      as Hw.
    cbn [waits at_stage request] in Hw.
    destruct n as [n'|].
    * rewrite adds_none by (destruct delivered; reflexivity).
      assert (sends k (tag i req (SendMessage n' delivered
                :: (if delivered then [] else [Log ERROR (NotifyFailed (chat_id n'))])))
              = if bool_decide (delivery_key req = Some k) then 1%nat else 0%nat) as ->.
      { unfold sends, sends_key. destruct delivered; cbn;
          destruct (bool_decide (delivery_key req = Some k)); reflexivity. }
      destruct (bool_decide (delivery_key req = Some k)); lia.
    * cbn. rewrite !Nat.add_0_r. lia.
- exact Hcov.
Qed.

Lemma run_covered b schedule : covered (run cfg b schedule).
Proof.
unfold run. assert (covered (started b)) as Hstart by (intros k; cbn; lia).
revert Hstart. generalize (started b) as srv.
induction schedule as [|a schedule IH]; intros srv Hsrv; [exact Hsrv|].
cbn [fold_left]. apply IH, exec_covered, Hsrv.
Qed.

End Run.

End Messages.

(* ===================================================================== *)
(** * The webhook: idempotence, authenticity, status *)
(* ===================================================================== *)

Module Webhook.

Import Json Oxapay Spec Effects Delivery Deliveries Handler.

(** C1.  For every sequence of webhook deliveries, resumed in any order
    and any number of times, and for every dedup key [k]: at most one
    wallet credit is made for the deliveries that carry [k]; [k] is put
    into [_processed_orders] at most once; and every credit comes after
    the recording of the key of its own delivery. *)
Theorem one_credit_per_dedup_key {api : BotApi} (cfg : config) (b : bot)
    (schedule : list action) (k : pykey) :
  let h := history (run cfg b schedule) in
  (credits k h <= 1)%nat /\ (adds k h <= 1)%nat /\ keyed_before h.
Proof.
cbv zeta. unfold run.
destruct (fold_exec_inv cfg schedule (started b) (started_inv b)) as [Hcount Hord].
destruct (Hcount k) as (H1 & H2 & _).
repeat split; [lia | lia | exact Hord].
Qed.

(** C2, counterexample: the scenario payment with ["hmac": ""].  The empty
    string is not the digest, yet the payment is credited. *)
Lemma empty_signature_is_credited : ~ present_invalid_signature_is_dropped.
Proof.
intros H.
specialize (H Reference.api shipped (Reference.payment_with "paid" [("hmac", JStr "")])
              (JStr "") true (Reference.fresh Reference.bot_with_user) eq_refl).
assert (forall s, result_of
                    (_verify_signature shipped
                       (dumps (JObj (without "hmac"
                                 (Reference.payment_with "paid" [("hmac", JStr "")]))))
                       (JStr "") s) <> Next true) as Hbad
    by (intros s; vm_compute; discriminate).
destruct (H Hbad) as [Hcredit _]. vm_compute in Hcredit. discriminate Hcredit.
Qed.

(** C2, amended.  For every delivery whose [hmac] field is truthy (a
    non-empty signature) and is anything but the string of the
    hexadecimal HMAC-SHA256 of the payload without that field, keyed by
    the merchant key, the handler answers [200 ok], leaves the
    processed-order set and all other state as they were, and only logs:
    no credit, no key. *)
Theorem invalid_signature_is_dropped {api : BotApi} (cfg : config) (d : dict)
    (delivered : bool) (st : state) :
  truthy (get_default d "hmac" (JStr "")) = true ->
  get_default d "hmac" (JStr "")
  <> JStr (Sha256.hmac_hexdigest
             (Sha256.bytes_of_string (OXAPAY_MERCHANT_KEY cfg))
             (Sha256.bytes_of_string (dumps (JObj (without "hmac" d))))) ->
  let out := _oxapay_webhook cfg (Some (JObj d)) delivered st in
  ignored st out
  /\ count is_credit (snd out) = 0%nat
  /\ count is_add (snd out) = 0%nat
  /\ _processed_orders (snd (fst out)) = _processed_orders st.
Proof.
intros Ht Hother. cbv zeta.
assert (ignored st (_oxapay_webhook cfg (Some (JObj d)) delivered st)) as Hig.
{ apply webhook_ignored_when_dropped, before_send_drops_at_signature.
  apply signature_check_drops_other; assumption. }
destruct (ignored_no_effect _ _ Hig) as (Hc & Ha & _).
destruct Hig as (Hok & Hst & Hlogs).
repeat split; try assumption. rewrite Hst. reflexivity.
Qed.

Lemma invalid_signature_is_dropped_witness :
  let d := Reference.payment_with "paid" [("hmac", JStr "00")] in
  let st := Reference.fresh Reference.bot_with_user in
  let out := _oxapay_webhook (api := Reference.api) shipped (Some (JObj d)) true st in
  ignored st out
  /\ count is_credit (snd out) = 0%nat
  /\ count is_add (snd out) = 0%nat
  /\ _processed_orders (snd (fst out)) = _processed_orders st.
Proof.
apply (invalid_signature_is_dropped (api := Reference.api) shipped
         (Reference.payment_with "paid" [("hmac", JStr "00")]) true
         (Reference.fresh Reference.bot_with_user)).
- reflexivity.
- intros E. vm_compute in E. discriminate E.
Defined.

(** C4, counterexample: the scenario payment with the status [PAID]. *)
Lemma upper_case_status_is_credited : ~ status_outside_the_set_is_ignored.
Proof.
intros H.
specialize (H Reference.api shipped (Reference.payment_with "PAID" []) "PAID" true
              (Reference.fresh Reference.bot_with_user) eq_refl).
assert (~ In "PAID" accepted_statuses) as Hout
    by (intros [E | [E | [E | []]]]; discriminate E).
specialize (H Hout). vm_compute in H. discriminate H.
Qed.

(** C4, amended.  For every delivery whose status is not a string that,
    put in lower case, is one of [paid], [confirmed], [completed], the
    handler answers [200 ok], changes nothing and only logs: no credit
    occurs.  (The comparison ignores case: [PAID] is accepted.) *)
Theorem unaccepted_status_is_ignored {api : BotApi} (cfg : config) (d : dict)
    (delivered : bool) (st : state) :
  ~ status_accepted d ->
  let out := _oxapay_webhook cfg (Some (JObj d)) delivered st in
  ignored st out /\ count is_credit (snd out) = 0%nat.
Proof.
intros Hno. cbv zeta.
assert (ignored st (_oxapay_webhook cfg (Some (JObj d)) delivered st)) as Hig.
{ apply webhook_ignored_when_dropped, before_send_drops_at_status.
  apply confirmed_status_drops, Hno. }
destruct (ignored_no_effect _ _ Hig) as (Hc & _ & _). split; assumption.
Qed.

Lemma unaccepted_status_is_ignored_witness :
  let st := Reference.fresh Reference.bot_with_user in
  let out := _oxapay_webhook (api := Reference.api) shipped
               (Some (JObj (Reference.payment_with "waiting" []))) true st in
  ignored st out /\ count is_credit (snd out) = 0%nat.
Proof.
apply (unaccepted_status_is_ignored (api := Reference.api) shipped
         (Reference.payment_with "waiting" []) true
         (Reference.fresh Reference.bot_with_user)).
intros (s & Hs & Hin). injection Hs as <-.
destruct Hin as [E | [E | [E | []]]]; discriminate E.
Defined.

(** C8.  For every payload whose [hmac] field is present and is the empty
    string, the signature check lets the delivery through without
    verifying anything, and the handler does, answers and records exactly
    what it does for the same payload without the field (the one
    difference is the payload echoed in the first log line): the event
    goes on to the status check and to crediting, unauthenticated. *)
Theorem empty_hmac_is_not_verified {api : BotApi} (cfg : config) (d : dict)
    (delivered : bool) (st : state) :
  get d "hmac" = Some (JStr "") ->
  signature_check cfg (JObj d) st = (Next tt, st, [])
  /\ exists st' evs,
      _oxapay_webhook cfg (Some (JObj d)) delivered st
      = (ok, st', Log INFO (WebhookReceived (JObj d)) :: evs)
      /\ _oxapay_webhook cfg (Some (JObj (without "hmac" d))) delivered st
         = (ok, st', Log INFO (WebhookReceived (JObj (without "hmac" d))) :: evs).
Proof.
intros Hget.
assert (signature_check cfg (JObj d) st = (Next tt, st, [])) as Hsig.
{ apply signature_check_skipped. unfold get_default. rewrite Hget. reflexivity. }
assert (signature_check cfg (JObj (without "hmac" d)) st = (Next tt, st, [])) as Hsig'.
{ apply signature_check_skipped. unfold get_default.
  rewrite get_hmac_without. reflexivity. }
split; [exact Hsig|].
rewrite !webhook_decompose.
rewrite (before_send_past_signature cfg d st Hsig).
rewrite (before_send_past_signature cfg (without "hmac" d) st Hsig').
cbv zeta. rewrite confirmed_status_without, payment_fields_without.
unfold state_of at 1 3, events_of at 1 3, result_of at 1 3. cbn [fst snd].
eexists _, _. split; reflexivity.
Qed.

Lemma empty_hmac_is_not_verified_witness :
  let d := Reference.payment_with "paid" [("hmac", JStr "")] in
  let st := Reference.fresh Reference.bot_with_user in
  signature_check shipped (JObj d) st = (Next tt, st, [])
  /\ exists st' evs,
      _oxapay_webhook (api := Reference.api) shipped (Some (JObj d)) true st
      = (ok, st', Log INFO (WebhookReceived (JObj d)) :: evs)
      /\ _oxapay_webhook (api := Reference.api) shipped
           (Some (JObj (without "hmac" d))) true st
         = (ok, st', Log INFO (WebhookReceived (JObj (without "hmac" d))) :: evs).
Proof.
apply (empty_hmac_is_not_verified (api := Reference.api) shipped
         (Reference.payment_with "paid" [("hmac", JStr "")]) true
         (Reference.fresh Reference.bot_with_user)).
reflexivity.
Defined.

(** C9.  For every payload with neither a [payAmount] nor a [pay_amount]
    field (or with [null] there), the pay amount the handler works with
    is the [float] of the [amount] field; and when the delivery passes
    the gates of the handler, the wallet is credited, once, with that
    many units of the paid currency. *)
Theorem missing_pay_amount_is_the_usd_amount {api : BotApi} (cfg : config) (d : dict) :
  is_none (get_default d "payAmount" JNull) = true ->
  is_none (get_default d "pay_amount" JNull) = true ->
  (forall st p st' evs,
      payment_fields (JObj d) st = (Next p, st', evs) ->
      pay_amount p = amount_usd p
      /\ py_float (get_default d "amount" (JInt 0)) st = (Next (amount_usd p), st, []))
  /\ (forall st p k u delivered,
        status_accepted d ->
        passes cfg d st p k u ->
        let out := _oxapay_webhook cfg (Some (JObj d)) delivered st in
        In (CreditWallet u (amount_usd p) (paid_coin p)) (snd out)
        /\ count is_credit (snd out) = 1%nat).
Proof.
intros H1 H2. split.
- intros st p st' evs Hp.
  apply payment_fields_inv in Hp as (_ & _ & _ & _ & Hamt & _ & Hpay).
  split; [apply Hpay; assumption | exact Hamt].
- intros st p k u delivered Hstatus Hpass. cbv zeta.
  destruct (webhook_credits cfg d st p k u delivered Hstatus Hpass) as (Hin & Hone & _).
  destruct Hpass as [_ Hp _ _ _ _ _].
  apply payment_fields_inv in Hp as (_ & _ & _ & _ & _ & _ & Hpay).
  rewrite (Hpay H1 H2) in Hin. split; assumption.
Qed.

(** The sample deliveries pass the gates for a bot that knows the user. *)
Lemma sample_passes (d : dict) (p : payment) :
  (d = Reference.paid_in_usd /\ p = Reference.fields_paid_in_usd)
  \/ (exists s, d = Reference.payment_with s [] /\ p = Reference.fields_paid) ->
  passes (api := Reference.api) shipped d (Reference.fresh Reference.bot_with_user)
         p (KStr Reference.order) 12345.
Proof.
intros [[-> ->] | (s & -> & ->)].
- split.
  + vm_compute. reflexivity.
  + vm_compute. reflexivity.
  + reflexivity.
  + apply not_elem_of_empty.
  + reflexivity.
  + intros s. vm_compute. reflexivity.
  + exists ∅. vm_compute. reflexivity.
- split.
  + apply signature_check_skipped. reflexivity.
  + unfold payment_fields, Reference.payment_with. cbn [py_get app].
    rewrite !bind_pure. vm_compute. reflexivity.
  + reflexivity.
  + apply not_elem_of_empty.
  + reflexivity.
  + intros s'. vm_compute. reflexivity.
  + exists ∅. vm_compute. reflexivity.
Qed.

Lemma missing_pay_amount_is_the_usd_amount_witness :
  let out := _oxapay_webhook (api := Reference.api) shipped
               (Some (JObj Reference.paid_in_usd)) true
               (Reference.fresh Reference.bot_with_user) in
  In (CreditWallet 12345 Reference.fifty "USDT") (snd out)
  /\ count is_credit (snd out) = 1%nat.
Proof.
destruct (missing_pay_amount_is_the_usd_amount (api := Reference.api) shipped
            Reference.paid_in_usd eq_refl eq_refl) as [_ H].
apply (H (Reference.fresh Reference.bot_with_user) Reference.fields_paid_in_usd
         (KStr Reference.order) 12345 true).
- exists "paid". split; [reflexivity | left; reflexivity].
- apply sample_passes. left. split; reflexivity.
Defined.

(** C10.  The status is matched without regard to case: for every payload
    whose status, put in lower case, is [paid], [confirmed] or
    [completed], the status check lets the delivery through, and when the
    delivery passes the other gates of the handler the wallet is
    credited, once, with the paid amount. *)
Theorem status_match_ignores_case {api : BotApi} (cfg : config) (d : dict) (s : string) :
  get_default d "status" (JStr "") = JStr s ->
  In (PyStr.lower s) accepted_statuses ->
  (forall st, confirmed_status (JObj d) st = (Next tt, st, []))
  /\ (forall st p k u delivered,
        passes cfg d st p k u ->
        let out := _oxapay_webhook cfg (Some (JObj d)) delivered st in
        In (CreditWallet u (pay_amount p) (paid_coin p)) (snd out)
        /\ count is_credit (snd out) = 1%nat).
Proof.
intros Hs Hin.
assert (status_accepted d) as Hstatus by (exists s; split; assumption).
split.
- intros st. apply confirmed_status_passes, Hstatus.
- intros st p k u delivered Hpass. cbv zeta.
  destruct (webhook_credits cfg d st p k u delivered Hstatus Hpass) as (H1 & H2 & _).
  split; assumption.
Qed.

Lemma status_match_ignores_case_witness :
  let out := _oxapay_webhook (api := Reference.api) shipped
               (Some (JObj (Reference.payment_with "Confirmed" []))) true
               (Reference.fresh Reference.bot_with_user) in
  In (CreditWallet 12345 Reference.milli "BTC") (snd out)
  /\ count is_credit (snd out) = 1%nat.
Proof.
destruct (status_match_ignores_case (api := Reference.api) shipped
            (Reference.payment_with "Confirmed" []) "Confirmed" eq_refl
            (or_intror (or_introl eq_refl))) as [_ H].
apply (H (Reference.fresh Reference.bot_with_user) Reference.fields_paid
         (KStr Reference.order) 12345 true).
apply sample_passes. right. exists "Confirmed". split; reflexivity.
Defined.

(** C3 (the code departs from the claim).  The scenario payment for a
    user without any wallet record: the handler logs that the deposit is
    not credited, credits nothing, and then sends the user the message
    that the balance has been credited. *)
Theorem unknown_user_is_notified :
  snd (_oxapay_webhook (api := Reference.api) shipped (Some (JObj Reference.paid)) true
         (Reference.fresh Reference.bot_without_user))
  = [ Log INFO (WebhookReceived (JObj Reference.paid));
      ProcessedAdd (KStr Reference.order);
      LoadUserData 12345;
      Log WARNING (UserNotFound 12345);
      SendMessage (Notification 12345 "" Reference.milli "BTC" PrimFloat.zero) true ].
Proof. vm_compute. reflexivity. Qed.

(** X1.  Rejections that the code handles as C3 says (lines 275-284).  When
    the pay amount is not positive, or when the order reference names no
    Telegram user, the handler credits nothing and sends no message: all
    it does is log and, for a new key, record the key. *)
Theorem rejected_payment_is_dropped_silently {api : BotApi} (cfg : config) (d : dict)
    (delivered : bool) (st : state) :
  (forall p st' evs, payment_fields (JObj d) st = (Next p, st', evs) -> rejected p) ->
  let out := _oxapay_webhook cfg (Some (JObj d)) delivered st in
  fst (fst out) = ok
  /\ forallb log_or_add (snd out) = true
  /\ count is_credit (snd out) = 0%nat
  /\ count is_send (snd out) = 0%nat.
Proof.
intros Hrej. cbv zeta. rewrite webhook_decompose. cbn [fst snd].
destruct (before_send_rejected cfg d st Hrej) as [Hgo Hev].
assert (forallb log_or_add
          (events_of (before_send cfg (Some (JObj d)) st)
             ++ after_send (result_of (before_send cfg (Some (JObj d)) st)) delivered)
        = true) as Hall.
{ rewrite forallb_app, Hev.
  destruct (result_of (before_send cfg (Some (JObj d)) st)) as [n| |e];
    [discriminate Hgo | reflexivity | reflexivity]. }
split; [reflexivity|]. split; [exact Hall|].
split; apply count_none; rewrite forallb_forall in *; intros e He;
  specialize (Hall e He); destruct e; try discriminate; reflexivity.
Qed.

Lemma rejected_payment_is_dropped_silently_witness :
  let d := [("status", JStr "paid"); ("orderId", JStr "not-an-order");
            ("payAmount", JInt 1)] in
  let out := _oxapay_webhook (api := Reference.api) shipped (Some (JObj d)) true
               (Reference.fresh Reference.bot_with_user) in
  fst (fst out) = ok
  /\ forallb log_or_add (snd out) = true
  /\ count is_credit (snd out) = 0%nat
  /\ count is_send (snd out) = 0%nat.
Proof.
apply (rejected_payment_is_dropped_silently (api := Reference.api) shipped
         [("status", JStr "paid"); ("orderId", JStr "not-an-order");
          ("payAmount", JInt 1)] true (Reference.fresh Reference.bot_with_user)).
intros p st' evs Hp. right. intros s.
apply payment_fields_inv in Hp as (_ & _ & Ho & _). rewrite Ho. reflexivity.
Defined.

End Webhook.

(* ===================================================================== *)
(** * The deposit conversation and the invoice client *)
(* ===================================================================== *)

Module Flow.

Import Json Oxapay Spec PyStrFacts Effects Delivery.

Lemma last_app_singleton {A} (l : list A) (x dflt : A) : List.last (l ++ [x]) dflt = x.
Proof. apply List.last_last. Qed.

Lemma last_app_two {A} (l : list A) (x y dflt : A) : List.last (l ++ [x; y]) dflt = y.
Proof.
change (l ++ [x; y]) with (l ++ [x] ++ [y]). rewrite app_assoc. apply List.last_last.
Qed.

Lemma http_posts_app l1 l2 : http_posts (l1 ++ l2) = (http_posts l1 + http_posts l2)%nat.
Proof. unfold http_posts. rewrite List.filter_app, List.length_app. reflexivity. Qed.

Lemma http_posts_map (evs : list client_event) : http_posts (List.map Http evs) = posts evs.
Proof.
unfold http_posts, posts. induction evs as [|e evs IH]; [reflexivity|].
cbn [List.map List.filter is_post]. destruct e; cbn; rewrite ?IH; reflexivity.
Qed.

(** The client posts the request once, whatever comes back, and returns
    the response only for HTTP 200 with the result code 100. *)
Lemma create_invoice_once self net amount_usd currency order_id description :
  posts (snd (create_invoice self net amount_usd currency order_id description)) = 1%nat.
Proof.
unfold create_invoice.
destruct (net _) as [| | |status [[| | | | | |d]|]|status []]; try reflexivity;
  destruct (negb (status =? 200)); try reflexivity.
destruct (eq_int _ 100); reflexivity.
Qed.

Lemma create_invoice_result self net amount_usd currency order_id description data :
  fst (create_invoice self net amount_usd currency order_id description) = Some data
  <-> exists d,
      data = JObj d
      /\ net (InvoicePayload (merchant_key self) (PyFloat.round2 amount_usd) currency
                             order_id (callback_url self) description)
         = Responded 200 (Some (JObj d))
      /\ eq_int (get_default d "result" JNull) 100 = true.
Proof.
unfold create_invoice.
destruct (net _) as [| | |status body|status failure] eqn:Hnet; cbn [fst];
  try (split; [discriminate | intros (d' & _ & H & _); discriminate H]).
2:{ destruct (negb (status =? 200)); [|destruct failure]; cbn [fst];
    (split; [discriminate | intros (d' & _ & H & _); discriminate H]). }
destruct (status =? 200) eqn:Hs; cbn [negb fst].
- apply Z.eqb_eq in Hs. subst status.
  destruct body as [[| | | | | |d]|]; cbn [fst];
    try (split; [discriminate | intros (d' & _ & H & _); discriminate H]).
  destruct (eq_int (get_default d "result" JNull) 100) eqn:Hr; cbn [fst].
  + split.
    * intros [= <-]. exists d. auto.
    * intros (d' & -> & [= <-] & _). reflexivity.
  + split; [discriminate|]. intros (d' & _ & [= <-] & H). congruence.
- split; [discriminate|]. intros (d' & _ & [= -> _] & _). discriminate Hs.
Qed.

Lemma invoice_ok_inv outcome link :
  invoice_ok outcome link ->
  exists d, outcome = Responded 200 (Some (JObj d))
            /\ eq_int (get_default d "result" JNull) 100 = true
            /\ link = pay_link_of d /\ truthy (pay_link_of d) = true.
Proof. intros (d & H1 & H2 & -> & H4). exists d. auto. Qed.

(** C5.  The client posts the invoice request exactly once, whatever the
    outcome, and returns the response only for HTTP 200 with the result
    code 100.  In the currency step, for a supported coin: the flow ends;
    one request went out; when the outcome is HTTP 200 with the result
    code 100 and a payment link under [payLink], [payUrl] or [link], the
    invoice is shown with that link and the order is stored; in every
    other case (time-out, network error, any other exception, another
    status, another result code, no link) a failure message is shown and
    the session data stay as they were. *)
Theorem invoice_needs_200_result_and_link (cfg : config) (b : bot)
    (outcome : http_outcome) (data : string) (user_id now : Z) (ud : user_data) :
  mem (PyStr.upper (PyStr.replace "oxapay_cur_" "" data))
      (OXAPAY_SUPPORTED_CURRENCIES cfg) = true ->
  (forall self net amount_usd currency order_id description,
      posts (snd (create_invoice self net amount_usd currency order_id description))
      = 1%nat
      /\ forall r,
          fst (create_invoice self net amount_usd currency order_id description) = Some r
          <-> exists d,
              r = JObj d
              /\ net (InvoicePayload (merchant_key self) (PyFloat.round2 amount_usd)
                                     currency order_id (callback_url self) description)
                 = Responded 200 (Some (JObj d))
              /\ eq_int (get_default d "result" JNull) 100 = true)
  /\ let out := oxapay_currency_selected cfg b (fun _ => outcome) true data user_id now ud in
     fst (fst out) = END
     /\ http_posts (snd out) = 1%nat
     /\ (forall link,
           invoice_ok outcome link ->
           invoice_shown link (snd out)
           /\ snd (fst out)
              = UserData (oxapay_usd_amount ud) (oxapay_awaiting_custom ud)
                         (Some (make_order_id user_id now))
                         (Some (PyStr.upper (PyStr.replace "oxapay_cur_" "" data))))
     /\ ((forall link, ~ invoice_ok outcome link) ->
         failure_shown (snd out) /\ snd (fst out) = ud).
Proof.
intros Hcoin. split.
{ intros self net amount_usd currency order_id description. split.
  - apply create_invoice_once.
  - intros r. apply create_invoice_result. }
cbv zeta. unfold oxapay_currency_selected. cbn [negb]. rewrite Hcoin. cbn [negb].
set (coin := PyStr.upper (PyStr.replace "oxapay_cur_" "" data)).
set (client := Client _ _).
set (amount := default PrimFloat.zero (oxapay_usd_amount ud)).
pose proof (create_invoice_once client (fun _ => outcome) amount coin
              (make_order_id user_id now) "Casino Deposit") as Honce.
pose proof (create_invoice_result client (fun _ => outcome) amount coin
              (make_order_id user_id now) "Casino Deposit") as Hres.
destruct (create_invoice client (fun _ => outcome) amount coin
            (make_order_id user_id now) "Casino Deposit") as [result http].
cbn [fst snd] in Honce, Hres.
assert (forall tail : list ui_event,
           http_posts tail = 0%nat ->
           http_posts (([Answer CreatingInvoice false] ++ List.map Http http) ++ tail)
           = 1%nat) as Hposts.
{ intros tail Ht. rewrite !http_posts_app, http_posts_map, Honce, Ht. reflexivity. }
destruct result as [r|].
- destruct (proj1 (Hres r) eq_refl) as (d & -> & Hout & Hcode).
  cbv beta in Hout. subst outcome.
  destruct (truthy (pay_link_of d)) eqn:Hlink; cbn [negb fst snd].
  + split; [reflexivity|]. split; [apply Hposts; reflexivity|]. split.
    * intros link Hok. apply invoice_ok_inv in Hok as (d' & [= <-] & _ & -> & _).
      split; [|reflexivity].
      eexists _, _, _, _. apply last_app_singleton.
    * intros Hno. exfalso. apply (Hno (pay_link_of d)). exists d. auto.
  + split; [reflexivity|]. split; [apply Hposts; reflexivity|]. split.
    * intros link Hok. apply invoice_ok_inv in Hok as (d' & [= <-] & _ & _ & Ht).
      congruence.
    * intros _. split; [right; apply last_app_two | reflexivity].
- cbn [fst snd]. split; [reflexivity|]. split; [apply Hposts; reflexivity|]. split.
  + intros link Hok. exfalso.
    apply invoice_ok_inv in Hok as (d' & -> & Hcode & _).
    assert (None = Some (JObj d')) as Habs; [|discriminate Habs].
    apply Hres. exists d'. auto.
  + intros _. split; [left; apply last_app_singleton | reflexivity].
Qed.

Lemma invoice_needs_200_result_and_link_witness :
  let response :=
    [("result", JInt 100); ("payUrl", JStr "https://pay.oxapay.com/1")] in
  let out :=
    oxapay_currency_selected shipped Reference.bot_with_user
      (fun _ => Responded 200 (Some (JObj response))) true "oxapay_cur_btc"
      12345 1700000000 (UserData (Some Reference.fifty) None None None) in
  fst (fst out) = END
  /\ http_posts (snd out) = 1%nat
  /\ invoice_shown (JStr "https://pay.oxapay.com/1") (snd out)
  /\ oxapay_last_order (snd (fst out)) = Some Reference.order.
Proof.
destruct (invoice_needs_200_result_and_link shipped Reference.bot_with_user
            (Responded 200 (Some (JObj [("result", JInt 100);
                                        ("payUrl", JStr "https://pay.oxapay.com/1")])))
            "oxapay_cur_btc" 12345 1700000000
            (UserData (Some Reference.fifty) None None None) eq_refl)
  as (_ & Hend & Hposts & Hok & _).
destruct (Hok (JStr "https://pay.oxapay.com/1")) as [Hshown Hud].
{ eexists. repeat split; reflexivity. }
cbv zeta. split; [exact Hend|]. split; [exact Hposts|]. split; [exact Hshown|].
rewrite Hud. reflexivity.
Defined.

(** C6.  Round trip: for every Telegram user id [u] (a non-negative
    integer) and every time stamp [t], the order reference ["{u}_{t}"]
    built when the invoice is created is resolved by the webhook handler
    to the user id [u], the integer before the first underscore. *)
Theorem order_reference_round_trip (user_id now : Z) (st : state) :
  0 <= user_id ->
  resolve_telegram_id (JStr (make_order_id user_id now)) st = (Next user_id, st, []).
Proof.
intros Hu. unfold resolve_telegram_id, make_order_id.
rewrite (str_of_int_nonneg user_id Hu).
change ("_" +:+ PyStr.str_of_int now) with (String "_" (PyStr.str_of_int now)).
cbn [py_contains_underscore]. rewrite bind_pure, contains_underscore_app.
cbn [py_split_head]. rewrite bind_pure.
pose proof (digits_decimal user_id Hu) as Hdec.
rewrite (split_head_digits _ _ (all_digits_digit_string _ Hdec)).
rewrite (isdigit_digit_string _ Hdec (digits_nonempty user_id)). cbn [negb].
unfold pure. repeat f_equal.
rewrite <- (str_of_int_nonneg user_id Hu). apply int_of_str_of_int, Hu.
Qed.

Lemma order_reference_round_trip_witness :
  make_order_id 12345 1700000000 = "12345_1700000000"
  /\ resolve_telegram_id (JStr (make_order_id 12345 1700000000))
                         (Reference.fresh Reference.bot_with_user)
     = (Next 12345, Reference.fresh Reference.bot_with_user, []).
Proof.
split; [reflexivity|].
apply (order_reference_round_trip 12345 1700000000
         (Reference.fresh Reference.bot_with_user)).
lia.
Defined.

(** C7 (the code departs from the claim).  The text [nan] parses as a
    float that is not a positive number and is not at or above the
    minimum, yet the flow moves on to the currency selection and stores
    it as the amount. *)
Theorem nan_is_taken_as_an_amount (b : bot) (user_id : Z) (ud : user_data) :
  let out := oxapay_receive_custom_amount shipped b user_id (Some "nan") ud in
  PyFloat.of_string "nan" = Some PrimFloat.nan
  /\ PrimFloat.ltb PrimFloat.zero PrimFloat.nan = false
  /\ PrimFloat.leb (OXAPAY_MIN_DEPOSIT_USD shipped) PrimFloat.nan = false
  /\ fst (fst out) = _STATE_CURRENCY
  /\ oxapay_usd_amount (snd (fst out)) = Some PrimFloat.nan.
Proof.
cbv zeta. unfold oxapay_receive_custom_amount.
assert (parse_custom_amount shipped (Some "nan") = Some PrimFloat.nan) as ->
    by (vm_compute; reflexivity).
unfold _show_currency_selector. cbn [fst snd oxapay_usd_amount].
repeat split; reflexivity.
Qed.

(** X2.  The validation of a custom amount (lines 440-460), for a
    message of ASCII text.  What [float()] is given is the text without
    the white space around it and without its commas.  The flow stays in
    the custom-input state, with the error message and the session data
    unchanged, when nothing is left of the text; when what is left
    holds a character that no float literal has (a letter outside
    [inf], [infinity] and [nan], a currency sign, a separator such as
    U+001C that [str.strip] would drop at the ends but [float()] does
    not skip); when [float()] rejects it for another reason; and when
    its value is below the minimum.  In every other case the flow moves
    on to the currency selection with the value stored as the amount.
    A message without text is answered like an empty one. *)
Theorem custom_amount_is_validated (cfg : config) (b : bot) (user_id : Z)
    (text : string) (ud : user_data) :
  is_ascii text = true ->
  let given := PyStr.replace "," "" (PyStr.strip text) in
  let out := oxapay_receive_custom_amount cfg b user_id (Some text) ud in
  let again :=
    (_STATE_CUSTOM, ud,
     [ReplyText (InvalidAmount (OXAPAY_MIN_DEPOSIT_USD cfg)) [[back_button]]]) in
  ((given = ""
    \/ (exists c, PyStr.contains_char c given = true /\ float_char c = false)
    \/ PyFloat.of_string given = None
    \/ (exists a, PyFloat.of_string given = Some a
                  /\ PrimFloat.ltb a (OXAPAY_MIN_DEPOSIT_USD cfg) = true)) ->
   out = again)
  /\ (forall a,
        PyFloat.of_string given = Some a ->
        PrimFloat.ltb a (OXAPAY_MIN_DEPOSIT_USD cfg) = false ->
        fst (fst out) = _STATE_CURRENCY
        /\ oxapay_usd_amount (snd (fst out)) = Some a
        /\ oxapay_awaiting_custom (snd (fst out)) = None)
  /\ oxapay_receive_custom_amount cfg b user_id None ud = again.
Proof.
intros _. cbv zeta. unfold oxapay_receive_custom_amount, parse_custom_amount.
cbn [default from_option id].
split; [|split].
- intros Hbad.
  assert (PyFloat.of_string (PyStr.replace "," "" (PyStr.strip text)) = None
          \/ exists a, PyFloat.of_string (PyStr.replace "," "" (PyStr.strip text)) = Some a
                       /\ PrimFloat.ltb a (OXAPAY_MIN_DEPOSIT_USD cfg) = true)
    as [-> | (a & -> & ->)]; [|reflexivity | reflexivity].
  destruct Hbad as [-> | [(c & Hin & Hc) | [Hnone | Hlow]]].
  + left. reflexivity.
  + left. apply (Formats.of_string_foreign c _ Hin Hc).
  + left. exact Hnone.
  + right. exact Hlow.
- intros a -> ->. unfold _show_currency_selector. cbn [fst snd]. auto.
- reflexivity.
Qed.

Lemma custom_amount_is_validated_witness :
  let text := String "," (String "028"%char "5") in
  PyStr.strip text = text
  /\ oxapay_receive_custom_amount shipped Reference.bot_with_user 12345 (Some text)
       (UserData None (Some true) None None)
     = (_STATE_CUSTOM, UserData None (Some true) None None,
        [ReplyText (InvalidAmount (OXAPAY_MIN_DEPOSIT_USD shipped)) [[back_button]]]).
Proof.
split; [reflexivity|].
apply (proj1 (custom_amount_is_validated shipped Reference.bot_with_user 12345
                (String "," (String "028"%char "5"))
                (UserData None (Some true) None None) eq_refl)).
right. left. exists "028"%char. split; reflexivity.
Defined.

End Flow.

(* ===================================================================== *)
(** * The webhook: what one delivery can and cannot do *)
(* ===================================================================== *)

Module Endpoint.

Import Json Oxapay Spec Effects Delivery Deliveries Handler Outcomes Menus.

(** X3.  A request whose body is no JSON document, or a JSON document
    that is no object (lines 236-239 and 317-320): the handler answers
    [200 ok], leaves the module state and the data of [bot.py] as they
    were, and logs the exception; nothing is credited, recorded or
    sent. *)
Theorem malformed_request_is_logged_and_dropped {api : BotApi} (cfg : config)
    (req : option json) (delivered : bool) (st : state) :
  not_an_object req ->
  _oxapay_webhook cfg req delivered st = (ok, st, malformed_log req).
Proof.
intros Hreq. rewrite webhook_decompose.
destruct (before_send_malformed cfg req st Hreq) as (e & pre & -> & <-).
reflexivity.
Qed.

Lemma malformed_request_is_logged_and_dropped_witness :
  _oxapay_webhook (api := Reference.api) shipped (Some (JArr [JInt 1])) true
    (Reference.fresh Reference.bot_with_user)
  = (ok, Reference.fresh Reference.bot_with_user,
     [Log INFO (WebhookReceived (JArr [JInt 1]));
      Log ERROR (WebhookException AttributeError)]).
Proof.
apply (malformed_request_is_logged_and_dropped (api := Reference.api) shipped
         (Some (JArr [JInt 1])) true (Reference.fresh Reference.bot_with_user)).
exact I.
Defined.

(** X4.  The duplicate guard (lines 268-272): a delivery whose dedup key
    is already in [_processed_orders] is answered [200 ok] and skipped.
    The state is as it was and the handler only logs: no credit, no
    second message to the user. *)
Theorem recorded_order_is_skipped {api : BotApi} (cfg : config) (d : dict)
    (k : pykey) (delivered : bool) (st : state) :
  delivery_key (Some (JObj d)) = Some k ->
  k ∈ _processed_orders st ->
  let out := _oxapay_webhook cfg (Some (JObj d)) delivered st in
  ignored st out
  /\ count is_credit (snd out) = 0%nat
  /\ count is_send (snd out) = 0%nat.
Proof.
intros Hk Hin out.
assert (ignored st out) as Hout
  by (apply webhook_ignored_when_left_alone, (before_send_seen cfg d st k Hk Hin)).
split; [exact Hout|].
destruct (ignored_no_effect st out Hout) as (Hc & _ & Hs). split; assumption.
Qed.

Lemma recorded_order_is_skipped_witness :
  let st := Reference.seen Reference.bot_with_user in
  let out := _oxapay_webhook (api := Reference.api) shipped
               (Some (JObj Reference.paid)) true st in
  ignored st out
  /\ count is_credit (snd out) = 0%nat
  /\ count is_send (snd out) = 0%nat.
Proof.
apply (recorded_order_is_skipped (api := Reference.api) shipped Reference.paid
         (KStr Reference.order) true (Reference.seen Reference.bot_with_user)).
- reflexivity.
- exact (proj2 (elem_of_singleton (C := gset pykey) _ _) eq_refl).
Defined.

(** X5.  The key is recorded before the payment is validated (line 273
    stands before lines 275-298).  Once a delivery with an accepted
    status has got to the duplicate guard, its key is in
    [_processed_orders] when the handler is done, also when the payment
    is then rejected for its amount, its order reference or its user.
    Every later delivery with that key is skipped, whatever has changed
    in the data of [bot.py] in between: the order can no longer be
    credited. *)
Theorem order_seen_once_is_never_credited_later {api : BotApi} (cfg : config)
    (d1 d2 : dict) (p : payment) (k : pykey) (delivered1 delivered2 : bool)
    (st : state) :
  gets_to_guard cfg d1 st p k ->
  delivery_key (Some (JObj d2)) = Some k ->
  let st1 := snd (fst (_oxapay_webhook cfg (Some (JObj d1)) delivered1 st)) in
  k ∈ _processed_orders st1
  /\ (forall f : bot -> bot,
        let out := _oxapay_webhook cfg (Some (JObj d2)) delivered2 (set_bot f st1) in
        ignored (set_bot f st1) out
        /\ count is_credit (snd out) = 0%nat
        /\ count is_send (snd out) = 0%nat).
Proof.
intros Hd1 Hk2 st1.
assert (k ∈ _processed_orders st1) as Hin.
{ subst st1. rewrite webhook_decompose. cbn [fst snd].
  apply (before_send_records cfg d1 st p k Hd1). }
split; [exact Hin|]. intros f out.
assert (ignored (set_bot f st1) out) as Hout.
{ apply webhook_ignored_when_left_alone.
  apply (before_send_seen cfg d2 (set_bot f st1) k Hk2). exact Hin. }
split; [exact Hout|].
destruct (ignored_no_effect _ out Hout) as (Hc & _ & Hs). split; assumption.
Qed.

Lemma order_seen_once_is_never_credited_later_witness :
  let st1 := snd (fst (_oxapay_webhook (api := Reference.api) shipped
                         (Some (JObj Reference.unpaid)) true
                         (Reference.fresh Reference.bot_with_user))) in
  KStr Reference.order ∈ _processed_orders st1
  /\ (forall f : bot -> bot,
        let out := _oxapay_webhook (api := Reference.api) shipped
                     (Some (JObj Reference.paid)) true (set_bot f st1) in
        ignored (set_bot f st1) out
        /\ count is_credit (snd out) = 0%nat
        /\ count is_send (snd out) = 0%nat).
Proof.
apply (order_seen_once_is_never_credited_later (api := Reference.api) shipped
         Reference.unpaid Reference.paid Reference.fields_unpaid
         (KStr Reference.order) true true (Reference.fresh Reference.bot_with_user)).
- split.
  + reflexivity.
  + exists "paid". split; [reflexivity | left; reflexivity].
  + reflexivity.
  + reflexivity.
- reflexivity.
Defined.

(** X6.  What one delivery can do at most, whatever the request and the
    state (lines 226-320).  The answer is [200 ok].  [_bot_ref] is not
    changed.  No key leaves [_processed_orders], and the only key that
    can enter it is the dedup key of the request, which was not in it.
    At most one key is recorded, at most one credit is made and at most
    one message is sent. *)
Theorem one_delivery_is_bounded {api : BotApi} (cfg : config) (req : option json)
    (delivered : bool) (st : state) :
  let out := _oxapay_webhook cfg req delivered st in
  fst (fst out) = ok
  /\ _bot_ref (snd (fst out)) = _bot_ref st
  /\ (_processed_orders (snd (fst out)) = _processed_orders st
      \/ exists k, delivery_key req = Some k
                   /\ (k ∉ _processed_orders st)
                   /\ _processed_orders (snd (fst out)) = {[k]} ∪ _processed_orders st)
  /\ (count is_add (snd out) <= 1)%nat
  /\ (count is_credit (snd out) <= 1)%nat
  /\ (count is_send (snd out) <= 1)%nat.
Proof.
cbv zeta. rewrite webhook_decompose. cbn [fst snd].
pose proof (before_send_shape cfg req st) as Hshape.
destruct (shape_counts _ _ _ _ Hshape) as (Ha & Hc & Hs).
destruct (after_send_counts (result_of (before_send cfg req st)) delivered)
  as (Ha' & Hc' & Hs').
rewrite !count_app, Ha', Hc', Hs.
split; [reflexivity|].
split; [|split; [|repeat split; lia]].
- destruct Hshape as [[-> _] | (k & _ & _ & _ & Href & _)]; [reflexivity | exact Href].
- destruct Hshape as [[-> _] | (k & Hk & Hnew & Hpr & _)]; [left; reflexivity|].
  right. exists k. repeat split; assumption.
Qed.

(** X7.  Without a Telegram bot ([_bot_ref] unset, line 301) the handler
    sends no message, whatever the request: the payment is processed
    and credited as usual, silently. *)
Theorem no_bot_no_message {api : BotApi} (cfg : config) (req : option json)
    (delivered : bool) (st : state) :
  _bot_ref st = false ->
  count is_send (snd (_oxapay_webhook cfg req delivered st)) = 0%nat.
Proof.
intros Href. rewrite webhook_decompose. cbn [snd]. rewrite count_app.
destruct (shape_counts _ _ _ _ (before_send_shape cfg req st)) as (_ & _ & ->).
pose proof (mute_before_send cfg req st) as Hmute.
destruct (result_of (before_send cfg req st)) as [[n|]| |e]; try reflexivity.
exfalso. apply (Hmute n Href). reflexivity.
Qed.

Lemma no_bot_no_message_witness :
  let out := _oxapay_webhook (api := Reference.api) shipped
               (Some (JObj Reference.paid)) true
               (initial Reference.bot_with_user) in
  count is_send (snd out) = 0%nat.
Proof.
apply (no_bot_no_message (api := Reference.api) shipped (Some (JObj Reference.paid))
         true (initial Reference.bot_with_user)).
reflexivity.
Defined.

(** X8.  The message of a credited payment (lines 300-315).  When a
    delivery with an accepted status passes the gates and the Telegram
    bot is set, the handler sends one message, after the credit, to the
    user it credited, with the amount and the coin it credited.  When
    the message cannot be delivered the failure is logged as the last
    thing the handler does; the credit and the recorded key stay. *)
Theorem credited_user_is_notified {api : BotApi} (cfg : config) (d : dict)
    (p : payment) (k : pykey) (u : Z) (delivered : bool) (st : state) :
  status_accepted d ->
  passes cfg d st p k u ->
  _bot_ref st = true ->
  let out := _oxapay_webhook cfg (Some (JObj d)) delivered st in
  k ∈ _processed_orders (snd (fst out))
  /\ exists sym pre,
      snd out
      = pre ++ SendMessage (Notification u sym (pay_amount p) (paid_coin p) (amount_usd p))
                           delivered
            :: (if delivered then [] else [Log ERROR (NotifyFailed u)])
      /\ In (CreditWallet u (pay_amount p) (paid_coin p)) pre
      /\ count is_credit pre = 1%nat
      /\ count is_send pre = 0%nat.
Proof.
intros Hs Hp Href out.
destruct (webhook_credits cfg d st p k u delivered Hs Hp) as (_ & Hone & Hin).
split; [exact Hin|].
destruct (before_send_result cfg d st p k u Hs Hp Href) as (sym & Hr).
exists sym, (events_of (before_send cfg (Some (JObj d)) st)).
subst out. rewrite webhook_decompose in *. cbn [fst snd] in *.
rewrite Hr in *. cbn [after_send chat_id] in *.
split; [reflexivity|].
split; [apply (before_send_credits cfg d st p k u Hs Hp)|].
destruct (shape_counts _ _ _ _ (before_send_shape cfg (Some (JObj d)) st))
  as (_ & Hc & Hsend).
split; [|exact Hsend].
rewrite count_app in Hone.
destruct (after_send_counts
            (Next (Some (Notification u sym (pay_amount p) (paid_coin p) (amount_usd p))))
            delivered) as (_ & Hnone & _).
cbn [after_send chat_id] in Hnone. rewrite Hnone in Hone. lia.
Qed.

Lemma credited_user_is_notified_witness :
  let out := _oxapay_webhook (api := Reference.api) shipped
               (Some (JObj Reference.paid)) false
               (Reference.fresh Reference.bot_with_user) in
  KStr Reference.order ∈ _processed_orders (snd (fst out))
  /\ exists sym pre,
      snd out
      = pre ++ SendMessage (Notification 12345 sym Reference.milli "BTC" PrimFloat.zero)
                           false
            :: [Log ERROR (NotifyFailed 12345)]
      /\ In (CreditWallet 12345 Reference.milli "BTC") pre
      /\ count is_credit pre = 1%nat
      /\ count is_send pre = 0%nat.
Proof.
apply (credited_user_is_notified (api := Reference.api) shipped Reference.paid
         Reference.fields_paid (KStr Reference.order) 12345 false
         (Reference.fresh Reference.bot_with_user)).
- exists "paid". split; [reflexivity | left; reflexivity].
- apply Webhook.sample_passes. right. exists "paid". split; reflexivity.
- reflexivity.
Defined.

(** [float()] on a value of the payload: it raises, or it has a value,
    and nothing else happens. *)
Lemma py_float_cases (v : json) (st : state) :
  (no_number v = true /\ exists e, py_float v st = (Raise e, st, []))
  \/ (no_number v = false /\ exists a, py_float v st = (Next a, st, [])).
Proof.
destruct v as [| b | n | f | s | l | d]; cbn [py_float no_number];
  try (left; split; [reflexivity | eexists; reflexivity]);
  try (right; split; [reflexivity | eexists; reflexivity]).
- destruct (PyFloat.of_int n) as [a|]; [right | left]; cbn [lift];
    (split; [reflexivity | eexists; reflexivity]).
- destruct (PyFloat.of_string s) as [a|]; [right | left]; cbn [lift];
    (split; [reflexivity | eexists; reflexivity]).
Qed.

Lemma bind_silent {A B} (m : M A) (k : A -> M B) (st : state) (a : A) :
  m st = (Next a, st, []) -> bind m k st = k a st.
Proof.
intros Hm. unfold bind. rewrite Hm. destruct (k a st) as [[r s] e]. reflexivity.
Qed.

Lemma bind_raised {A B} (m : M A) (k : A -> M B) (st : state) (e : exn) :
  m st = (Raise e, st, []) -> bind m k st = (Raise e, st, []).
Proof. intros Hm. unfold bind. rewrite Hm. reflexivity. Qed.

(** The payment fields are read unless one of them cannot be. *)
Lemma payment_fields_goes_on (d : dict) (st : state) :
  goes_on (result_of (payment_fields (JObj d) st)) = negb (unreadable d).
Proof.
unfold payment_fields, unreadable, raw_pay_of. cbn [py_get]. rewrite !bind_pure.
destruct (py_float_cases (get_default d "amount" (JInt 0)) st)
  as [[-> [e He]] | [-> [a Ha]]].
{ rewrite (bind_raised _ _ _ _ He). reflexivity. }
rewrite (bind_silent _ _ _ _ Ha). cbv beta. cbn [orb]. rewrite bind_pure.
destruct (get_default d "currency" (JStr "USDT")) as [| | | |c| |];
  cbn [py_upper is_text negb orb]; try reflexivity.
rewrite !bind_pure.
destruct (is_none (get_default d "payAmount" JNull)) eqn:Hn; rewrite bind_pure.
all: match goal with
     | |- context [no_number ?v] =>
         destruct (is_none v) eqn:Hn2; cbn [negb andb];
         [rewrite bind_pure; reflexivity|];
         destruct (py_float_cases v st) as [[-> [e He]] | [-> [x Hx]]];
         [rewrite (bind_raised _ _ _ _ He); reflexivity
         |rewrite (bind_silent _ _ _ _ Hx); cbv beta; reflexivity]
     end.
Qed.

(** X24.  Fields that cannot be read (lines 256-266), for amounts
    that, where they are strings, are ASCII text.  A payment field
    cannot be read when [float()] raises on the amount or on the paid
    amount ([payAmount], or [pay_amount] when that is absent or
    [null]): a [null] amount, a list, an object, an integer beyond the
    floats, a string that is no float literal; or when the currency is
    no string.  Then the handler answers [200 ok] and logs; it changes
    nothing and, the fields being read before the duplicate guard,
    records no key: a corrected delivery of the same order is still
    processed.  In every other case the fields are read. *)
Theorem unreadable_payment_is_not_recorded {api : BotApi} (cfg : config) (d : dict)
    (delivered : bool) (st : state) :
  ascii_amounts d = true ->
  (unreadable d = true ->
   let out := _oxapay_webhook cfg (Some (JObj d)) delivered st in
   ignored st out
   /\ count is_add (snd out) = 0%nat
   /\ count is_credit (snd out) = 0%nat
   /\ count is_send (snd out) = 0%nat)
  /\ (unreadable d = false ->
      exists p, payment_fields (JObj d) st = (Next p, st, [])).
Proof.
intros _. split.
- intros Hbad out.
  assert (ignored st out) as Hout.
  { apply webhook_ignored_when_left_alone. rewrite before_send_dict.
    apply left_alone_after_quiet; [apply quiet_logging|]. intros _ _ _.
    apply left_alone_after_quiet; [apply quiet_signature_check|]. intros _ _ _.
    apply left_alone_after_quiet; [apply quiet_confirmed_status|]. intros _ _ _.
    apply left_alone_after_quiet; [apply quiet_payment_fields|]. intros p logs Hrun.
    pose proof (payment_fields_goes_on d st) as Hg.
    rewrite Hrun, Hbad in Hg. discriminate Hg. }
  split; [exact Hout|].
  destruct (ignored_no_effect st out Hout) as (Hc & Ha & Hs). repeat split; assumption.
- intros Hr. pose proof (payment_fields_goes_on d st) as Hg. rewrite Hr in Hg.
  destruct (payment_fields (JObj d) st) as [[[p| |e] st'] evs] eqn:E; try discriminate Hg.
  destruct (payment_fields_inv _ _ _ _ _ E) as (-> & -> & _). exists p. reflexivity.
Qed.

Lemma unreadable_payment_is_not_recorded_witness :
  let d := [("status", JStr "paid"); ("orderId", JStr Reference.order);
            ("payAmount", JStr (String "028"%char "0.001"))] in
  let st := Reference.fresh Reference.bot_with_user in
  let out := _oxapay_webhook (api := Reference.api) shipped (Some (JObj d)) true st in
  ignored st out
  /\ count is_add (snd out) = 0%nat
  /\ count is_credit (snd out) = 0%nat
  /\ count is_send (snd out) = 0%nat.
Proof.
apply (proj1 (unreadable_payment_is_not_recorded (api := Reference.api) shipped
                [("status", JStr "paid"); ("orderId", JStr Reference.order);
                 ("payAmount", JStr (String "028"%char "0.001"))] true
                (Reference.fresh Reference.bot_with_user) eq_refl)).
reflexivity.
Defined.

(** X26.  The user who asked for the invoice is the user who is
    credited (line 561 against lines 257-298).  The order reference the
    currency step builds for the user [u] at the time [t] is a string
    that the handler takes as the dedup key and resolves to [u]: a
    delivery that carries it, passes the signature and status checks,
    brings a positive amount and is the first for this order credits
    the wallet of [u], once, with the paid amount in the paid coin, and
    records the order. *)
Theorem paid_invoice_credits_its_user {api : BotApi} (cfg : config) (d : dict)
    (p : payment) (user_id now : Z) (delivered : bool) (st : state) :
  0 <= user_id ->
  get_default d "orderId" (JStr "") = JStr (make_order_id user_id now) ->
  signature_check cfg (JObj d) st = (Next tt, st, []) ->
  status_accepted d ->
  payment_fields (JObj d) st = (Next p, st, []) ->
  KStr (make_order_id user_id now) ∉ _processed_orders st ->
  PrimFloat.leb (pay_amount p) PrimFloat.zero = false ->
  is_Some (user_wallets (load_user_data_if_missing user_id (_bot st)) !! user_id) ->
  let out := _oxapay_webhook cfg (Some (JObj d)) delivered st in
  delivery_key (Some (JObj d)) = Some (KStr (make_order_id user_id now))
  /\ In (CreditWallet user_id (pay_amount p) (paid_coin p)) (snd out)
  /\ count is_credit (snd out) = 1%nat
  /\ KStr (make_order_id user_id now) ∈ _processed_orders (snd (fst out)).
Proof.
intros Hu Hoid Hsig Hstatus Hp Hnew Hpos Hwallet out.
pose proof (payment_fields_inv d st p st [] Hp) as (_ & _ & Ho & _).
rewrite Hoid in Ho.
assert (hash_key (dedup_key_of p) = Some (KStr (make_order_id user_id now))) as Hkey.
{ unfold dedup_key_of, py_or. rewrite Ho. cbn [truthy].
  rewrite order_id_nonempty by exact Hu. reflexivity. }
assert (passes cfg d st p (KStr (make_order_id user_id now)) user_id) as Hpass.
{ split; try assumption. intros s. rewrite Ho. apply order_id_resolves, Hu. }
split; [rewrite (delivery_key_fields d st p st [] Hp); exact Hkey|].
apply (webhook_credits cfg d st p _ user_id delivered Hstatus Hpass).
Qed.

Lemma paid_invoice_credits_its_user_witness :
  let out := _oxapay_webhook (api := Reference.api) shipped
               (Some (JObj Reference.paid)) true
               (Reference.fresh Reference.bot_with_user) in
  delivery_key (Some (JObj Reference.paid)) = Some (KStr (make_order_id 12345 1700000000))
  /\ In (CreditWallet 12345 Reference.milli "BTC") (snd out)
  /\ count is_credit (snd out) = 1%nat
  /\ KStr (make_order_id 12345 1700000000) ∈ _processed_orders (snd (fst out)).
Proof.
apply (paid_invoice_credits_its_user (api := Reference.api) shipped Reference.paid
         Reference.fields_paid 12345 1700000000 true
         (Reference.fresh Reference.bot_with_user)).
- lia.
- reflexivity.
- reflexivity.
- exists "paid". split; [reflexivity | left; reflexivity].
- reflexivity.
- apply not_elem_of_empty.
- reflexivity.
- exists ∅. reflexivity.
Defined.

End Endpoint.

(* ===================================================================== *)
(** * The signature *)
(* ===================================================================== *)

Module Signature.

Import Json Oxapay Spec Sha256Facts.

(** X9.  Signing and verifying agree (lines 212-219 and 241-248).  A
    payload whose [hmac] field is the hexadecimal HMAC-SHA256, keyed by
    the merchant key, of the JSON text of its other fields in the
    compact form [json.dumps(_, separators=(",", ":"))] passes the
    signature check, for every payload and every key.  That digest is a
    string of 64 characters, so the check is not skipped for it. *)
Theorem signed_payload_is_verified {api : BotApi} (cfg : config) (d : dict) (st : state) :
  let digest :=
    Sha256.hmac_hexdigest (Sha256.bytes_of_string (OXAPAY_MERCHANT_KEY cfg))
                          (Sha256.bytes_of_string (dumps (JObj (without "hmac" d)))) in
  get d "hmac" = Some (JStr digest) ->
  signature_check cfg (JObj d) st = (Next tt, st, [])
  /\ truthy (JStr digest) = true
  /\ _verify_signature cfg (dumps (JObj (without "hmac" d))) (JStr digest) st
     = (Next true, st, []).
Proof.
intros digest Hget.
destruct (hmac_hexdigest_shape (Sha256.bytes_of_string (OXAPAY_MERCHANT_KEY cfg))
            (Sha256.bytes_of_string (dumps (JObj (without "hmac" d))))) as [Hascii Hlen].
split; [apply signature_check_signed, Hget|]. split.
- cbn [truthy]. subst digest. rewrite eqb_empty_length by (rewrite Hlen; discriminate).
  reflexivity.
- unfold _verify_signature, compare_digest. fold digest. subst digest.
  rewrite Hascii, String.eqb_refl. reflexivity.
Qed.

Lemma signed_payload_is_verified_witness :
  let st := Reference.fresh Reference.bot_with_user in
  let digest :=
    Sha256.hmac_hexdigest (Sha256.bytes_of_string "sandbox")
      (Sha256.bytes_of_string (dumps (JObj Reference.paid))) in
  signature_check shipped (JObj Reference.signed) st = (Next tt, st, [])
  /\ truthy (JStr digest) = true
  /\ _verify_signature shipped (dumps (JObj Reference.paid)) (JStr digest) st
     = (Next true, st, []).
Proof.
apply (signed_payload_is_verified (api := Reference.api) shipped Reference.signed
         (Reference.fresh Reference.bot_with_user)).
reflexivity.
Defined.

End Signature.

(* ===================================================================== *)
(** * [_credit]: what is booked besides the wallet *)
(* ===================================================================== *)

Module Bookkeeping.

Import Json Oxapay Spec Effects Delivery StatsFacts.

(** X10.  Wagering is tracked in dollars (lines 93-101).  For a user
    with statistics, [_credit] adds to [unwagered_deposit] (absent
    counts as [0.0]) the amount times the live price of the coin.  When
    the coin has no live price, or one that is zero or negative, the
    amount is taken as if the price were [1.0] and a warning is logged;
    with a usable price no warning is logged. *)
Theorem deposit_is_tracked_for_wagering {api : BotApi} (u : Z) (amount : float)
    (coin : string) (st : state) (s : stats) :
  keeps_stats api ->
  user_stats (_bot st) !! u = Some s ->
  let out := _credit u amount coin st in
  let before := or_zero (unwagered_deposit s) in
  (forall price,
      priced (_bot st) coin price ->
      unwagered_of (_bot (state_of out)) u
      = Some (PrimFloat.add before (PrimFloat.mul amount price))
      /\ ~ In (Log WARNING (NoLivePrice coin)) (events_of out))
  /\ (unpriced (_bot st) coin ->
      unwagered_of (_bot (state_of out)) u
      = Some (PrimFloat.add before (PrimFloat.mul amount one_float))
      /\ In (Log WARNING (NoLivePrice coin)) (events_of out)).
Proof.
intros Hapi Hu out before.
destruct (credit_run u amount coin st Hapi) as (st' & Hrun & _ & Hst).
assert (unwagered_of (_bot st') u
        = Some (PrimFloat.add before
                  (PrimFloat.mul amount (price_used (_bot st) coin)))) as Hun.
{ unfold unwagered_of. rewrite Hst. unfold stats_after. rewrite Hu. cbv zeta.
  destruct (referrer_of (_bot st) u) as [rid|].
  - destruct (decide (rid = u)) as [->|Hne].
    + rewrite !lookup_alter_eq, Hu. reflexivity.
    + rewrite lookup_alter_ne by exact Hne. rewrite lookup_alter_eq, Hu. reflexivity.
  - rewrite lookup_alter_eq, Hu. reflexivity. }
subst out. rewrite Hrun. unfold state_of, events_of. cbn [fst snd].
unfold credit_events. rewrite Hu. rewrite Hun. unfold price_used. split.
- intros price [Hp Hpos]. rewrite Hp, Hpos. split; [reflexivity|].
  cbn [app]. intros [H | H]; [discriminate|].
  apply in_app_or in H as [H | [H | []]]; [|discriminate].
  destruct (referrer_of (_bot st) u); [destruct H as [H | []]; discriminate | destruct H].
- unfold unpriced. intros Hp. destruct (LIVE_PRICES (_bot st) !! coin) as [price|].
  + rewrite Hp. split; [reflexivity|]. right. left. reflexivity.
  + split; [reflexivity|]. right. left. reflexivity.
Qed.

Lemma deposit_is_tracked_for_wagering_witness :
  let out := _credit (api := Reference.api) 12345 Reference.milli "BTC"
               (Reference.fresh Reference.bot_with_user) in
  unwagered_of (_bot (state_of out)) 12345 = Some Reference.fifty
  /\ ~ In (Log WARNING (NoLivePrice "BTC")) (events_of out).
Proof.
exact (proj1 (deposit_is_tracked_for_wagering (api := Reference.api) 12345
                Reference.milli "BTC" (Reference.fresh Reference.bot_with_user)
                (Stats None (Some (Referral (Some 999) None)))
                reference_keeps_stats eq_refl)
             0x1.86ap+15%float (conj eq_refl eq_refl)).
Defined.

(** X11.  The referral commission (lines 102-110).  When the credited
    user has a referrer that is known to the statistics, [_credit] adds
    half a percent of the amount, in the coin itself and not in dollars,
    to what the referrer has earned in that coin (absent counts as
    [0.0]), leaves the referrer's commissions in the other coins as
    they were, and persists the referrer. *)
Theorem referrer_earns_half_a_percent {api : BotApi} (u rid : Z) (amount : float)
    (coin : string) (st : state) :
  keeps_stats api ->
  referrer_of (_bot st) u = Some rid ->
  let out := _credit u amount coin st in
  commission_of (_bot (state_of out)) rid coin
  = Some (PrimFloat.add (or_zero (commission_of (_bot st) rid coin))
                        (PrimFloat.mul amount commission_rate))
  /\ (forall c, c <> coin ->
        commission_of (_bot (state_of out)) rid c = commission_of (_bot st) rid c)
  /\ In (SaveUserData rid) (events_of out).
Proof.
intros Hapi Href out.
destruct (credit_run u amount coin st Hapi) as (st' & Hrun & _ & Hst).
destruct (referrer_of_known _ _ _ Href) as ([s Hu] & [sr Hr] & _).
subst out. rewrite Hrun. unfold state_of, events_of. cbn [fst snd].
assert (exists sr', user_stats (_bot st') !! rid
                    = Some (with_commission coin (PrimFloat.mul amount commission_rate) sr')
                    /\ referral sr' = referral sr) as (sr' & Hafter & Hsame).
{ rewrite Hst. unfold stats_after. rewrite Hu, Href. cbv zeta.
  rewrite lookup_alter_eq. destruct (decide (u = rid)) as [->|Hne].
  - rewrite lookup_alter_eq, Hr. eexists. split; [reflexivity|]. reflexivity.
  - rewrite lookup_alter_ne by exact Hne. rewrite Hr. eexists. split; reflexivity. }
unfold commission_of. rewrite Hafter, Hr. cbn [mbind option_bind with_commission referral commissions].
rewrite Hsame. split; [|split].
- rewrite lookup_insert_eq.
  destruct (referral sr) as [[r0 [m|]]|]; reflexivity.
- intros c Hc. rewrite lookup_insert_ne by congruence.
  destruct (referral sr) as [[r0 [m|]]|]; reflexivity.
- unfold credit_events. rewrite Hu, Href. right.
  apply in_or_app. left. apply in_or_app. right. left. reflexivity.
Qed.

Lemma referrer_earns_half_a_percent_witness :
  let out := _credit (api := Reference.api) 12345 Reference.fifty "BTC"
               (Reference.fresh Reference.bot_with_user) in
  commission_of (_bot (state_of out)) 999 "BTC" = Some 0x1p-2%float
  /\ (forall c, c <> "BTC" ->
        commission_of (_bot (state_of out)) 999 c
        = commission_of Reference.bot_with_user 999 c)
  /\ In (SaveUserData 999) (events_of out).
Proof.
apply (referrer_earns_half_a_percent (api := Reference.api) 12345 999 Reference.fifty "BTC"
         (Reference.fresh Reference.bot_with_user) reference_keeps_stats eq_refl).
Defined.

(** X12.  What [_credit] does and whom it touches (lines 89-111).  It
    calls [credit_wallet_crypto] first, once, and [save_user_data] for
    the user last; in between it only logs and persists the referrer.
    It changes the statistics of the user and of the user's referrer,
    of nobody else; it creates no statistics; for a user without
    statistics it changes none at all.  The module state is not
    touched. *)
Theorem credit_touches_the_user_and_the_referrer {api : BotApi} (u : Z) (amount : float)
    (coin : string) (st : state) :
  keeps_stats api ->
  let out := _credit u amount coin st in
  result_of out = Next tt
  /\ same_guard st (state_of out)
  /\ (exists between,
        events_of out = CreditWallet u amount coin :: between ++ [SaveUserData u]
        /\ forallb (fun e => is_log e || is_save e) between = true)
  /\ (forall v, v <> u -> referrer_of (_bot st) u <> Some v ->
        user_stats (_bot (state_of out)) !! v = user_stats (_bot st) !! v)
  /\ (forall v, is_Some (user_stats (_bot (state_of out)) !! v)
                <-> is_Some (user_stats (_bot st) !! v))
  /\ (user_stats (_bot st) !! u = None ->
      user_stats (_bot (state_of out)) = user_stats (_bot st)).
Proof.
intros Hapi out.
destruct (credit_run u amount coin st Hapi) as (st' & Hrun & Hguard & Hst).
subst out. rewrite Hrun. unfold result_of, state_of, events_of. cbn [fst snd].
split; [reflexivity|]. split; [exact Hguard|]. split; [|split; [|split]].
- unfold credit_events. eexists. split; [reflexivity|].
  destruct (user_stats (_bot st) !! u); [|reflexivity].
  rewrite forallb_app. apply andb_true_intro. split.
  + destruct (LIVE_PRICES (_bot st) !! coin) as [p|];
      [destruct (PrimFloat.leb p PrimFloat.zero)|]; reflexivity.
  + destruct (referrer_of (_bot st) u); reflexivity.
- intros v Hv Hr. rewrite Hst. unfold stats_after.
  destruct (user_stats (_bot st) !! u); [|reflexivity]. cbv zeta.
  destruct (referrer_of (_bot st) u) as [rid|].
  + rewrite !lookup_alter_ne by congruence. reflexivity.
  + rewrite lookup_alter_ne by congruence. reflexivity.
- intros v. rewrite Hst. unfold stats_after.
  destruct (user_stats (_bot st) !! u); [|reflexivity]. cbv zeta.
  destruct (referrer_of (_bot st) u) as [rid|]; rewrite !is_Some_alter; reflexivity.
- intros Hu. rewrite Hst. unfold stats_after. rewrite Hu. reflexivity.
Qed.

Lemma credit_touches_the_user_and_the_referrer_witness :
  let out := _credit (api := Reference.api) 12345 Reference.milli "BTC"
               (Reference.fresh Reference.bot_with_user) in
  result_of out = Next tt
  /\ events_of out
     = [CreditWallet 12345 Reference.milli "BTC"; SaveUserData 999; SaveUserData 12345].
Proof.
destruct (credit_touches_the_user_and_the_referrer (api := Reference.api) 12345
            Reference.milli "BTC" (Reference.fresh Reference.bot_with_user)
            reference_keeps_stats) as (Hr & _).
split; [exact Hr | reflexivity].
Defined.

End Bookkeeping.

(* ===================================================================== *)
(** * Order references, keyboards and callback data *)
(* ===================================================================== *)

Module Screens.

Import PyStr PyFloat Json Oxapay Spec PyStrFacts Effects Delivery Formats Menus.

(** X13.  Which order references name a user (lines 279-284).  For an
    [orderId] of ASCII text with at most 4300 characters before its
    first underscore (the longest run of digits [int()] converts by
    default): the handler resolves it to the user [u] exactly when it
    begins with a non-empty run of decimal digits followed by an
    underscore, [u] being the number the digits spell; what comes after
    the first underscore is not looked at.  Every other such text is
    logged as unrecognised and the handler returns.  An [orderId] that
    is no string never names a user. *)
Theorem order_reference_format (s : string) (st : state) :
  is_ascii s = true ->
  (String.length (split_head "_" s) <= 4300)%nat ->
  (forall u st' evs,
      resolve_telegram_id (JStr s) st = (Next u, st', evs)
      <-> names_user s u /\ st' = st /\ evs = [])
  /\ ((forall u, ~ names_user s u) ->
      resolve_telegram_id (JStr s) st
      = (ReturnOk, st, [Log WARNING (UnrecognisedOrderId (JStr s))]))
  /\ (forall v u st' evs,
        resolve_telegram_id v st = (Next u, st', evs) -> exists s', v = JStr s').
Proof.
intros _ _. split; [|split].
- intros u st' evs. rewrite resolve_string, names_user_iff.
  destruct (contains_char "_" s && isdigit (split_head "_" s)); split.
  + intros [= <- <- <-]. auto.
  + intros ((_ & ->) & -> & ->). reflexivity.
  + discriminate.
  + intros ((H & _) & _). discriminate.
- intros Hno. rewrite resolve_string.
  destruct (contains_char "_" s && isdigit (split_head "_" s)) eqn:E; [|reflexivity].
  exfalso. apply (Hno (int_of_digits (split_head "_" s))). apply names_user_iff. auto.
- intros v u st' evs. destruct v as [| | | |s'|l|d]; try discriminate.
  + intros _. exists s'. reflexivity.
  + unfold resolve_telegram_id, py_contains_underscore. rewrite bind_pure.
    destruct (existsb _ l); discriminate.
  + unfold resolve_telegram_id, py_contains_underscore. rewrite bind_pure.
    destruct (existsb _ d); discriminate.
Qed.

Lemma order_reference_format_witness :
  names_user "12345_1700000000" 12345
  /\ resolve_telegram_id (JStr "12345_1700000000")
                         (Reference.fresh Reference.bot_with_user)
     = (Next 12345, Reference.fresh Reference.bot_with_user, [])
  /\ resolve_telegram_id (JStr "order-12345")
                         (Reference.fresh Reference.bot_with_user)
     = (ReturnOk, Reference.fresh Reference.bot_with_user,
        [Log WARNING (UnrecognisedOrderId (JStr "order-12345"))]).
Proof.
assert (names_user "12345_1700000000" 12345) as Hnames.
{ exists [1; 2; 3; 4; 5], "1700000000". repeat split; [discriminate|].
  repeat constructor; lia. }
split; [exact Hnames|]. split.
- apply (order_reference_format "12345_1700000000"
           (Reference.fresh Reference.bot_with_user) eq_refl).
  + cbn. lia.
  + auto.
- reflexivity.
Defined.

(** X14.  The keyboards are filled by threes (lines 381-401 and
    492-511).  The currency selector shows one button for every
    configured currency that the bot supports, in the order of the
    configuration, three a row with a last row of one to three, and
    the Back button in a row of its own at the end.  The amount menu
    shows the five presets in the same way, then the custom amount and
    Back. *)
Theorem keyboards_are_filled_by_threes (cfg : config) (b : bot) (user_id : Z)
    (ud : user_data) (via_message : bool) :
  (exists rows,
      _show_currency_selector cfg b user_id ud via_message
      = (_STATE_CURRENCY, ud,
         shown via_message user_id
               (CurrencySelector (default PrimFloat.zero (oxapay_usd_amount ud)))
               (rows ++ [[back_button]]))
      /\ concat rows = List.map (coin_button b) (offered cfg b)
      /\ well_filled rows)
  /\ (exists rows,
        amount_keyboard
        = rows ++ [[MenuButton CustomAmountLabel "oxapay_amt_custom" primary];
                   [MenuButton BackToDepositLabel "back_to_deposit_menu" danger]]
        /\ concat rows = List.map preset_button preset_amounts
        /\ well_filled rows).
Proof.
split.
- exists (button_rows [] (List.map (coin_button b) (offered cfg b))).
  destruct (button_rows_filled (List.map (coin_button b) (offered cfg b)) [])
    as [Hc Hw]; [cbn; lia|].
  split; [apply selector_shown | split; [exact Hc | exact Hw]].
- exists (button_rows [] (List.map preset_button preset_amounts)).
  destruct (button_rows_filled (List.map preset_button preset_amounts) [])
    as [Hc Hw]; [cbn; lia|].
  split; [reflexivity | split; [exact Hc | exact Hw]].
Qed.

(** X15.  A coin the selector offers can be paid (lines 492-501 and
    546-569).  For every configured currency that is written in upper
    case and that the bot supports, the selector shows a button, and
    pressing it makes the currency step read that very coin from the
    callback data, take it as configured, and request one invoice for
    it: in that coin, for the stored amount rounded to cents, under the
    order reference of the user and the time. *)
Theorem offered_coin_is_invoiced (cfg : config) (b : bot) (net : network)
    (user_id now : Z) (ud : user_data) (coin : string) :
  In coin (offered cfg b) ->
  PyStr.upper coin = coin ->
  In (coin_button b coin)
     (List.map (coin_button b) (offered cfg b))
  /\ callback_data (coin_button b coin) = Some ("oxapay_cur_" +:+ coin)
  /\ let out := oxapay_currency_selected cfg b net true ("oxapay_cur_" +:+ coin)
                  user_id now ud in
     fst (fst out) = END
     /\ exists rest,
         snd out
         = Answer CreatingInvoice false
           :: Http (invoice_request cfg (default PrimFloat.zero (oxapay_usd_amount ud))
                      coin user_id now)
           :: rest
         /\ http_posts rest = 0%nat.
Proof.
intros Hin Hup. split; [apply in_map, Hin|]. split; [reflexivity|].
pose proof (coin_of_callback coin Hup) as Hcoin.
assert (mem (upper (replace "oxapay_cur_" "" ("oxapay_cur_" +:+ coin)))
            (OXAPAY_SUPPORTED_CURRENCIES cfg) = true) as Hmem.
{ rewrite Hcoin. apply mem_In. apply in_filter_mem in Hin. apply Hin. }
pose proof (currency_selected_request cfg b net ("oxapay_cur_" +:+ coin)
              user_id now ud Hmem) as H.
cbv zeta in H. rewrite Hcoin in H. exact H.
Qed.

Lemma offered_coin_is_invoiced_witness :
  let out := oxapay_currency_selected shipped Reference.bot_with_user
               (fun _ => TimedOut) true "oxapay_cur_USDT" 12345 1700000000
               (UserData (Some Reference.fifty) None None None) in
  fst (fst out) = END
  /\ exists rest,
      snd out
      = Answer CreatingInvoice false
        :: Http (Post INVOICE_URL
                   (InvoicePayload "sandbox" Reference.fifty "USDT" Reference.order
                      "https://yourdomain.com/oxapay/webhook" "Casino Deposit"))
        :: rest
      /\ http_posts rest = 0%nat.
Proof.
apply (offered_coin_is_invoiced shipped Reference.bot_with_user (fun _ => TimedOut)
         12345 1700000000 (UserData (Some Reference.fifty) None None None) "USDT").
- right. right. left. reflexivity.
- reflexivity.
Defined.

(** X16.  A preset button stores its amount, and the minimum is not
    looked at (lines 384-386 and 465-481).  For every amount [n >= 0],
    pressing the button that carries [oxapay_amt_n] moves the flow to
    the currency selection with the float nearest to [n] stored as the
    amount, whatever [OXAPAY_MIN_DEPOSIT_USD] is.  Callback data that
    [float()] rejects keep the flow at the amount menu with an alert and
    the session data unchanged. *)
Theorem preset_amount_is_stored (cfg : config) (b : bot) (user_id : Z)
    (ud : user_data) (n : Z) :
  0 <= n ->
  let out := oxapay_preset_amount cfg b true (menu_callback (preset_button n))
               user_id ud in
  fst (fst out) = _STATE_CURRENCY
  /\ snd (fst out)
     = UserData (Some (nearest n 1)) (oxapay_awaiting_custom ud)
                (oxapay_last_order ud) (oxapay_last_coin ud)
  /\ (forall data,
        of_string (replace "oxapay_amt_" "" data) = None ->
        oxapay_preset_amount cfg b true data user_id ud
        = (_STATE_AMOUNT, ud, [AnswerPlain; AnswerInvalidAmount])).
Proof.
intros Hn. cbv zeta. unfold oxapay_preset_amount, preset_button. cbn [negb menu_callback].
rewrite (amount_of_callback n Hn). cbv zeta.
unfold _show_currency_selector. cbn [fst snd].
split; [reflexivity|]. split; [reflexivity|].
intros data ->. reflexivity.
Qed.

Lemma preset_amount_is_stored_witness :
  let out := oxapay_preset_amount shipped Reference.bot_with_user true "oxapay_amt_10"
               12345 (UserData None None None None) in
  fst (fst out) = _STATE_CURRENCY
  /\ snd (fst out) = UserData (Some 0x1.4p+3%float) None None None.
Proof.
destruct (preset_amount_is_stored shipped Reference.bot_with_user 12345
            (UserData None None None None) 10 ltac:(lia)) as (H1 & H2 & _).
split; [exact H1 | exact H2].
Defined.

(** X23.  The amount of coin on the invoice screen (lines 114-115 and
    555-557).  When the invoice comes back with a payment link, the
    last thing shown is the invoice, and the amount of coin it tells
    the user to send is the stored dollar amount divided by the live
    price of the coin.  A coin without a live price is taken at [1.0],
    so that the dollar figure itself is shown as the amount of coin; a
    price that is zero, negative or not a number gives [0.0]. *)
Theorem invoice_screen_amount (cfg : config) (b : bot) (net : network)
    (data : string) (user_id now : Z) (ud : user_data) (d : dict) :
  let coin := upper (replace "oxapay_cur_" "" data) in
  let amount_usd := default PrimFloat.zero (oxapay_usd_amount ud) in
  mem coin (OXAPAY_SUPPORTED_CURRENCIES cfg) = true ->
  net (request_payload cfg amount_usd coin user_id now) = Responded 200 (Some (JObj d)) ->
  eq_int (get_default d "result" JNull) 100 = true ->
  truthy (pay_link_of d) = true ->
  List.last (snd (oxapay_currency_selected cfg b net true data user_id now ud))
            (Answer NotForYou true)
  = SafeEdit (InvoiceReady amount_usd (default "" (CRYPTO_SYMBOLS b !! coin)) coin
                           (crypto_needed_for b amount_usd coin))
             [[Button PayNowLabel None (Some (pay_link_of d)) primary];
              [Button NewDepositLabel (Some "deposit_oxapay") None danger]]
  /\ (LIVE_PRICES b !! coin = None ->
      crypto_needed_for b amount_usd coin = PrimFloat.div amount_usd one_float)
  /\ (forall price,
        LIVE_PRICES b !! coin = Some price ->
        PrimFloat.ltb PrimFloat.zero price = false ->
        crypto_needed_for b amount_usd coin = PrimFloat.zero).
Proof.
intros coin amount_usd Hcoin Hnet Hcode Hlink. split; [|split].
- unfold oxapay_currency_selected. cbn [negb]. fold coin. rewrite Hcoin. cbn [negb].
  unfold create_invoice. cbv zeta. cbn [merchant_key callback_url].
  fold amount_usd. unfold request_payload in Hnet. rewrite Hnet.
  cbn [Z.eqb Pos.eqb negb]. rewrite Hcode, Hlink. cbn [negb snd].
  rewrite Flow.last_app_singleton. reflexivity.
- intros Hp. unfold crypto_needed_for, _live_price. rewrite Hp. reflexivity.
- intros price Hp Hneg. unfold crypto_needed_for, _live_price. rewrite Hp.
  cbn [from_option id]. rewrite Hneg. reflexivity.
Qed.

Lemma invoice_screen_amount_witness :
  List.last (snd (oxapay_currency_selected shipped Reference.bot_with_user
                    (net Reference.online) true "oxapay_cur_BTC" 12345 1700000000
                    (UserData (Some Reference.fifty) None None None)))
            (Answer NotForYou true)
  = SafeEdit (InvoiceReady Reference.fifty "" "BTC" Reference.milli)
             [[Button PayNowLabel None (Some Reference.invoice_link) primary];
              [Button NewDepositLabel (Some "deposit_oxapay") None danger]].
Proof.
exact (proj1 (invoice_screen_amount shipped Reference.bot_with_user
                (net Reference.online) "oxapay_cur_BTC" 12345 1700000000
                (UserData (Some Reference.fifty) None None None)
                [("result", JInt 100); ("payLink", Reference.invoice_link)]
                eq_refl eq_refl eq_refl eq_refl)).
Defined.

(** X27.  Commas in a custom amount are dropped wherever they stand
    (lines 442-446).  A text made of digits and commas, with one digit
    at least, is read as the number its digits spell: [1,000] is a
    thousand, and so is [10,00].  The flow then goes on to the currency
    selection with that amount when it is not below the minimum, and
    asks again when it is. *)
Theorem commas_are_dropped_wherever_they_stand (cfg : config) (b : bot) (user_id : Z)
    (text : string) (ud : user_data) :
  digits_and_commas text ->
  typed_digits text <> [] ->
  let amount := nearest (value_from 0 (typed_digits text)) 1 in
  of_string (replace "," "" (strip text)) = Some amount
  /\ oxapay_receive_custom_amount cfg b user_id (Some text) ud
     = if PrimFloat.ltb amount (OXAPAY_MIN_DEPOSIT_USD cfg)
       then (_STATE_CUSTOM, ud,
             [ReplyText (InvalidAmount (OXAPAY_MIN_DEPOSIT_USD cfg)) [[back_button]]])
       else _show_currency_selector cfg b user_id
              (UserData (Some amount) None (oxapay_last_order ud) (oxapay_last_coin ud))
              true.
Proof.
intros Htext Hne amount.
assert (of_string (replace "," "" (strip text)) = Some amount) as Hparse.
{ rewrite strip_typed by exact Htext. unfold replace.
  rewrite replace_fuel_commas; [|lia | exact Htext].
  apply of_string_digits; [apply typed_digits_decimal | exact Hne]. }
split; [exact Hparse|].
unfold oxapay_receive_custom_amount, parse_custom_amount.
cbn [from_option id]. rewrite Hparse.
destruct (PrimFloat.ltb amount (OXAPAY_MIN_DEPOSIT_USD cfg)); reflexivity.
Qed.

Lemma commas_are_dropped_wherever_they_stand_witness :
  of_string (replace "," "" (strip "1,000")) = Some 0x1.f4p+9%float
  /\ fst (fst (oxapay_receive_custom_amount shipped Reference.bot_with_user 12345
                 (Some "10,00") Reference.no_data))
     = _STATE_CURRENCY.
Proof.
split.
- exact (proj1 (commas_are_dropped_wherever_they_stand shipped Reference.bot_with_user
                  12345 "1,000" Reference.no_data eq_refl ltac:(discriminate))).
- reflexivity.
Defined.

End Screens.

(* ===================================================================== *)
(** * The conversation as the library runs it *)
(* ===================================================================== *)

Module Dialogue.

Import PyStr PyFloat Json Oxapay Spec PyStrFacts Formats Menus Talk.

(** X17.  No button of a running conversation is left without a
    handler (lines 371-533 against lines 654-682).  Whenever a step
    leaves the conversation in a state other than [END], every button
    it has put on the screen is taken by a handler registered for that
    state; the one exception is [back_to_deposit_menu], which leads
    back to the menu of [bot.py]. *)
Theorem shown_buttons_are_answered (cfg : config) (user_id : Z)
    (conv : conv_state * user_data) (x : update * circumstances) (data : string) :
  let out := step cfg user_id conv x in
  fst (fst out) <> END ->
  In data (callbacks (snd out)) ->
  data = "back_to_deposit_menu" \/ answers (fst (fst out)) data.
Proof.
cbv zeta. unfold step. destruct (fst x) as [d|t|c|] eqn:Hu;
  try (destruct (select (fst conv) _) as [h|];
       [apply handle_live | intros _ []]).
intros H. destruct H. reflexivity.
Qed.

Lemma shown_buttons_are_answered_witness :
  "oxapay_amt_50" = "back_to_deposit_menu" \/ answers _STATE_AMOUNT "oxapay_amt_50".
Proof.
apply (shown_buttons_are_answered shipped 12345 (END, Reference.no_data)
         (CallbackQuery "deposit_oxapay", Reference.offline) "oxapay_amt_50").
- discriminate.
- vm_compute. right. right. right. left. reflexivity.
Defined.

(** X18.  After a failed invoice the Back button leads nowhere (lines
    571-595 against lines 654-682).  When the owner presses a
    configured coin and no invoice with a payment link comes back, the
    handler shows the failure message with the button
    [oxapay_back_to_amounts] and ends the conversation, the session
    data unchanged.  A conversation that has ended takes the entry
    button [deposit_oxapay] and nothing else: every other update,
    that Back button among them, changes nothing and shows nothing. *)
Theorem back_after_failed_invoice_is_dead (cfg : config) (user_id : Z) (ud : user_data)
    (data : string) (c : circumstances) :
  re_match (StartsWith "oxapay_cur_") data = true ->
  owner c = true ->
  mem (upper (replace "oxapay_cur_" "" data)) (OXAPAY_SUPPORTED_CURRENCIES cfg) = true ->
  (forall payload link, ~ invoice_ok (net c payload) link) ->
  let out := step cfg user_id (_STATE_CURRENCY, ud) (CallbackQuery data, c) in
  fst out = (END, ud)
  /\ In "oxapay_back_to_amounts" (callbacks (snd out))
  /\ (forall ud' u c',
        is_entry u = false ->
        step cfg user_id (END, ud') (u, c') = (END, ud', [])).
Proof.
intros Hdata Howner Hcoin Hfail. cbv zeta. split; [|split].
- unfold step. cbn [fst snd]. rewrite (select_currency data Hdata). cbn [handle data_of].
  unfold with_ui, oxapay_currency_selected. rewrite Howner, Hcoin. cbn [negb].
  set (client := Client _ _).
  set (amount := default PrimFloat.zero (oxapay_usd_amount ud)).
  pose proof (Flow.create_invoice_result client (net c) amount
                (upper (replace "oxapay_cur_" "" data)) (make_order_id user_id (now c))
                "Casino Deposit") as Hres.
  destruct (create_invoice client (net c) amount _ _ _) as [[r|] http]; [|reflexivity].
  destruct (proj1 (Hres r) eq_refl) as (d & -> & Hnet & Hcode).
  destruct (truthy (pay_link_of d)) eqn:Hlink; [|reflexivity].
  exfalso. eapply (Hfail _ (pay_link_of d)). exists d.
    split; [exact Hnet|]. split; [exact Hcode|]. split; [reflexivity | exact Hlink].
- unfold step. cbn [fst snd]. rewrite (select_currency data Hdata). cbn [handle data_of].
  unfold with_ui, oxapay_currency_selected. rewrite Howner, Hcoin. cbn [negb].
  set (client := Client _ _).
  set (amount := default PrimFloat.zero (oxapay_usd_amount ud)).
  pose proof (Flow.create_invoice_result client (net c) amount
                (upper (replace "oxapay_cur_" "" data)) (make_order_id user_id (now c))
                "Casino Deposit") as Hres.
  destruct (create_invoice client (net c) amount _ _ _) as [[r|] http].
  + destruct (proj1 (Hres r) eq_refl) as (d & -> & Hnet & Hcode).
    destruct (truthy (pay_link_of d)) eqn:Hlink.
    * exfalso. eapply (Hfail _ (pay_link_of d)). exists d.
    split; [exact Hnet|]. split; [exact Hcode|]. split; [reflexivity | exact Hlink].
    * cbn [negb snd]. apply in_flat_map.
      exists (Ui (SafeEdit NoPaymentLink [[back_button]])). split; [|left; reflexivity].
      apply in_map, in_or_app. right. right. left. reflexivity.
  + cbn [snd]. apply in_flat_map.
    exists (Ui (SafeEdit InvoiceFailed [[back_button]])). split; [|left; reflexivity].
    apply in_map, in_or_app. right. left. reflexivity.
- intros ud' u c' Hu. unfold is_entry in Hu. unfold step. cbn [fst snd].
  destruct u; [| | |reflexivity];
    unfold select; cbn [entry_points first_match]; rewrite Hu; reflexivity.
Qed.

Lemma back_after_failed_invoice_is_dead_witness :
  let ud := UserData (Some Reference.fifty) None None None in
  let out := step shipped 12345 (_STATE_CURRENCY, ud)
               (CallbackQuery "oxapay_cur_BTC", Reference.offline) in
  fst out = (END, ud)
  /\ In "oxapay_back_to_amounts" (callbacks (snd out))
  /\ step shipped 12345 (END, ud) (CallbackQuery "oxapay_back_to_amounts", Reference.offline)
     = (END, ud, []).
Proof.
destruct (back_after_failed_invoice_is_dead shipped 12345
            (UserData (Some Reference.fifty) None None None)
            "oxapay_cur_BTC" Reference.offline eq_refl eq_refl eq_refl)
  as (H1 & H2 & H3).
- intros payload link (d & Hd & _). discriminate Hd.
- split; [exact H1|]. split; [exact H2|]. apply H3. reflexivity.
Defined.

(** X19.  When an invoice is requested (lines 538-569 against lines
    654-682).  A step of the conversation sends one request to the
    processor when the conversation is at the currency step and the
    owner of the menu presses a button whose callback data begin with
    [oxapay_cur_] and name a configured currency; in every other case
    it sends none. *)
Theorem invoice_is_requested_at_the_currency_step_only (cfg : config) (user_id : Z)
    (conv : conv_state * user_data) (x : update * circumstances) :
  requests (snd (step cfg user_id conv x)) = if pays cfg conv x then 1%nat else 0%nat.
Proof.
unfold step, pays. destruct conv as [s ud]. destruct x as [u c]. cbn [fst snd].
destruct u as [data|text|command|].
- destruct (select s (CallbackQuery data)) as [h|] eqn:Hsel.
  + rewrite handle_requests. destruct h;
      try (pose proof (select_currency_inv s (CallbackQuery data)) as Hinv;
           destruct s; try reflexivity;
           destruct (re_match (StartsWith "oxapay_cur_") data) eqn:E; try reflexivity;
           rewrite (select_currency data E) in Hsel; discriminate Hsel).
    destruct (select_currency_inv _ _ Hsel) as (-> & d & [= <-] & ->). reflexivity.
  + destruct s; try reflexivity.
    destruct (re_match (StartsWith "oxapay_cur_") data) eqn:E; [|reflexivity].
    rewrite (select_currency data E) in Hsel. discriminate Hsel.
- destruct (select s (TextMessage text)) as [h|] eqn:Hsel.
  + rewrite handle_requests. destruct h; try (destruct s; reflexivity).
    destruct (select_currency_inv _ _ Hsel) as (_ & d & Hd & _). discriminate Hd.
  + destruct s; reflexivity.
- destruct (select s (CommandMessage command)) as [h|] eqn:Hsel.
  + rewrite handle_requests. destruct h; try (destruct s; reflexivity).
    destruct (select_currency_inv _ _ Hsel) as (_ & d & Hd & _). discriminate Hd.
  + destruct s; reflexivity.
- destruct s; reflexivity.
Qed.

(** X20.  What a conversation has stored when it gets to a step (lines
    436, 458, 480 and 634-635 against lines 654-682).  From its start
    and after any sequence of updates, lapses of the time-out among
    them: when the conversation is at the currency step an amount is
    stored in the session data, so that the invoice is never requested
    for the default of line 547; when it waits for a custom amount the
    flag [oxapay_awaiting_custom] is set. *)
Theorem conversation_has_what_its_step_needs (cfg : config) (user_id : Z)
    (ud : user_data) (xs : list (update * circumstances)) :
  let out := converse cfg user_id (END, ud) xs in
  (fst (fst out) = _STATE_CURRENCY -> is_Some (oxapay_usd_amount (snd (fst out))))
  /\ (fst (fst out) = _STATE_CUSTOM -> oxapay_awaiting_custom (snd (fst out)) = Some true).
Proof.
cbv zeta. pose proof (converse_in_step cfg user_id xs (END, ud) I) as H.
unfold in_step in H. split; intros Hs; rewrite Hs in H; exact H.
Qed.

(** X25.  Back and Cancel drop what is pending (lines 630-647 against
    lines 654-682).  In every state of a running conversation: the Back
    button forgets the stored amount and the custom-amount flag and
    shows the amount menu again, or, when the menu is not the presser's,
    forgets them all the same and ends the conversation; [/cancel]
    forgets them, says so and ends the conversation; a button that
    carries [cancel] does the same without a word.  The record of the
    last order is kept throughout. *)
Theorem back_and_cancel_drop_what_is_pending (cfg : config) (user_id : Z)
    (s : conv_state) (ud : user_data) (c : circumstances) :
  s <> END ->
  step cfg user_id (s, ud) (CallbackQuery "oxapay_back_to_amounts", c)
  = (if owner c
     then (_STATE_AMOUNT, pop_pending ud,
           [AnswerPlain; AnswerPlain;
            EditAmountMenu (OXAPAY_MIN_DEPOSIT_USD cfg) amount_keyboard])
     else (END, pop_pending ud, [AnswerPlain; Ui (Answer NotForYou true)]))
  /\ step cfg user_id (s, ud) (CommandMessage "cancel", c)
     = (END, pop_pending ud, [ReplyCancelled])
  /\ step cfg user_id (s, ud) (CallbackQuery "cancel", c) = (END, pop_pending ud, [])
  /\ pop_pending ud = UserData None None (oxapay_last_order ud) (oxapay_last_coin ud).
Proof.
intros Hs. destruct c as [bd [|] nt nw];
  destruct s; try (destruct Hs; reflexivity); repeat split.
Qed.

Lemma back_and_cancel_drop_what_is_pending_witness :
  let ud := UserData (Some Reference.fifty) None (Some Reference.order) None in
  step shipped 12345 (_STATE_CURRENCY, ud) (CommandMessage "cancel", Reference.offline)
  = (END, UserData None None (Some Reference.order) None, [ReplyCancelled]).
Proof.
exact (proj1 (proj2 (back_and_cancel_drop_what_is_pending shipped 12345 _STATE_CURRENCY
                       (UserData (Some Reference.fifty) None (Some Reference.order) None)
                       Reference.offline ltac:(discriminate)))).
Defined.

End Dialogue.

(* ===================================================================== *)
(** * The server: start-up and messages *)
(* ===================================================================== *)

Module Server.

Import Json Oxapay Spec Effects Delivery Deliveries Handler Outcomes Messages.

(** X21.  The server starts only when it is configured (lines 335-362).
    With an empty or placeholder merchant key or host,
    [start_oxapay_webhook] logs one warning and does nothing else: no
    route, no listening socket, [_bot_ref] left unset.  That is the
    case of the configuration the source file ships with.  Otherwise it
    registers the handler at the webhook path, listens on [0.0.0.0] at
    the configured port and sets [_bot_ref], which gives the state the
    deliveries start from. *)
Theorem server_starts_only_when_configured (cfg : config) (b : bot) :
  let out := start_oxapay_webhook cfg (initial b) in
  (unconfigured cfg ->
   fst out = initial b
   /\ List.existsb serves (snd out) = false
   /\ exists line, snd out = [StartupLog WARNING line])
  /\ (~ unconfigured cfg ->
      fst out = shared (started b)
      /\ snd out
         = [AddPost (OXAPAY_WEBHOOK_PATH cfg);
            RunnerSetup;
            SiteStart "0.0.0.0" (OXAPAY_WEBHOOK_PORT cfg);
            StartupLog INFO (Listening (OXAPAY_WEBHOOK_PORT cfg) (OXAPAY_WEBHOOK_PATH cfg))])
  /\ unconfigured shipped.
Proof.
cbv zeta. unfold start_oxapay_webhook, unconfigured.
destruct (String.eqb_spec (OXAPAY_MERCHANT_KEY cfg) "") as [Hk1 | Hk1];
  [|destruct (String.eqb_spec (OXAPAY_MERCHANT_KEY cfg) "sandbox") as [Hk2 | Hk2];
    [|destruct (String.eqb_spec (OXAPAY_WEBHOOK_HOST cfg) "") as [Hh1 | Hh1];
      [|destruct (String.eqb_spec (OXAPAY_WEBHOOK_HOST cfg) "https://yourdomain.com")
          as [Hh2 | Hh2]]]];
  cbn [orb fst snd];
  (split; [|split; [|right; left; reflexivity]]);
  try (intros _; split; [reflexivity|]; split; [reflexivity | eexists; reflexivity]);
  try (intros Hno; exfalso; apply Hno; tauto).
- intros [H | [H | [H | H]]]; contradiction.
- intros _. split; reflexivity.
Qed.

(** X22.  One message per order, whatever the interleaving (lines
    268-273 and 300-315).  For every sequence of webhook deliveries,
    resumed in any order, and for every dedup key: at most one message
    is sent for the deliveries that carry the key, and no message is
    sent for a key that has not been recorded. *)
Theorem one_message_per_dedup_key {api : BotApi} (cfg : config) (b : bot)
    (schedule : list action) (k : pykey) :
  let h := history (run cfg b schedule) in
  (sends k h <= adds k h)%nat /\ (sends k h <= 1)%nat.
Proof.
cbv zeta.
pose proof (run_covered cfg b schedule k) as Hcov.
pose proof (fold_exec_inv cfg schedule (started b) (started_inv b)) as [Hinv _].
destruct (Hinv k) as (_ & Hone & _). fold (run cfg b schedule) in Hone.
split; lia.
Qed.

End Server.
